(** * OnkoDICOM: dataset discovery and the batch DVH-to-CSV export

    A shallow embedding of
      - [src/Model/LoadPatients.py]  ([natural_sort], [get_datasets]) and
      - [src/Model/batchprocessing/BatchProcessDVH2CSV.py]
        ([BatchProcessDVH2CSV.start], [dvh2csv], [set_filename]),
    followed by the properties of these functions.

    Conventions of the embedding.
      - A Python [str] is the [string] of the bytes of its UTF-8 encoding
        (a byte that belongs to no UTF-8 sequence stands for the lone
        surrogate that Python's file-system encoding makes of it).  What
        depends on the characters ([str.isdigit], [int], [str.lower],
        [str.upper], slices) goes through [decode]; what the Unicode
        character database says about a character is a parameter, the
        class [Unicode].
      - A [pathlib.Path] is the list of its parts; a path is looked up in
        the file system as written: there are no links, and a part [..]
        is not resolved.
      - A Python [dict] indexed by [int] and [str] keys is a [gmap Key _].
      - A Python exception is a value of [exn]; a call that may raise returns
        a [result].
      - The side effects of [start] (progress signal, standard output, the
        shared patient container, the files under the output directory) are
        the fields of an explicit state, threaded by a small state-and-error
        monad. *)

From Stdlib Require Import ZArith NArith List Ascii String DecimalString Lia.
From stdpp Require Import base gmap strings list sorting.

(** ** Python results *)

Inductive exn : Type :=
  | TypeError
  | KeyError
  | ValueError
  | OSError
  | OtherError (tag : string).

Inductive result (A : Type) : Type :=
  | Ok (a : A)
  | Raise (e : exn).
Arguments Ok {A} a.
Arguments Raise {A} e.

Definition rbind {A B} (m : result A) (k : A -> result B) : result B :=
  match m with
  | Ok a => k a
  | Raise e => Raise e
  end.

(** ** Characters and strings, as [natural_sort] uses them *)

(** The code points of a [str], read off its UTF-8 encoding.  A sequence
    is taken when it is well formed (shortest form, no surrogate, at most
    U+10FFFF); any other byte [b] is the lone surrogate U+DC00 + [b]. *)
Definition is_cont (b : N) : bool := ((128 <=? b) && (b <=? 191))%N.

Definition cp2 (b0 b1 : N) : N := ((b0 - 192) * 64 + (b1 - 128))%N.

Definition cp3 (b0 b1 b2 : N) : N :=
  ((b0 - 224) * 4096 + (b1 - 128) * 64 + (b2 - 128))%N.

Definition cp4 (b0 b1 b2 b3 : N) : N :=
  ((b0 - 240) * 262144 + (b1 - 128) * 4096 + (b2 - 128) * 64 + (b3 - 128))%N.

Definition seq2 (b0 b1 : N) : bool :=
  ((194 <=? b0) && (b0 <=? 223))%N && is_cont b1.

Definition seq3 (b0 b1 b2 : N) : bool :=
  ((224 <=? b0) && (b0 <=? 239))%N && is_cont b1 && is_cont b2
  && (2048 <=? cp3 b0 b1 b2)%N
  && negb ((55296 <=? cp3 b0 b1 b2) && (cp3 b0 b1 b2 <=? 57343))%N.

Definition seq4 (b0 b1 b2 b3 : N) : bool :=
  ((240 <=? b0) && (b0 <=? 244))%N && is_cont b1 && is_cont b2 && is_cont b3
  && ((65536 <=? cp4 b0 b1 b2 b3) && (cp4 b0 b1 b2 b3 <=? 1114111))%N.

Definition escaped (b : N) : N := (56320 + b)%N.

Fixpoint decode (s : string) : list N :=
  match s with
  | EmptyString => []
  | String c0 s1 =>
      let b0 := N_of_ascii c0 in
      if (b0 <? 128)%N then b0 :: decode s1
      else
        match s1 with
        | EmptyString => escaped b0 :: decode s1
        | String c1 s2 =>
            let b1 := N_of_ascii c1 in
            if seq2 b0 b1 then cp2 b0 b1 :: decode s2
            else
              match s2 with
              | EmptyString => escaped b0 :: decode s1
              | String c2 s3 =>
                  let b2 := N_of_ascii c2 in
                  if seq3 b0 b1 b2 then cp3 b0 b1 b2 :: decode s3
                  else
                    match s3 with
                    | EmptyString => escaped b0 :: decode s1
                    | String c3 s4 =>
                        if seq4 b0 b1 b2 (N_of_ascii c3)
                        then cp4 b0 b1 b2 (N_of_ascii c3) :: decode s4
                        else escaped b0 :: decode s1
                    end
              end
        end
  end.

(** The letters A-Z and a-z among the code points *)
Definition lower_ascii (c : N) : N :=
  if ((65 <=? c) && (c <=? 90))%N then (c + 32)%N else c.

Definition upper_ascii (c : N) : N :=
  if ((97 <=? c) && (c <=? 122))%N then (c - 32)%N else c.

(** What Python takes from the Unicode character database:
    [numeric_digit c] is [ch.isdigit()] for the character [ch] of code
    point [c]; [decimal_digit c] is the value [int] gives a decimal digit,
    [None] for any other character; [to_lower] and [to_upper] are
    [str.lower] and [str.upper], on the code points of a whole string
    (a character may become several, and the lower-case form of a sigma
    depends on its neighbours).  The laws say what the database holds for
    the characters of ASCII, and that lower-casing makes no string
    empty. *)
Class Unicode : Type := mkUnicode {
  numeric_digit : N -> bool;
  decimal_digit : N -> option N;
  to_lower : list N -> list N;
  to_upper : list N -> list N;
  numeric_digit_ascii : forall c : N,
    (c < 128)%N -> numeric_digit c = ((48 <=? c) && (c <=? 57))%N;
  decimal_digit_ascii : forall c : N,
    (48 <= c <= 57)%N -> decimal_digit c = Some (c - 48)%N;
  to_lower_ascii : forall l : list N,
    Forall (fun c => (c < 128)%N) l -> to_lower l = map lower_ascii l;
  to_upper_ascii : forall l : list N,
    Forall (fun c => (c < 128)%N) l -> to_upper l = map upper_ascii l;
  to_lower_nil : forall l : list N, to_lower l = [] -> l = []
}.

(** The digits 0-9, as the pattern [[0-9]] matches them *)
Definition isdigit_char (c : ascii) : bool :=
  ((48 <=? N_of_ascii c) && (N_of_ascii c <=? 57))%N.

Fixpoint str_forall (p : ascii -> bool) (s : string) : bool :=
  match s with
  | EmptyString => true
  | String c s' => p c && str_forall p s'
  end.

(** The string is not empty and holds nothing but the digits 0-9. *)
Definition decimal_string (s : string) : bool :=
  match s with
  | EmptyString => false
  | String _ _ => str_forall isdigit_char s
  end.

Definition is_ascii (s : string) : bool :=
  str_forall (fun c => (N_of_ascii c <? 128)%N) s.

Fixpoint value_from (acc : N) (s : string) : N :=
  match s with
  | EmptyString => acc
  | String c s' => value_from (acc * 10 + (N_of_ascii c - 48))%N s'
  end.

(** The number a string of the digits 0-9 stands for *)
Definition decimal_value (s : string) : N := value_from 0%N s.

(** [str(i)] for a non-negative integer *)
Definition str_of_nat (n : nat) : string :=
  NilZero.string_of_uint (Nat.to_uint n).

Section Strings.
Context `{Unicode}.

(** [text.isdigit()]: false on the empty string *)
Definition isdigit (text : string) : bool :=
  match decode text with
  | [] => false
  | c :: l => forallb numeric_digit (c :: l)
  end.

Fixpoint int_from (acc : N) (l : list N) : result N :=
  match l with
  | [] => Ok acc
  | c :: l' =>
      match decimal_digit c with
      | Some v => int_from (acc * 10 + v)%N l'
      | None => Raise ValueError
      end
  end.

(** [int(text)] for a [text] with [text.isdigit()]: every character has to
    be a decimal digit, or [int] raises [ValueError]. *)
Definition int_of_str (text : string) : result N := int_from 0%N (decode text).

(** [text.lower()], as code points *)
Definition lower (text : string) : list N := to_lower (decode text).

End Strings.

(** ** [re.split('([0-9]+)', key)]

    The pattern matches the maximal runs of the digits 0-9, left to right;
    since the pattern is a capturing group the matched runs are kept.  The
    result therefore alternates text, digits, text, ..., text: it starts and
    ends with a (possibly empty) piece of text.  The head of the result for
    [String c s'] is obtained from the result for [s']: a digit either opens
    a new run or extends the run that [s'] starts with, any other character
    extends the leading text.  A digit 0-9 is one byte of the encoding and
    no byte of another character, so the pieces of the bytes are the
    pieces of the characters. *)
Fixpoint re_split_digits (s : string) : list string :=
  match s with
  | EmptyString => [""]
  | String c s' =>
      match re_split_digits s' with
      | [] => []
      | t :: rest =>
          if isdigit_char c then
            match t, rest with
            | EmptyString, d :: rest' => "" :: String c d :: rest'
            | _, _ => "" :: String c "" :: t :: rest
            end
          else String c t :: rest
      end
  end.

(** ** The sort key *)

(** An element of the key list: an [int] or a [str]. *)
Inductive tok : Type :=
  | TInt (n : N)
  | TStr (s : list N).

(** Python compares two [str] by their code points. *)
Fixpoint str_compare (x y : list N) : comparison :=
  match x, y with
  | [], [] => Eq
  | [], _ :: _ => Lt
  | _ :: _, [] => Gt
  | a :: x', b :: y' =>
      match (a ?= b)%N with
      | Eq => str_compare x' y'
      | c => c
      end
  end.

Definition str_eqb (x y : list N) : bool :=
  match str_compare x y with Eq => true | _ => false end.

Definition str_ltb (x y : list N) : bool :=
  match str_compare x y with Lt => true | _ => false end.

(** Python [==] on key elements: an [int] never equals a [str]. *)
Definition tok_eqb (a b : tok) : bool :=
  match a, b with
  | TInt x, TInt y => (x =? y)%N
  | TStr x, TStr y => str_eqb x y
  | _, _ => false
  end.

(** Python [<] on key elements: between an [int] and a [str] it raises
    [TypeError]. *)
Definition tok_lt (a b : tok) : result bool :=
  match a, b with
  | TInt x, TInt y => Ok (x <? y)%N
  | TStr x, TStr y => Ok (str_ltb x y)
  | _, _ => Raise TypeError
  end.

(** Python [<] on lists: the first pair of unequal elements decides; when
    there is none the shorter list is the smaller one. *)
Fixpoint list_lt (a b : list tok) : result bool :=
  match a, b with
  | [], [] => Ok false
  | [], _ :: _ => Ok true
  | _ :: _, [] => Ok false
  | x :: a', y :: b' => if tok_eqb x y then list_lt a' b' else tok_lt x y
  end.

(** ** [sorted(file_list, key=alphanum_key)]

    [sorted] first computes the key of every element, in the order of the
    list, then sorts; it is stable and compares keys with [<] only.  Here
    each element is inserted, from left to right, into the already sorted
    prefix, behind every element that it is not smaller than.  Which keys
    an implementation of [sorted] compares is its own matter, and matters
    when [<] can raise: but a sort that compares with [<] only has to
    compare, sooner or later, two keys on which [<] raises if there are
    such keys in the list (nothing else tells it their order), so it raises
    exactly when this one does. *)
Fixpoint insort (x : list tok * string) (l : list (list tok * string))
  : result (list (list tok * string)) :=
  match l with
  | [] => Ok [x]
  | y :: l' =>
      rbind (list_lt (fst x) (fst y)) (fun b =>
        if b then Ok (x :: y :: l')
        else rbind (insort x l') (fun r => Ok (y :: r)))
  end.

Definition sorted_step (acc : result (list (list tok * string)))
    (x : list tok * string) : result (list (list tok * string)) :=
  rbind acc (insort x).

Fixpoint map_result {A B} (f : A -> result B) (l : list A)
  : result (list B) :=
  match l with
  | [] => Ok []
  | x :: l' =>
      rbind (f x) (fun y => rbind (map_result f l') (fun r => Ok (y :: r)))
  end.

Section NaturalSort.
Context `{Unicode}.

(** [convert = lambda text: int(text) if text.isdigit() else text.lower()] *)
Definition convert (text : string) : result tok :=
  if isdigit text then rbind (int_of_str text) (fun n => Ok (TInt n))
  else Ok (TStr (lower text)).

(** [alphanum_key = lambda key: [convert(c) for c in re.split(..., key)]] *)
Definition alphanum_key (key : string) : result (list tok) :=
  map_result convert (re_split_digits key).

(** The elements with their keys *)
Definition keyed (file_list : list string)
  : result (list (list tok * string)) :=
  map_result (fun x => rbind (alphanum_key x) (fun k => Ok (k, x))) file_list.

Definition natural_sort (file_list : list string) : result (list string) :=
  rbind (keyed file_list) (fun ks =>
    rbind (fold_left sorted_step ks (Ok [])) (fun s => Ok (map snd s))).

End NaturalSort.

(** ** [get_datasets] *)

(** Keys of the two dictionaries: an [int] for a CT slice, a [str] for the
    RT files. *)
Inductive Key : Type :=
  | KInt (i : nat)
  | KStr (s : string).

#[global] Instance Key_eq_dec : EqDecision Key.
Proof. solve_decision. Defined.

#[global] Instance Key_countable : Countable Key.
Proof.
  refine (inj_countable'
            (fun k => match k with KInt i => inl i | KStr s => inr s end)
            (fun x => match x with inl i => KInt i | inr s => KStr s end) _).
  intros []; reflexivity.
Defined.

(** What [pydicom.dcmread] returns.  The code reads the attributes
    [Modality] and [PatientID], which every dataset the codec returns
    exposes; [body] stands for the rest of the file. *)
Record Dataset : Type := mkDataset {
  Modality : string;
  PatientID : string;
  body : nat
}.

#[global] Instance Dataset_eq_dec : EqDecision Dataset.
Proof. solve_decision. Defined.

(** The part of the outside world [get_datasets] looks at:
    [glob pat] is the list [glob.glob(pat)] returns (in any order),
    [isfile] is [os.path.isfile], and [dcmread file] is [None] when
    [pydicom.dcmread(file)] raises. *)
Record Directory : Type := mkDirectory {
  glob : string -> list string;
  isfile : string -> bool;
  dcmread : string -> option Dataset
}.

Fixpoint has_slash (p : string) : bool :=
  match p with
  | EmptyString => false
  | String c p' => Ascii.eqb c "/" || has_slash p'
  end.

(** [os.path.basename]: what follows the last slash *)
Fixpoint basename (p : string) : string :=
  match p with
  | EmptyString => EmptyString
  | String c p' =>
      if has_slash p' then basename p'
      else if Ascii.eqb c "/" then p' else p
  end.

Section Discovery.
Context `{Unicode}.

(** [os.path.basename(file)[0:2].upper() in ['CT', 'RD', 'RP', 'RS', 'RT']]:
    the slice takes the first two characters. *)
Definition has_dicom_prefix (file : string) : bool :=
  existsb (fun p => str_eqb (to_upper (take 2 (decode (basename file))))
                            (decode p))
          ["CT"; "RD"; "RP"; "RS"; "RT"].

(** The variables of the loop: the two dictionaries, the CT counter [i] and
    the lines printed so far. *)
Record Loop : Type := mkLoop {
  read_data_dict : gmap Key Dataset;
  file_names_dict : gmap Key string;
  ct_index : nat;
  printed : list string
}.

Definition store_under (k : Key) (read_file : Dataset) (file : string)
    (st : Loop) : Loop :=
  {| read_data_dict := <[k := read_file]> (read_data_dict st);
     file_names_dict := <[k := file]> (file_names_dict st);
     ct_index := ct_index st;
     printed := printed st |}.

(** One turn of [for file in dcm_files] *)
Definition loop_body (d : Directory) (st : Loop) (file : string) : Loop :=
  if isfile d file && has_dicom_prefix file then
    match dcmread d file with
    | None =>
        {| read_data_dict := read_data_dict st;
           file_names_dict := file_names_dict st;
           ct_index := ct_index st;
           printed := printed st ++ ["ERROR: Cannot read file " +:+ file] |}
    | Some read_file =>
        if String.eqb (Modality read_file) "CT" then
          let st' := store_under (KInt (ct_index st)) read_file file st in
          {| read_data_dict := read_data_dict st';
             file_names_dict := file_names_dict st';
             ct_index := ct_index st + 1;
             printed := printed st' |}
        else if String.eqb (Modality read_file) "RTSTRUCT" then
          store_under (KStr "rtss") read_file file st
        else if String.eqb (Modality read_file) "RTDOSE" then
          store_under (KStr "rtdose") read_file file st
        else if String.eqb (Modality read_file) "RTPLAN" then
          store_under (KStr "rtplan") read_file file st
        else st
    end
  else st.

Definition loop_init : Loop :=
  {| read_data_dict := ∅; file_names_dict := ∅; ct_index := 0;
     printed := ["Natural Sorting..."] |}.

(** [get_datasets(path)]: the two dictionaries, and the lines it printed. *)
Definition get_datasets (d : Directory) (path : string)
  : result (gmap Key Dataset * gmap Key string * list string) :=
  rbind (natural_sort (glob d (path +:+ "/*"))) (fun dcm_files =>
    let st := fold_left (loop_body d) dcm_files loop_init in
    Ok (read_data_dict st, file_names_dict st, printed st)).

End Discovery.

(** ** The values [dvh2csv] handles *)

(** The floating-point numbers of numpy and pandas are kept abstract:
    [round2] is rounding to two decimals ([DataFrame.round(2)]), [zero] is
    the [0.0] handed to [fillna], and [isnan] tells the values [fillna]
    takes for missing (NaN). *)
Class Numeric : Type := mkNumeric {
  num : Type;
  round2 : num -> num;
  zero : num;
  isnan : num -> bool
}.

Section Frames.
Context `{Numeric}.

(** A DVH as [dvh2csv] reads it: [dvh.name], [dvh.volume] and
    [dvh.relative_volume.counts]. *)
Record DVH : Type := mkDVH {
  name : string;
  volume : num;
  counts : list num
}.

(** A cell of a row: a string, a number, or the missing value pandas puts
    where a row is too short. *)
Inductive cell : Type :=
  | CStr (s : string)
  | CNum (x : num)
  | CNaN.

(** [range(0, stop, step)] *)
Definition range0 (stop step : nat) : list nat :=
  map (fun k => k * step) (seq 0 ((stop + step - 1) / step)).

(** One turn of [for i in range(0, len(dose), 10)]: append [dose[i]] and
    update the running maximum.  [i] is below [len(dose)], so the lookup
    always succeeds. *)
Definition dose_step (dose : list num) (acc : list cell * nat) (i : nat)
  : list cell * nat :=
  let '(dvh_roi_list, max_roi_dose) := acc in
  (match dose !! i with
   | Some v => dvh_roi_list ++ [CNum v]
   | None => dvh_roi_list
   end,
   if max_roi_dose <? i then i else max_roi_dose).

(** One turn of [for i in dict_dvh]; [dict_dvh] is given by its items, in
    the order of the dictionary. *)
Definition roi_step (patient_id : string) (acc : list (list cell) * nat)
    (item : N * DVH) : list (list cell) * nat :=
  let '(dvh_csv_list, max_roi_dose) := acc in
  let dvh := snd item in
  let dvh_roi_list := [CStr patient_id; CStr (name dvh); CNum (volume dvh)] in
  let dose := counts dvh in
  let '(dvh_roi_list, max_roi_dose) :=
    fold_left (dose_step dose) (range0 (length dose) 10)
              (dvh_roi_list, max_roi_dose) in
  (dvh_csv_list ++ [dvh_roi_list], max_roi_dose).

(** The rows [dvh_csv_list] and the value of [max_roi_dose] after the loop *)
Definition csv_rows (dict_dvh : list (N * DVH)) (patient_id : string)
  : list (list cell) * nat :=
  fold_left (roi_step patient_id) dict_dvh ([], 0).

(** [csv_header] once the dose columns are appended *)
Definition csv_header_of (max_roi_dose : nat) : list string :=
  ["Patient ID"; "ROI"; "Volume (mL)"]
    ++ map (fun i => str_of_nat i +:+ "cGy") (range0 (max_roi_dose + 1) 10).

(** *** pandas *)

Record DataFrame : Type := mkDataFrame {
  columns : list string;
  rows : list (list cell)
}.

Definition row_width (data : list (list cell)) : nat :=
  foldr Nat.max 0 (map (@length cell) data).

Definition pad_row (w : nat) (row : list cell) : list cell :=
  row ++ replicate (w - length row) CNaN.

(** [pd.DataFrame(data, columns=cols)] for a list of rows: shorter rows are
    filled with missing values up to the longest one, and the constructor
    raises [ValueError] when the number of column names is not the length
    of the longest row.  An empty list of rows gives an empty frame with
    the given columns. *)
Definition pd_DataFrame (data : list (list cell)) (cols : list string)
  : result DataFrame :=
  match data with
  | [] => Ok {| columns := cols; rows := [] |}
  | _ :: _ =>
      if row_width data =? length cols
      then Ok {| columns := cols; rows := map (pad_row (row_width data)) data |}
      else Raise ValueError
  end.

Definition map_cells (f : cell -> cell) (df : DataFrame) : DataFrame :=
  {| columns := columns df; rows := map (map f) (rows df) |}.

(** [df.round(2)] *)
Definition df_round (df : DataFrame) : DataFrame :=
  map_cells (fun c => match c with CNum x => CNum (round2 x) | _ => c end) df.

(** What [fillna(0.0)] makes of a number *)
Definition filled (x : num) : num := if isnan x then zero else x.

(** [df.fillna(0.0, inplace=True)]: the missing cells, and the numbers that
    are NaN, become [0.0]. *)
Definition df_fillna (df : DataFrame) : DataFrame :=
  map_cells (fun c => match c with
                      | CNaN => CNum zero
                      | CNum x => CNum (filled x)
                      | CStr _ => c
                      end) df.

(** A line of the CSV file *)
Inductive line : Type :=
  | HeaderLine (labels : list string)
  | DataLine (cells : list cell).

(** What [to_csv(..., header=h)] writes.  ['Patient ID'] is the first
    column, so after [set_index('Patient ID')] the index is written first
    and the order of the fields is the order of the columns. *)
Definition csv_lines (df : DataFrame) (header : bool) : list line :=
  (if header then [HeaderLine (columns df)] else [])
    ++ map DataLine (rows df).

(** The frame [dvh2csv] hands to [to_csv] *)
Definition dvh_frame (dict_dvh : list (N * DVH)) (patient_id : string)
  : result DataFrame :=
  let '(dvh_csv_list, max_roi_dose) := csv_rows dict_dvh patient_id in
  rbind (pd_DataFrame dvh_csv_list (csv_header_of max_roi_dose)) (fun pddf_csv =>
    Ok (df_fillna (df_round pddf_csv))).

(** *** Paths and files *)

(** A [pathlib.Path], by its parts; the root of an absolute path is its
    first part. *)
Definition Path : Type := list string.

(** [q.split('/')] *)
Fixpoint split_slash (q : string) : list string :=
  match q with
  | EmptyString => [""]
  | String c q' =>
      match split_slash q' with
      | [] => []
      | t :: rest =>
          if Ascii.eqb c "/" then "" :: t :: rest else String c t :: rest
      end
  end.

(** The parts of a string handed to [pathlib]: empty parts and [.] are
    dropped. *)
Definition parse_parts (q : string) : list string :=
  List.filter (fun x => negb (String.eqb x "") && negb (String.eqb x "."))
              (split_slash q).

(** The root of a string: [/], or [//] when it begins with exactly two
    slashes *)
Definition root_of (q : string) : option string :=
  match q with
  | String "/" (String "/" (String "/" _)) => Some "/"
  | String "/" (String "/" _) => Some "//"
  | String "/" _ => Some "/"
  | _ => None
  end.

(** [Path.joinpath(p, q)] for a string [q]: an absolute [q] replaces [p]. *)
Definition joinpath (p : Path) (q : string) : Path :=
  match root_of q with
  | Some r => r :: parse_parts q
  | None => p ++ parse_parts q
  end.

Inductive node : Type :=
  | Dir
  | File (content : list line).

Definition fs_isdir (fs : gmap Path node) (p : Path) : bool :=
  match fs !! p with Some Dir => true | _ => false end.

Definition fs_isfile (fs : gmap Path node) (p : Path) : bool :=
  match fs !! p with Some (File _) => true | _ => false end.

(** The directory a new entry [p] is made in, when [p] names one: the
    parts before the last, which is not [..] and not the root. *)
Definition parent (p : Path) : option Path :=
  match List.rev p with
  | [] => None
  | x :: before =>
      if String.eqb x ".." || String.eqb x "/" || String.eqb x "//"
      then None
      else Some (List.rev before)
  end.

(** Making the entry [p]: its directory has to exist. *)
Definition fs_create (p : Path) (n : node) (fs : gmap Path node)
  : result (gmap Path node) :=
  match parent p with
  | Some d => if fs_isdir fs d then Ok (<[p := n]> fs) else Raise OSError
  | None => Raise OSError
  end.

(** [os.mkdir(p)]: an [OSError] when the path exists or cannot be made *)
Definition fs_mkdir (p : Path) (fs : gmap Path node)
  : result (gmap Path node) :=
  match fs !! p with
  | Some _ => Raise OSError
  | None => fs_create p Dir fs
  end.

(** Opening [p] in mode ['a'] and writing [ls] *)
Definition fs_append (p : Path) (ls : list line) (fs : gmap Path node)
  : result (gmap Path node) :=
  match fs !! p with
  | Some (File old) => Ok (<[p := File (old ++ ls)]> fs)
  | Some Dir => Raise OSError
  | None => fs_create p (File ls) fs
  end.

End Frames.

(** ** The batch process *)

Section BatchProcess.
Context `{Numeric}.

(** Modelled from the spec: the class [PatientDictContainer] (its source is
    not part of the files embedded here).  It is the process-wide container
    of the currently loaded patient: [dataset] is the modality-keyed index,
    [additional_data] holds what [get(name)] returns, and [clear()] empties
    the store. *)
Record PatientDictContainer : Type := mkContainer {
  dataset : gmap Key Dataset;
  additional_data : gmap string (list (N * string))
}.

Definition container_empty : PatientDictContainer :=
  {| dataset := ∅; additional_data := ∅ |}.

(** The two places where [start] polls [interrupt_flag.is_set()].  The flag
    is set by another thread, so the two polls are independent. *)
Inductive checkpoint : Type :=
  | OnEntry
  | AfterDVH.

Record Event : Type := mkEvent {
  is_set : checkpoint -> bool
}.

(** The functions of [ImageLoading] that [start] calls.  Their results are
    opaque; either may raise. *)
Record ImageLoading : Type := mkImageLoading {
  get_thickness_dict :
    Dataset -> gmap Key Dataset -> result (list (N * num));
  calc_dvhs :
    Dataset -> Dataset -> option (list (N * string)) -> list (N * num) ->
    Event -> result (list (N * DVH))
}.

(** The attributes of a [BatchProcessDVH2CSV] object that [start] reads.
    [ready] is what [load_images] returned in [__init__]. *)
Record BatchProcessDVH2CSV : Type := mkJob {
  interrupt_flag : Event;
  ready : bool;
  output_path : Path;
  filename : string
}.

(** Everything [start] can change. *)
Record World : Type := mkWorld {
  patient_dict_container : PatientDictContainer;
  files : gmap Path node;
  progress : list (string * nat);
  stdout : list string
}.

(** What [start] returns *)
Inductive pyval : Type :=
  | PyNone
  | PyBool (b : bool).

Definition truthy (v : pyval) : bool :=
  match v with
  | PyNone => false
  | PyBool b => b
  end.

(** *** State and exceptions *)

Definition M (A : Type) : Type := World -> result A * World.

Definition ret {A} (a : A) : M A := fun w => (Ok a, w).

Definition raise {A} (e : exn) : M A := fun w => (Raise e, w).

Definition bind {A B} (m : M A) (k : A -> M B) : M B :=
  fun w =>
    match m w with
    | (Ok a, w') => k a w'
    | (Raise e, w') => (Raise e, w')
    end.

Definition lift {A} (r : result A) : M A := fun w => (r, w).

(** [try: m except TypeError: handler] *)
Definition except_TypeError {A} (m : M A) (handler : M A) : M A :=
  fun w =>
    match m w with
    | (Raise TypeError, w') => handler w'
    | other => other
    end.

End BatchProcess.

Declare Scope py_scope.
Delimit Scope py_scope with py.
Notation "x <- m ;; k" := (bind m (fun x => k))
  (at level 100, m at next level, right associativity) : py_scope.
Notation "m ;; k" := (bind m (fun _ => k))
  (at level 100, right associativity) : py_scope.

Section Start.
Context `{Numeric}.
Open Scope py_scope.

(** [self.progress_callback.emit((message, percent))] *)
Definition emit (report : string * nat) : M unit :=
  fun w =>
    (Ok tt, {| patient_dict_container := patient_dict_container w;
               files := files w;
               progress := progress w ++ [report];
               stdout := stdout w |}).

Definition print (text : string) : M unit :=
  fun w =>
    (Ok tt, {| patient_dict_container := patient_dict_container w;
               files := files w;
               progress := progress w;
               stdout := stdout w ++ [text] |}).

(** [self.patient_dict_container.clear()] *)
Definition container_clear : M unit :=
  fun w =>
    (Ok tt, {| patient_dict_container := container_empty;
               files := files w;
               progress := progress w;
               stdout := stdout w |}).

(** [self.patient_dict_container.dataset] *)
Definition container_dataset : M (gmap Key Dataset) :=
  fun w => (Ok (dataset (patient_dict_container w)), w).

(** [self.patient_dict_container.get(name)] *)
Definition container_get (k : string) : M (option (list (N * string))) :=
  fun w => (Ok (additional_data (patient_dict_container w) !! k), w).

(** [d[k]] *)
Definition getitem (d : gmap Key Dataset) (k : Key) : M Dataset :=
  match d !! k with
  | Some v => ret v
  | None => raise KeyError
  end.

Definition os_path_isdir (p : Path) : M bool :=
  fun w => (Ok (fs_isdir (files w) p), w).

Definition os_path_isfile (p : Path) : M bool :=
  fun w => (Ok (fs_isfile (files w) p), w).

Definition with_files (f : gmap Path node -> result (gmap Path node))
  : M unit :=
  fun w =>
    match f (files w) with
    | Ok fs' =>
        (Ok tt, {| patient_dict_container := patient_dict_container w;
                   files := fs';
                   progress := progress w;
                   stdout := stdout w |})
    | Raise e => (Raise e, w)
    end.

Definition os_mkdir (p : Path) : M unit := with_files (fs_mkdir p).

(** [pddf_csv.to_csv(tar_path, mode='a', header=create_header)] *)
Definition to_csv (pddf_csv : DataFrame) (tar_path : Path)
    (create_header : bool) : M unit :=
  with_files (fs_append tar_path (csv_lines pddf_csv create_header)).

(** [BatchProcessDVH2CSV.dvh2csv] *)
Definition dvh2csv (dict_dvh : list (N * DVH)) (path : Path)
    (csv_name patient_id : string) : M unit :=
  let tar_path := joinpath path csv_name in
  is_file <- os_path_isfile tar_path ;;
  let create_header := negb is_file in
  let '(dvh_csv_list, max_roi_dose) := csv_rows dict_dvh patient_id in
  let csv_header := csv_header_of max_roi_dose in
  pddf_csv <- lift (pd_DataFrame dvh_csv_list csv_header) ;;
  let pddf_csv := df_fillna (df_round pddf_csv) in
  to_csv pddf_csv tar_path create_header.

Definition stopped : string := "Stopped DVH2CSV".

Definition skipping : string :=
  "Error when calculating ROI thickness. The dataset may be incomplete. "
    +:+ String "010" "Skipping DVH2CSV.".

(** [BatchProcessDVH2CSV.start] *)
Definition start (self : BatchProcessDVH2CSV) (il : ImageLoading)
  : M pyval :=
  if is_set (interrupt_flag self) OnEntry then
    print stopped ;;
    container_clear ;;
    ret (PyBool false)
  else if negb (ready self) then
    ret PyNone
  else
    emit ("Checking dataset...", 40) ;;
    emit ("Calculating DVH...", 60) ;;
    read_data_dict <- container_dataset ;;
    dataset_rtss <- getitem read_data_dict (KStr "rtss") ;;
    dataset_rtdose <- getitem read_data_dict (KStr "rtdose") ;;
    rois <- container_get "rois" ;;
    computed <-
      except_TypeError
        (dict_thickness <-
           lift (get_thickness_dict il dataset_rtss read_data_dict) ;;
         raw_dvh <-
           lift (calc_dvhs il dataset_rtss dataset_rtdose rois
                           dict_thickness (interrupt_flag self)) ;;
         ret (Some raw_dvh))
        (print skipping ;; ret None) ;;
    match computed with
    | None => ret PyNone
    | Some raw_dvh =>
        if is_set (interrupt_flag self) AfterDVH then
          print stopped ;;
          container_clear ;;
          ret (PyBool false)
        else
          emit ("Exporting DVH to CSV...", 90) ;;
          let path := joinpath (output_path self) "CSV" in
          ds <- container_dataset ;;
          rtss <- getitem ds (KStr "rtss") ;;
          let patient_id := PatientID rtss in
          is_dir <- os_path_isdir path ;;
          (if negb is_dir then os_mkdir path else ret tt) ;;
          dvh2csv raw_dvh path (filename self) patient_id ;;
          ret PyNone
    end.

(** [BatchProcessDVH2CSV.set_filename] *)
Definition set_filename (self : BatchProcessDVH2CSV) (name : string)
  : BatchProcessDVH2CSV :=
  {| interrupt_flag := interrupt_flag self;
     ready := ready self;
     output_path := output_path self;
     filename := if String.eqb name "" then "DVHs_.csv" else name |}.

End Start.

(** ** The natural order, in the words of the specification

    "Split each string into maximal runs of digit characters and non-digit
    characters (alternating), compare run by run - digit runs as numeric
    values, non-digit runs as case-insensitive text - the first differing
    run decides; a shorter sequence that is a strict prefix sorts first."

    These definitions follow that sentence, not the code; they are compared
    with [alphanum_key] and [list_lt] below.  The sentence does not say how
    a digit run compares with a non-digit run: [spec_run_compare] is [None]
    there.  The digit characters are the digits 0-9 of the pattern;
    non-digit runs are compared after [str.lower]. *)

Inductive run : Type :=
  | DigitRun (s : string)
  | TextRun (s : string).

Fixpoint spec_runs (s : string) : list run :=
  match s with
  | EmptyString => []
  | String c s' =>
      if isdigit_char c then
        match spec_runs s' with
        | DigitRun d :: rest => DigitRun (String c d) :: rest
        | rest => DigitRun (String c "") :: rest
        end
      else
        match spec_runs s' with
        | TextRun t :: rest => TextRun (String c t) :: rest
        | rest => TextRun (String c "") :: rest
        end
  end.

Section SpecOrder.
Context `{Unicode}.

Definition spec_run_compare (a b : run) : option comparison :=
  match a, b with
  | DigitRun x, DigitRun y => Some (decimal_value x ?= decimal_value y)%N
  | TextRun x, TextRun y => Some (str_compare (lower x) (lower y))
  | _, _ => None
  end.

Fixpoint spec_compare_runs (a b : list run) : option comparison :=
  match a, b with
  | [], [] => Some Eq
  | [], _ :: _ => Some Lt
  | _ :: _, [] => Some Gt
  | x :: a', y :: b' =>
      match spec_run_compare x y with
      | Some Eq => spec_compare_runs a' b'
      | other => other
      end
  end.

Definition spec_natural_compare (a b : string) : option comparison :=
  spec_compare_runs (spec_runs a) (spec_runs b).

End SpecOrder.

(** The list [re.split] returns, and the key, read off the runs.  At a
    text position ([_T]) a digit run is preceded by the empty text, and the
    end of the string is the empty text; at a digit position ([_D]) the end
    of the string ends the list. *)
Fixpoint split_T (rs : list run) : list string :=
  match rs with
  | [] => [""]
  | TextRun t :: rs' => t :: split_D rs'
  | DigitRun d :: rs' => "" :: d :: split_T rs'
  end
with split_D (rs : list run) : list string :=
  match rs with
  | [] => []
  | DigitRun d :: rs' => d :: split_T rs'
  | TextRun t :: rs' => t :: split_D rs'
  end.

Definition run_valid (r : run) : bool :=
  match r with
  | DigitRun d => decimal_string d
  | TextRun t =>
      negb (String.eqb t "") && str_forall (fun c => negb (isdigit_char c)) t
  end.

Definition is_digit_run (r : run) : bool :=
  match r with DigitRun _ => true | TextRun _ => false end.

(** No two neighbouring runs are of the same kind. *)
Fixpoint alternating (rs : list run) : bool :=
  match rs with
  | [] => true
  | r :: rs' =>
      match rs' with
      | [] => true
      | r' :: _ => negb (Bool.eqb (is_digit_run r) (is_digit_run r'))
      end && alternating rs'
  end.

Section Order.
Context `{Unicode}.

(** [alphanum_key(x) < alphanum_key(y)] *)
Definition key_lt (x y : string) : result bool :=
  rbind (alphanum_key x) (fun kx =>
    rbind (alphanum_key y) (fun ky => list_lt kx ky)).

(** [x] is not after [y] in the natural order: the keys compare, and that
    of [y] is not the smaller one. *)
Definition key_le (x y : string) : Prop := key_lt y x = Ok false.

(** Neither name is before the other in the natural order. *)
Definition key_tie (x y : string) : bool :=
  match key_lt x y, key_lt y x with
  | Ok false, Ok false => true
  | _, _ => false
  end.

(** Every piece of the name that [str.isdigit] takes for a number is made
    of the digits 0-9. *)
Definition plain_piece (t : string) : bool :=
  implb (isdigit t) (decimal_string t).

Definition plain (s : string) : bool :=
  forallb plain_piece (re_split_digits s).

(** [convert] on the pieces of a plain name, where it cannot raise *)
Definition convert_plain (text : string) : tok :=
  if decimal_string text then TInt (decimal_value text)
  else TStr (lower text).

Definition plain_key (key : string) : list tok :=
  map convert_plain (re_split_digits key).

End Order.

(** The keys [x] and [y] can be compared. *)
Definition comparable (x y : list tok) : Prop :=
  exists b, list_lt x y = Ok b.

(** [sorted] on keyed elements, with a comparison that cannot raise *)
Definition elt_ltb (x y : list tok * string) : bool :=
  match list_lt (fst x) (fst y) with
  | Ok b => b
  | Raise _ => false
  end.

Fixpoint insort_total (x : list tok * string)
    (l : list (list tok * string)) : list (list tok * string) :=
  match l with
  | [] => [x]
  | y :: l' => if elt_ltb x y then x :: y :: l' else y :: insort_total x l'
  end.

Definition elt_le (x y : list tok * string) : Prop :=
  list_lt (fst y) (fst x) = Ok false.

(** An element and its key *)
Definition well_keyed `{Unicode} (e : list tok * string) : Prop :=
  alphanum_key (snd e) = Ok (fst e).

(** ** Vocabulary for the statements about [get_datasets] *)

Section DiscoveryVocabulary.
Context `{Unicode}.

(** The file passes the test of the [if] in the loop. *)
Definition inspected (d : Directory) (file : string) : bool :=
  isfile d file && has_dicom_prefix file.

(** The file is inspected and [dcmread] raises on it. *)
Definition unreadable (d : Directory) (file : string) : bool :=
  inspected d file
  && match dcmread d file with Some _ => false | None => true end.

(** The file is inspected, read, and reports modality [m]. *)
Definition has_modality (d : Directory) (m : string) (file : string) : bool :=
  inspected d file
  && match dcmread d file with
     | Some read_file => String.eqb (Modality read_file) m
     | None => false
     end.

(** The modality stored under each [str] key *)
Definition modality_of_label (label : string) : option string :=
  if String.eqb label "rtss" then Some "RTSTRUCT"
  else if String.eqb label "rtdose" then Some "RTDOSE"
  else if String.eqb label "rtplan" then Some "RTPLAN"
  else None.

End DiscoveryVocabulary.

Definition cannot_read (file : string) : string :=
  "ERROR: Cannot read file " +:+ file.

(** ** Vocabulary for the statements about [dvh2csv] and [start] *)

Section Vocabulary.
Context `{Numeric}.

(** The number of entries [range(0, len(dose), 10)] visits *)
Definition samples_count (dose : list num) : nat := (length dose + 9) / 10.

(** The largest number of sampled bins among the records *)
Definition max_samples (dict_dvh : list (N * DVH)) : nat :=
  foldr Nat.max 0 (map (fun item => samples_count (counts (snd item))) dict_dvh).

(** The dose labels [0cGy], [10cGy], ... of a header with [n] dose columns *)
Definition dose_labels (n : nat) : list string :=
  map (fun k => str_of_nat (10 * k) +:+ "cGy") (seq 0 n).

(** The line of a record in a file with [n] dose columns: the volume and
    the sampled bins, rounded, with [0.0] for a value that is NaN and where
    the record has no bin. *)
Definition record_row (patient_id : string) (n : nat) (dvh : DVH)
  : list cell :=
  [CStr patient_id; CStr (name dvh); CNum (filled (round2 (volume dvh)))]
    ++ map (fun k => match counts dvh !! (10 * k) with
                     | Some v => CNum (filled (round2 v))
                     | None => CNum zero
                     end) (seq 0 n).

(** A name for a file in a directory: not empty, not [.] or [..], without
    a slash and without the character NUL. *)
Definition file_name (q : string) : bool :=
  negb (String.eqb q "") && negb (String.eqb q ".")
  && negb (String.eqb q "..")
  && str_forall (fun c => negb (Ascii.eqb c "/") && negb (Ascii.eqb c "000")) q.

(** The store holds the two datasets [start] looks up. *)
Definition loaded (w : World) (rtss rtdose : Dataset) : Prop :=
  dataset (patient_dict_container w) !! KStr "rtss" = Some rtss
  /\ dataset (patient_dict_container w) !! KStr "rtdose" = Some rtdose.

(** What the [try] block of [start] computes in world [w] *)
Definition computed (self : BatchProcessDVH2CSV) (il : ImageLoading)
    (w : World) (rtss rtdose : Dataset) : result (list (N * DVH)) :=
  rbind (get_thickness_dict il rtss (dataset (patient_dict_container w)))
    (fun dict_thickness =>
       calc_dvhs il rtss rtdose
         (additional_data (patient_dict_container w) !! "rois")
         dict_thickness (interrupt_flag self)).

Definition checking : string * nat := ("Checking dataset...", 40).
Definition calculating : string * nat := ("Calculating DVH...", 60).
Definition exporting : string * nat := ("Exporting DVH to CSV...", 90).

End Vocabulary.

(** A number type for the examples: decimal numbers with three places,
    kept as integers (thousandths), and NaN; [round2] rounds to the nearest
    hundredth, a tie to the even one. *)
Definition round_hundredth (x : Z) : Z :=
  let q := (x / 10)%Z in
  let r := (x mod 10)%Z in
  if (r <? 5)%Z then (10 * q)%Z
  else if (5 <? r)%Z then (10 * (q + 1))%Z
  else if Z.even q then (10 * q)%Z else (10 * (q + 1))%Z.

Definition milli : Numeric :=
  {| num := option Z;
     round2 := option_map round_hundredth;
     zero := Some 0%Z;
     isnan := fun x => match x with Some _ => false | None => true end |}.

Section Checkpoints.
Context `{Numeric}.

(** The world when the [try] block of [start] is left *)
Definition after_dvh (w : World) : World :=
  {| patient_dict_container := patient_dict_container w;
     files := files w;
     progress := progress w ++ [checking; calculating];
     stdout := stdout w |}.

(** The statements of [start] behind the second checkpoint *)
Definition export_csv (self : BatchProcessDVH2CSV)
    (raw_dvh : list (N * DVH)) : M pyval :=
  (emit exporting ;;
   let path := joinpath (output_path self) "CSV" in
   ds <- container_dataset ;;
   rtss <- getitem ds (KStr "rtss") ;;
   let patient_id := PatientID rtss in
   is_dir <- os_path_isdir path ;;
   (if negb is_dir then os_mkdir path else ret tt) ;;
   dvh2csv raw_dvh path (filename self) patient_id ;;
   ret PyNone)%py.

(** One of the two checkpoints finds the flag set. *)
Definition cancelled (self : BatchProcessDVH2CSV) (il : ImageLoading)
    (w : World) : Prop :=
  is_set (interrupt_flag self) OnEntry = true
  \/ (ready self = true
      /\ exists rtss rtdose raw_dvh,
           loaded w rtss rtdose
           /\ computed self il w rtss rtdose = Ok raw_dvh
           /\ is_set (interrupt_flag self) AfterDVH = true).

(** The world a cancelled run leaves, [sent] being the progress reports
    made before the flag was seen *)
Definition stopped_world (w : World) (sent : list (string * nat)) : World :=
  {| patient_dict_container := container_empty;
     files := files w;
     progress := progress w ++ sent;
     stdout := stdout w ++ [stopped] |}.

End Checkpoints.

(** ** Examples *)

Definition ex_rtss : Dataset := mkDataset "RTSTRUCT" "PAT7" 1.
Definition ex_rtdose : Dataset := mkDataset "RTDOSE" "PAT7" 2.

Definition ex_store : PatientDictContainer :=
  {| dataset := <[KStr "rtss" := ex_rtss]> (<[KStr "rtdose" := ex_rtdose]> ∅);
     additional_data := ∅ |}.

(** The output directory exists and is empty. *)
Definition ex_world : @World milli :=
  {| patient_dict_container := ex_store;
     files := <[["out"] := Dir]> ∅;
     progress := [];
     stdout := [] |}.

(** A record of 25 bins, a record of one bin, and a record of volume zero
    whose only bin is NaN *)
Definition ex_dvhs : list (N * @DVH milli) :=
  [(1%N, @mkDVH milli "PTV" (Some 51234%Z)
           (map (fun i => Some (100000 - 1111 * Z.of_nat i)%Z) (seq 0 25)));
   (2%N, @mkDVH milli "Lung" (Some 7004%Z) [Some 99996%Z]);
   (3%N, @mkDVH milli "Tip" (Some 0%Z) [None])].

(** A record without bins *)
Definition ex_no_bins : list (N * @DVH milli) :=
  [(1%N, @mkDVH milli "PTV" (Some 51234%Z) [])].

Definition ex_loading (r : result (list (N * @DVH milli)))
  : @ImageLoading milli :=
  {| get_thickness_dict := fun _ _ => Ok [];
     calc_dvhs := fun _ _ _ _ _ => r |}.

Definition ex_job (on_entry after : bool) (is_ready : bool)
  : BatchProcessDVH2CSV :=
  {| interrupt_flag :=
       {| is_set := fun c => match c with
                             | OnEntry => on_entry
                             | AfterDVH => after
                             end |};
     ready := is_ready;
     output_path := ["out"];
     filename := "DVHs_.csv" |}.

(** A directory with two CT slices, two structure sets, a dose file, a
    text file, a file of another modality and a file that cannot be
    read *)
Definition ex_directory : Directory :=
  {| glob := fun _ =>
       ["/p/RS2.dcm"; "/p/CT10.dcm"; "/p/notes.txt"; "/p/rd1.dcm";
        "/p/CT2.dcm"; "/p/RS1.dcm"; "/p/RT9.dcm"; "/p/CT3.dcm"];
     isfile := fun _ => true;
     dcmread := fun file =>
       if String.eqb file "/p/CT10.dcm" then Some (mkDataset "CT" "PAT7" 10)
       else if String.eqb file "/p/CT2.dcm" then Some (mkDataset "CT" "PAT7" 2)
       else if String.eqb file "/p/RS1.dcm"
            then Some (mkDataset "RTSTRUCT" "PAT7" 21)
       else if String.eqb file "/p/RS2.dcm"
            then Some (mkDataset "RTSTRUCT" "PAT7" 22)
       else if String.eqb file "/p/rd1.dcm"
            then Some (mkDataset "RTDOSE" "PAT7" 30)
       else if String.eqb file "/p/RT9.dcm"
            then Some (mkDataset "MR" "PAT7" 40)
       else None |}.

(** The comparison of the specification, completed: where a digit run
    meets a non-digit run the digit run comes first. *)
Section TotalOrder.
Context `{Unicode}.

Definition run_compare_total (a b : run) : comparison :=
  match spec_run_compare a b with
  | Some c => c
  | None => if is_digit_run a then Lt else Gt
  end.

Fixpoint compare_runs_total (a b : list run) : comparison :=
  match a, b with
  | [], [] => Eq
  | [], _ :: _ => Lt
  | _ :: _, [] => Gt
  | x :: a', y :: b' =>
      match run_compare_total x y with
      | Eq => compare_runs_total a' b'
      | c => c
      end
  end.

Definition natural_compare (a b : string) : comparison :=
  compare_runs_total (spec_runs a) (spec_runs b).

End TotalOrder.

Definition no_text_head (rs : list run) : Prop :=
  match rs with TextRun _ :: _ => False | _ => True end.

(** [ka] and [kb] compare, with Python's [<] both ways, as [c] says. *)
Definition agrees (c : comparison) (ka kb : list tok) : Prop :=
  list_lt ka kb = Ok (match c with Lt => true | _ => false end)
  /\ list_lt kb ka = Ok (match c with Gt => true | _ => false end).

Definition tok_agrees (c : comparison) (a b : tok) : Prop :=
  match c with
  | Eq => tok_eqb a b = true /\ tok_eqb b a = true
  | Lt => tok_eqb a b = false /\ tok_eqb b a = false
          /\ tok_lt a b = Ok true /\ tok_lt b a = Ok false
  | Gt => tok_eqb a b = false /\ tok_eqb b a = false
          /\ tok_lt a b = Ok false /\ tok_lt b a = Ok true
  end.

(** What holds of the loop variables of [get_datasets] once the files
    [pre] are processed. *)
Section LoopInvariant.
Context `{Unicode}.

Record loop_inv (d : Directory) (pre : list string) (st : Loop) : Prop := {
  inv_index :
    ct_index st = length (List.filter (has_modality d "CT") pre);
  inv_ct : forall k,
    file_names_dict st !! KInt k
    = List.filter (has_modality d "CT") pre !! k;
  inv_rt : forall s,
    file_names_dict st !! KStr s
    = modality_of_label s ≫= fun m => last (List.filter (has_modality d m) pre);
  inv_read : forall k : Key,
    read_data_dict st !! k = file_names_dict st !! k ≫= dcmread d;
  inv_out :
    printed st
    = "Natural Sorting..." :: map cannot_read (List.filter (unreadable d) pre)
}.

End LoopInvariant.

Section RawRows.
Context `{Numeric}.

(** The cell for sample [k] of a record, before rounding and filling *)
Definition raw_cell (dose : list num) (k : nat) : cell :=
  match dose !! (10 * k) with Some v => CNum v | None => CNaN end.

(** The row [dvh_roi_list] of a record *)
Definition raw_row (patient_id : string) (dvh : DVH) : list cell :=
  [CStr patient_id; CStr (name dvh); CNum (volume dvh)]
    ++ map (raw_cell (counts dvh)) (seq 0 (samples_count (counts dvh))).

End RawRows.

(** The content of a CSV file of an earlier export *)
Definition ex_old : list (@line milli) :=
  [HeaderLine ["Patient ID"; "ROI"; "Volume (mL)"; "0cGy"];
   DataLine [CStr "PAT1"; CStr "PTV"; @CNum milli (Some 10%Z);
             @CNum milli (Some 20%Z)]].

(** The output directory with its CSV directory, and, with [Some content],
    the CSV file of an earlier export *)
Definition ex_csv_world (old : option (list (@line milli))) : @World milli :=
  {| patient_dict_container := ex_store;
     files := match old with
              | Some content =>
                  <[["out"; "CSV"; "DVHs_.csv"] := File content]>
                    (<[["out"; "CSV"] := Dir]> (<[["out"] := Dir]> ∅))
              | None => <[["out"; "CSV"] := Dir]> (<[["out"] := Dir]> ∅)
              end;
     progress := [];
     stdout := [] |}.

(** ** Further vocabulary *)

(** The string does not begin with a digit. *)
Definition starts_nondigit (s : string) : bool :=
  match s with
  | EmptyString => true
  | String c _ => negb (isdigit_char c)
  end.

(** The modality a key stands for *)
Definition modality_of_key (k : Key) : option string :=
  match k with
  | KInt _ => Some "CT"
  | KStr label => modality_of_label label
  end.

(** [x.lower()] and [x.upper()] of a string of ASCII characters, as
    strings *)
Definition on_char (f : N -> N) (c : ascii) : ascii :=
  ascii_of_N (f (N_of_ascii c)).

Fixpoint str_map (f : N -> N) (s : string) : string :=
  match s with
  | EmptyString => EmptyString
  | String c s' => String (on_char f c) (str_map f s')
  end.

Definition lower_string : string -> string := str_map lower_ascii.
Definition upper_string : string -> string := str_map upper_ascii.

Section ExportRun.
Context `{Numeric}.

(** The world when [start] has made its three progress reports *)
Definition at_export (w : World) : World :=
  {| patient_dict_container := patient_dict_container w;
     files := files w;
     progress := progress w ++ [checking; calculating; exporting];
     stdout := stdout w |}.

(** The same world with other files *)
Definition with_fs (w : World) (fs : gmap Path node) : World :=
  {| patient_dict_container := patient_dict_container w;
     files := fs;
     progress := progress w;
     stdout := stdout w |}.

(** The run passes both checkpoints with the DVHs [raw_dvh]. *)
Definition reaches_export (self : BatchProcessDVH2CSV) (il : ImageLoading)
    (w : World) (rtss rtdose : Dataset) (raw_dvh : list (N * DVH)) : Prop :=
  ready self = true
  /\ is_set (interrupt_flag self) OnEntry = false
  /\ loaded w rtss rtdose
  /\ computed self il w rtss rtdose = Ok raw_dvh
  /\ is_set (interrupt_flag self) AfterDVH = false.

End ExportRun.

(** ** Further examples *)

(** [ex_directory] with a codec that can read the text file *)
Definition ex_directory_notes : Directory :=
  {| glob := glob ex_directory;
     isfile := isfile ex_directory;
     dcmread := fun file =>
       if String.eqb file "/p/notes.txt" then Some (mkDataset "CT" "PAT7" 99)
       else dcmread ex_directory file |}.

(** [ex_directory] listed in the opposite order *)
Definition ex_directory_rev : Directory :=
  {| glob := fun pat => rev (glob ex_directory pat);
     isfile := isfile ex_directory;
     dcmread := dcmread ex_directory |}.

(** A world whose store holds no patient *)
Definition ex_world_unloaded : @World milli :=
  {| patient_dict_container := container_empty;
     files := <[["out"] := Dir]> ∅;
     progress := [];
     stdout := [] |}.

(** A world without the output directory *)
Definition ex_world_no_out : @World milli :=
  {| patient_dict_container := ex_store;
     files := ∅;
     progress := [];
     stdout := [] |}.

(** Names with a digit that is none of 0-9: [/p/x1] followed by SUPERSCRIPT
    TWO (U+00B2), which [str.isdigit] accepts and [int] refuses, and
    [/p/CT1] followed by ARABIC-INDIC DIGIT THREE (U+0663), which the
    pattern [[0-9]+] leaves in a piece of its own and [int] reads as 3 *)
Definition ex_superscript : string :=
  "/p/x1" +:+ String "194" (String "178" "").

Definition ex_arabic : string :=
  "/p/CT1" +:+ String "217" (String "163" "").

(** A directory whose only entry is a file that does not pass the prefix
    test *)
Definition ex_directory_odd : Directory :=
  {| glob := fun _ => [ex_superscript];
     isfile := fun _ => true;
     dcmread := fun _ => None |}.

(** ** The Unicode character database

    The tables of Unicode 14.0, as CPython 3.11 holds them: the characters
    for which [str.isdigit] is true ([digit_ranges]), the decimal digits
    ([decimal_ranges]: ten in a row, valued 0 to 9), the characters that
    [str.lower] and [str.upper] change ([lower_runs], [upper_runs]: [count]
    characters from [start], [step] apart, go to as many from [target];
    [upper_special]: a character that becomes several), and the two
    properties that decide the lower-case form of a capital sigma.  They
    give the instance of [Unicode] that the examples are computed with. *)

Definition digit_ranges : list (N * N) :=
  [(48, 57); (178, 179); (185, 185); (1632, 1641);
   (1776, 1785); (1984, 1993); (2406, 2415); (2534, 2543);
   (2662, 2671); (2790, 2799); (2918, 2927); (3046, 3055);
   (3174, 3183); (3302, 3311); (3430, 3439); (3558, 3567);
   (3664, 3673); (3792, 3801); (3872, 3881); (4160, 4169);
   (4240, 4249); (4969, 4977); (6112, 6121); (6160, 6169);
   (6470, 6479); (6608, 6618); (6784, 6793); (6800, 6809);
   (6992, 7001); (7088, 7097); (7232, 7241); (7248, 7257);
   (8304, 8304); (8308, 8313); (8320, 8329); (9312, 9320);
   (9332, 9340); (9352, 9360); (9450, 9450); (9461, 9469);
   (9471, 9471); (10102, 10110); (10112, 10120); (10122, 10130);
   (42528, 42537); (43216, 43225); (43264, 43273); (43472, 43481);
   (43504, 43513); (43600, 43609); (44016, 44025); (65296, 65305);
   (66720, 66729); (68160, 68163); (68912, 68921); (69216, 69224);
   (69714, 69722); (69734, 69743); (69872, 69881); (69942, 69951);
   (70096, 70105); (70384, 70393); (70736, 70745); (70864, 70873);
   (71248, 71257); (71360, 71369); (71472, 71481); (71904, 71913);
   (72016, 72025); (72784, 72793); (73040, 73049); (73120, 73129);
   (92768, 92777); (92864, 92873); (93008, 93017); (120782, 120831);
   (123200, 123209); (123632, 123641); (125264, 125273); (127232, 127242);
   (130032, 130041)]%N.

Definition decimal_ranges : list (N * N) :=
  [(48, 57); (1632, 1641); (1776, 1785); (1984, 1993);
   (2406, 2415); (2534, 2543); (2662, 2671); (2790, 2799);
   (2918, 2927); (3046, 3055); (3174, 3183); (3302, 3311);
   (3430, 3439); (3558, 3567); (3664, 3673); (3792, 3801);
   (3872, 3881); (4160, 4169); (4240, 4249); (6112, 6121);
   (6160, 6169); (6470, 6479); (6608, 6617); (6784, 6793);
   (6800, 6809); (6992, 7001); (7088, 7097); (7232, 7241);
   (7248, 7257); (42528, 42537); (43216, 43225); (43264, 43273);
   (43472, 43481); (43504, 43513); (43600, 43609); (44016, 44025);
   (65296, 65305); (66720, 66729); (68912, 68921); (69734, 69743);
   (69872, 69881); (69942, 69951); (70096, 70105); (70384, 70393);
   (70736, 70745); (70864, 70873); (71248, 71257); (71360, 71369);
   (71472, 71481); (71904, 71913); (72016, 72025); (72784, 72793);
   (73040, 73049); (73120, 73129); (92768, 92777); (92864, 92873);
   (93008, 93017); (120782, 120831); (123200, 123209); (123632, 123641);
   (125264, 125273); (130032, 130041)]%N.

Definition lower_runs : list (N * N * N * N) :=
  [(65, 26, 1, 97); (192, 23, 1, 224); (216, 7, 1, 248);
   (256, 24, 2, 257); (306, 3, 2, 307); (313, 8, 2, 314);
   (330, 23, 2, 331); (376, 1, 1, 255); (377, 3, 2, 378);
   (385, 1, 1, 595); (386, 2, 2, 387); (390, 1, 1, 596);
   (391, 1, 1, 392); (393, 2, 1, 598); (395, 1, 1, 396);
   (398, 1, 1, 477); (399, 1, 1, 601); (400, 1, 1, 603);
   (401, 1, 1, 402); (403, 1, 1, 608); (404, 1, 1, 611);
   (406, 1, 1, 617); (407, 1, 1, 616); (408, 1, 1, 409);
   (412, 1, 1, 623); (413, 1, 1, 626); (415, 1, 1, 629);
   (416, 3, 2, 417); (422, 1, 1, 640); (423, 1, 1, 424);
   (425, 1, 1, 643); (428, 1, 1, 429); (430, 1, 1, 648);
   (431, 1, 1, 432); (433, 2, 1, 650); (435, 2, 2, 436);
   (439, 1, 1, 658); (440, 1, 1, 441); (444, 1, 1, 445);
   (452, 1, 1, 454); (453, 1, 1, 454); (455, 1, 1, 457);
   (456, 1, 1, 457); (458, 1, 1, 460); (459, 9, 2, 460);
   (478, 9, 2, 479); (497, 1, 1, 499); (498, 2, 2, 499);
   (502, 1, 1, 405); (503, 1, 1, 447); (504, 20, 2, 505);
   (544, 1, 1, 414); (546, 9, 2, 547); (570, 1, 1, 11365);
   (571, 1, 1, 572); (573, 1, 1, 410); (574, 1, 1, 11366);
   (577, 1, 1, 578); (579, 1, 1, 384); (580, 1, 1, 649);
   (581, 1, 1, 652); (582, 5, 2, 583); (880, 2, 2, 881);
   (886, 1, 1, 887); (895, 1, 1, 1011); (902, 1, 1, 940);
   (904, 3, 1, 941); (908, 1, 1, 972); (910, 2, 1, 973);
   (913, 17, 1, 945); (932, 8, 1, 964); (975, 1, 1, 983);
   (984, 12, 2, 985); (1012, 1, 1, 952); (1015, 1, 1, 1016);
   (1017, 1, 1, 1010); (1018, 1, 1, 1019); (1021, 3, 1, 891);
   (1024, 16, 1, 1104); (1040, 32, 1, 1072); (1120, 17, 2, 1121);
   (1162, 27, 2, 1163); (1216, 1, 1, 1231); (1217, 7, 2, 1218);
   (1232, 48, 2, 1233); (1329, 38, 1, 1377); (4256, 38, 1, 11520);
   (4295, 1, 1, 11559); (4301, 1, 1, 11565); (5024, 80, 1, 43888);
   (5104, 6, 1, 5112); (7312, 43, 1, 4304); (7357, 3, 1, 4349);
   (7680, 75, 2, 7681); (7838, 1, 1, 223); (7840, 48, 2, 7841);
   (7944, 8, 1, 7936); (7960, 6, 1, 7952); (7976, 8, 1, 7968);
   (7992, 8, 1, 7984); (8008, 6, 1, 8000); (8025, 4, 2, 8017);
   (8040, 8, 1, 8032); (8072, 8, 1, 8064); (8088, 8, 1, 8080);
   (8104, 8, 1, 8096); (8120, 2, 1, 8112); (8122, 2, 1, 8048);
   (8124, 1, 1, 8115); (8136, 4, 1, 8050); (8140, 1, 1, 8131);
   (8152, 2, 1, 8144); (8154, 2, 1, 8054); (8168, 2, 1, 8160);
   (8170, 2, 1, 8058); (8172, 1, 1, 8165); (8184, 2, 1, 8056);
   (8186, 2, 1, 8060); (8188, 1, 1, 8179); (8486, 1, 1, 969);
   (8490, 1, 1, 107); (8491, 1, 1, 229); (8498, 1, 1, 8526);
   (8544, 16, 1, 8560); (8579, 1, 1, 8580); (9398, 26, 1, 9424);
   (11264, 48, 1, 11312); (11360, 1, 1, 11361); (11362, 1, 1, 619);
   (11363, 1, 1, 7549); (11364, 1, 1, 637); (11367, 3, 2, 11368);
   (11373, 1, 1, 593); (11374, 1, 1, 625); (11375, 1, 1, 592);
   (11376, 1, 1, 594); (11378, 1, 1, 11379); (11381, 1, 1, 11382);
   (11390, 2, 1, 575); (11392, 50, 2, 11393); (11499, 2, 2, 11500);
   (11506, 1, 1, 11507); (42560, 23, 2, 42561); (42624, 14, 2, 42625);
   (42786, 7, 2, 42787); (42802, 31, 2, 42803); (42873, 2, 2, 42874);
   (42877, 1, 1, 7545); (42878, 5, 2, 42879); (42891, 1, 1, 42892);
   (42893, 1, 1, 613); (42896, 2, 2, 42897); (42902, 10, 2, 42903);
   (42922, 1, 1, 614); (42923, 1, 1, 604); (42924, 1, 1, 609);
   (42925, 1, 1, 620); (42926, 1, 1, 618); (42928, 1, 1, 670);
   (42929, 1, 1, 647); (42930, 1, 1, 669); (42931, 1, 1, 43859);
   (42932, 8, 2, 42933); (42948, 1, 1, 42900); (42949, 1, 1, 642);
   (42950, 1, 1, 7566); (42951, 2, 2, 42952); (42960, 1, 1, 42961);
   (42966, 2, 2, 42967); (42997, 1, 1, 42998); (65313, 26, 1, 65345);
   (66560, 40, 1, 66600); (66736, 36, 1, 66776); (66928, 19, 2, 66967);
   (66929, 5, 2, 66968); (66941, 7, 2, 66980); (66957, 3, 2, 66996);
   (66965, 1, 1, 67004); (68736, 51, 1, 68800); (71840, 32, 1, 71872);
   (93760, 32, 1, 93792); (125184, 34, 1, 125218)]%N.

Definition upper_runs : list (N * N * N * N) :=
  [(97, 26, 1, 65); (181, 1, 1, 924); (224, 23, 1, 192);
   (248, 7, 1, 216); (255, 1, 1, 376); (257, 24, 2, 256);
   (305, 1, 1, 73); (307, 3, 2, 306); (314, 8, 2, 313);
   (331, 23, 2, 330); (378, 3, 2, 377); (383, 1, 1, 83);
   (384, 1, 1, 579); (387, 2, 2, 386); (392, 1, 1, 391);
   (396, 1, 1, 395); (402, 1, 1, 401); (405, 1, 1, 502);
   (409, 1, 1, 408); (410, 1, 1, 573); (414, 1, 1, 544);
   (417, 3, 2, 416); (424, 1, 1, 423); (429, 1, 1, 428);
   (432, 1, 1, 431); (436, 2, 2, 435); (441, 1, 1, 440);
   (445, 1, 1, 444); (447, 1, 1, 503); (453, 1, 1, 452);
   (454, 1, 1, 452); (456, 1, 1, 455); (457, 1, 1, 455);
   (459, 1, 1, 458); (460, 1, 1, 458); (462, 8, 2, 461);
   (477, 1, 1, 398); (479, 9, 2, 478); (498, 1, 1, 497);
   (499, 1, 1, 497); (501, 1, 1, 500); (505, 20, 2, 504);
   (547, 9, 2, 546); (572, 1, 1, 571); (575, 2, 1, 11390);
   (578, 1, 1, 577); (583, 5, 2, 582); (592, 1, 1, 11375);
   (593, 1, 1, 11373); (594, 1, 1, 11376); (595, 1, 1, 385);
   (596, 1, 1, 390); (598, 2, 1, 393); (601, 1, 1, 399);
   (603, 1, 1, 400); (604, 1, 1, 42923); (608, 1, 1, 403);
   (609, 1, 1, 42924); (611, 1, 1, 404); (613, 1, 1, 42893);
   (614, 1, 1, 42922); (616, 1, 1, 407); (617, 1, 1, 406);
   (618, 1, 1, 42926); (619, 1, 1, 11362); (620, 1, 1, 42925);
   (623, 1, 1, 412); (625, 1, 1, 11374); (626, 1, 1, 413);
   (629, 1, 1, 415); (637, 1, 1, 11364); (640, 1, 1, 422);
   (642, 1, 1, 42949); (643, 1, 1, 425); (647, 1, 1, 42929);
   (648, 1, 1, 430); (649, 1, 1, 580); (650, 2, 1, 433);
   (652, 1, 1, 581); (658, 1, 1, 439); (669, 1, 1, 42930);
   (670, 1, 1, 42928); (837, 1, 1, 921); (881, 2, 2, 880);
   (887, 1, 1, 886); (891, 3, 1, 1021); (940, 1, 1, 902);
   (941, 3, 1, 904); (945, 17, 1, 913); (962, 1, 1, 931);
   (963, 9, 1, 931); (972, 1, 1, 908); (973, 2, 1, 910);
   (976, 1, 1, 914); (977, 1, 1, 920); (981, 1, 1, 934);
   (982, 1, 1, 928); (983, 1, 1, 975); (985, 12, 2, 984);
   (1008, 1, 1, 922); (1009, 1, 1, 929); (1010, 1, 1, 1017);
   (1011, 1, 1, 895); (1013, 1, 1, 917); (1016, 1, 1, 1015);
   (1019, 1, 1, 1018); (1072, 32, 1, 1040); (1104, 16, 1, 1024);
   (1121, 17, 2, 1120); (1163, 27, 2, 1162); (1218, 7, 2, 1217);
   (1231, 1, 1, 1216); (1233, 48, 2, 1232); (1377, 38, 1, 1329);
   (4304, 43, 1, 7312); (4349, 3, 1, 7357); (5112, 6, 1, 5104);
   (7296, 1, 1, 1042); (7297, 1, 1, 1044); (7298, 1, 1, 1054);
   (7299, 2, 1, 1057); (7301, 1, 1, 1058); (7302, 1, 1, 1066);
   (7303, 1, 1, 1122); (7304, 1, 1, 42570); (7545, 1, 1, 42877);
   (7549, 1, 1, 11363); (7566, 1, 1, 42950); (7681, 75, 2, 7680);
   (7835, 1, 1, 7776); (7841, 48, 2, 7840); (7936, 8, 1, 7944);
   (7952, 6, 1, 7960); (7968, 8, 1, 7976); (7984, 8, 1, 7992);
   (8000, 6, 1, 8008); (8017, 4, 2, 8025); (8032, 8, 1, 8040);
   (8048, 2, 1, 8122); (8050, 4, 1, 8136); (8054, 2, 1, 8154);
   (8056, 2, 1, 8184); (8058, 2, 1, 8170); (8060, 2, 1, 8186);
   (8112, 2, 1, 8120); (8126, 1, 1, 921); (8144, 2, 1, 8152);
   (8160, 2, 1, 8168); (8165, 1, 1, 8172); (8526, 1, 1, 8498);
   (8560, 16, 1, 8544); (8580, 1, 1, 8579); (9424, 26, 1, 9398);
   (11312, 48, 1, 11264); (11361, 1, 1, 11360); (11365, 1, 1, 570);
   (11366, 1, 1, 574); (11368, 3, 2, 11367); (11379, 1, 1, 11378);
   (11382, 1, 1, 11381); (11393, 50, 2, 11392); (11500, 2, 2, 11499);
   (11507, 1, 1, 11506); (11520, 38, 1, 4256); (11559, 1, 1, 4295);
   (11565, 1, 1, 4301); (42561, 23, 2, 42560); (42625, 14, 2, 42624);
   (42787, 7, 2, 42786); (42803, 31, 2, 42802); (42874, 2, 2, 42873);
   (42879, 5, 2, 42878); (42892, 1, 1, 42891); (42897, 2, 2, 42896);
   (42900, 1, 1, 42948); (42903, 10, 2, 42902); (42933, 8, 2, 42932);
   (42952, 2, 2, 42951); (42961, 1, 1, 42960); (42967, 2, 2, 42966);
   (42998, 1, 1, 42997); (43859, 1, 1, 42931); (43888, 80, 1, 5024);
   (65345, 26, 1, 65313); (66600, 40, 1, 66560); (66776, 36, 1, 66736);
   (66967, 19, 2, 66928); (66968, 5, 2, 66929); (66980, 7, 2, 66941);
   (66996, 3, 2, 66957); (67004, 1, 1, 66965); (68800, 51, 1, 68736);
   (71872, 32, 1, 71840); (93792, 32, 1, 93760); (125218, 34, 1, 125184)]%N.

Definition upper_special : list (N * list N) :=
  [(223, [83; 83]); (329, [700; 78]);
   (496, [74; 780]); (912, [921; 776; 769]);
   (944, [933; 776; 769]); (1415, [1333; 1362]);
   (7830, [72; 817]); (7831, [84; 776]);
   (7832, [87; 778]); (7833, [89; 778]);
   (7834, [65; 702]); (8016, [933; 787]);
   (8018, [933; 787; 768]); (8020, [933; 787; 769]);
   (8022, [933; 787; 834]); (8064, [7944; 921]);
   (8065, [7945; 921]); (8066, [7946; 921]);
   (8067, [7947; 921]); (8068, [7948; 921]);
   (8069, [7949; 921]); (8070, [7950; 921]);
   (8071, [7951; 921]); (8072, [7944; 921]);
   (8073, [7945; 921]); (8074, [7946; 921]);
   (8075, [7947; 921]); (8076, [7948; 921]);
   (8077, [7949; 921]); (8078, [7950; 921]);
   (8079, [7951; 921]); (8080, [7976; 921]);
   (8081, [7977; 921]); (8082, [7978; 921]);
   (8083, [7979; 921]); (8084, [7980; 921]);
   (8085, [7981; 921]); (8086, [7982; 921]);
   (8087, [7983; 921]); (8088, [7976; 921]);
   (8089, [7977; 921]); (8090, [7978; 921]);
   (8091, [7979; 921]); (8092, [7980; 921]);
   (8093, [7981; 921]); (8094, [7982; 921]);
   (8095, [7983; 921]); (8096, [8040; 921]);
   (8097, [8041; 921]); (8098, [8042; 921]);
   (8099, [8043; 921]); (8100, [8044; 921]);
   (8101, [8045; 921]); (8102, [8046; 921]);
   (8103, [8047; 921]); (8104, [8040; 921]);
   (8105, [8041; 921]); (8106, [8042; 921]);
   (8107, [8043; 921]); (8108, [8044; 921]);
   (8109, [8045; 921]); (8110, [8046; 921]);
   (8111, [8047; 921]); (8114, [8122; 921]);
   (8115, [913; 921]); (8116, [902; 921]);
   (8118, [913; 834]); (8119, [913; 834; 921]);
   (8124, [913; 921]); (8130, [8138; 921]);
   (8131, [919; 921]); (8132, [905; 921]);
   (8134, [919; 834]); (8135, [919; 834; 921]);
   (8140, [919; 921]); (8146, [921; 776; 768]);
   (8147, [921; 776; 769]); (8150, [921; 834]);
   (8151, [921; 776; 834]); (8162, [933; 776; 768]);
   (8163, [933; 776; 769]); (8164, [929; 787]);
   (8166, [933; 834]); (8167, [933; 776; 834]);
   (8178, [8186; 921]); (8179, [937; 921]);
   (8180, [911; 921]); (8182, [937; 834]);
   (8183, [937; 834; 921]); (8188, [937; 921]);
   (64256, [70; 70]); (64257, [70; 73]);
   (64258, [70; 76]); (64259, [70; 70; 73]);
   (64260, [70; 70; 76]); (64261, [83; 84]);
   (64262, [83; 84]); (64275, [1348; 1350]);
   (64276, [1348; 1333]); (64277, [1348; 1339]);
   (64278, [1358; 1350]); (64279, [1348; 1341])]%N.

Definition case_ignorable_ranges : list (N * N) :=
  [(39, 39); (46, 46); (58, 58); (94, 94);
   (96, 96); (168, 168); (173, 173); (175, 175);
   (180, 180); (183, 184); (688, 879); (884, 885);
   (890, 890); (900, 901); (903, 903); (1155, 1161);
   (1369, 1369); (1375, 1375); (1425, 1469); (1471, 1471);
   (1473, 1474); (1476, 1477); (1479, 1479); (1524, 1524);
   (1536, 1541); (1552, 1562); (1564, 1564); (1600, 1600);
   (1611, 1631); (1648, 1648); (1750, 1757); (1759, 1768);
   (1770, 1773); (1807, 1807); (1809, 1809); (1840, 1866);
   (1958, 1968); (2027, 2037); (2042, 2042); (2045, 2045);
   (2070, 2093); (2137, 2139); (2184, 2184); (2192, 2193);
   (2200, 2207); (2249, 2306); (2362, 2362); (2364, 2364);
   (2369, 2376); (2381, 2381); (2385, 2391); (2402, 2403);
   (2417, 2417); (2433, 2433); (2492, 2492); (2497, 2500);
   (2509, 2509); (2530, 2531); (2558, 2558); (2561, 2562);
   (2620, 2620); (2625, 2626); (2631, 2632); (2635, 2637);
   (2641, 2641); (2672, 2673); (2677, 2677); (2689, 2690);
   (2748, 2748); (2753, 2757); (2759, 2760); (2765, 2765);
   (2786, 2787); (2810, 2815); (2817, 2817); (2876, 2876);
   (2879, 2879); (2881, 2884); (2893, 2893); (2901, 2902);
   (2914, 2915); (2946, 2946); (3008, 3008); (3021, 3021);
   (3072, 3072); (3076, 3076); (3132, 3132); (3134, 3136);
   (3142, 3144); (3146, 3149); (3157, 3158); (3170, 3171);
   (3201, 3201); (3260, 3260); (3263, 3263); (3270, 3270);
   (3276, 3277); (3298, 3299); (3328, 3329); (3387, 3388);
   (3393, 3396); (3405, 3405); (3426, 3427); (3457, 3457);
   (3530, 3530); (3538, 3540); (3542, 3542); (3633, 3633);
   (3636, 3642); (3654, 3662); (3761, 3761); (3764, 3772);
   (3782, 3782); (3784, 3789); (3864, 3865); (3893, 3893);
   (3895, 3895); (3897, 3897); (3953, 3966); (3968, 3972);
   (3974, 3975); (3981, 3991); (3993, 4028); (4038, 4038);
   (4141, 4144); (4146, 4151); (4153, 4154); (4157, 4158);
   (4184, 4185); (4190, 4192); (4209, 4212); (4226, 4226);
   (4229, 4230); (4237, 4237); (4253, 4253); (4348, 4348);
   (4957, 4959); (5906, 5908); (5938, 5939); (5970, 5971);
   (6002, 6003); (6068, 6069); (6071, 6077); (6086, 6086);
   (6089, 6099); (6103, 6103); (6109, 6109); (6155, 6159);
   (6211, 6211); (6277, 6278); (6313, 6313); (6432, 6434);
   (6439, 6440); (6450, 6450); (6457, 6459); (6679, 6680);
   (6683, 6683); (6742, 6742); (6744, 6750); (6752, 6752);
   (6754, 6754); (6757, 6764); (6771, 6780); (6783, 6783);
   (6823, 6823); (6832, 6862); (6912, 6915); (6964, 6964);
   (6966, 6970); (6972, 6972); (6978, 6978); (7019, 7027);
   (7040, 7041); (7074, 7077); (7080, 7081); (7083, 7085);
   (7142, 7142); (7144, 7145); (7149, 7149); (7151, 7153);
   (7212, 7219); (7222, 7223); (7288, 7293); (7376, 7378);
   (7380, 7392); (7394, 7400); (7405, 7405); (7412, 7412);
   (7416, 7417); (7468, 7530); (7544, 7544); (7579, 7679);
   (8125, 8125); (8127, 8129); (8141, 8143); (8157, 8159);
   (8173, 8175); (8189, 8190); (8203, 8207); (8216, 8217);
   (8228, 8228); (8231, 8231); (8234, 8238); (8288, 8292);
   (8294, 8303); (8305, 8305); (8319, 8319); (8336, 8348);
   (8400, 8432); (11388, 11389); (11503, 11505); (11631, 11631);
   (11647, 11647); (11744, 11775); (11823, 11823); (12293, 12293);
   (12330, 12333); (12337, 12341); (12347, 12347); (12441, 12446);
   (12540, 12542); (40981, 40981); (42232, 42237); (42508, 42508);
   (42607, 42610); (42612, 42621); (42623, 42623); (42652, 42655);
   (42736, 42737); (42752, 42785); (42864, 42864); (42888, 42890);
   (42994, 42996); (43000, 43001); (43010, 43010); (43014, 43014);
   (43019, 43019); (43045, 43046); (43052, 43052); (43204, 43205);
   (43232, 43249); (43263, 43263); (43302, 43309); (43335, 43345);
   (43392, 43394); (43443, 43443); (43446, 43449); (43452, 43453);
   (43471, 43471); (43493, 43494); (43561, 43566); (43569, 43570);
   (43573, 43574); (43587, 43587); (43596, 43596); (43632, 43632);
   (43644, 43644); (43696, 43696); (43698, 43700); (43703, 43704);
   (43710, 43711); (43713, 43713); (43741, 43741); (43756, 43757);
   (43763, 43764); (43766, 43766); (43867, 43871); (43881, 43883);
   (44005, 44005); (44008, 44008); (44013, 44013); (64286, 64286);
   (64434, 64450); (65024, 65039); (65043, 65043); (65056, 65071);
   (65106, 65106); (65109, 65109); (65279, 65279); (65287, 65287);
   (65294, 65294); (65306, 65306); (65342, 65342); (65344, 65344);
   (65392, 65392); (65438, 65439); (65507, 65507); (65529, 65531);
   (66045, 66045); (66272, 66272); (66422, 66426); (67456, 67461);
   (67463, 67504); (67506, 67514); (68097, 68099); (68101, 68102);
   (68108, 68111); (68152, 68154); (68159, 68159); (68325, 68326);
   (68900, 68903); (69291, 69292); (69446, 69456); (69506, 69509);
   (69633, 69633); (69688, 69702); (69744, 69744); (69747, 69748);
   (69759, 69761); (69811, 69814); (69817, 69818); (69821, 69821);
   (69826, 69826); (69837, 69837); (69888, 69890); (69927, 69931);
   (69933, 69940); (70003, 70003); (70016, 70017); (70070, 70078);
   (70089, 70092); (70095, 70095); (70191, 70193); (70196, 70196);
   (70198, 70199); (70206, 70206); (70367, 70367); (70371, 70378);
   (70400, 70401); (70459, 70460); (70464, 70464); (70502, 70508);
   (70512, 70516); (70712, 70719); (70722, 70724); (70726, 70726);
   (70750, 70750); (70835, 70840); (70842, 70842); (70847, 70848);
   (70850, 70851); (71090, 71093); (71100, 71101); (71103, 71104);
   (71132, 71133); (71219, 71226); (71229, 71229); (71231, 71232);
   (71339, 71339); (71341, 71341); (71344, 71349); (71351, 71351);
   (71453, 71455); (71458, 71461); (71463, 71467); (71727, 71735);
   (71737, 71738); (71995, 71996); (71998, 71998); (72003, 72003);
   (72148, 72151); (72154, 72155); (72160, 72160); (72193, 72202);
   (72243, 72248); (72251, 72254); (72263, 72263); (72273, 72278);
   (72281, 72283); (72330, 72342); (72344, 72345); (72752, 72758);
   (72760, 72765); (72767, 72767); (72850, 72871); (72874, 72880);
   (72882, 72883); (72885, 72886); (73009, 73014); (73018, 73018);
   (73020, 73021); (73023, 73029); (73031, 73031); (73104, 73105);
   (73109, 73109); (73111, 73111); (73459, 73460); (78896, 78904);
   (92912, 92916); (92976, 92982); (92992, 92995); (94031, 94031);
   (94095, 94111); (94176, 94177); (94179, 94180); (110576, 110579);
   (110581, 110587); (110589, 110590); (113821, 113822); (113824, 113827);
   (118528, 118573); (118576, 118598); (119143, 119145); (119155, 119170);
   (119173, 119179); (119210, 119213); (119362, 119364); (121344, 121398);
   (121403, 121452); (121461, 121461); (121476, 121476); (121499, 121503);
   (121505, 121519); (122880, 122886); (122888, 122904); (122907, 122913);
   (122915, 122916); (122918, 122922); (123184, 123197); (123566, 123566);
   (123628, 123631); (125136, 125142); (125252, 125259); (127995, 127999);
   (917505, 917505); (917536, 917631); (917760, 917999)]%N.

Definition cased_ranges : list (N * N) :=
  [(65, 90); (97, 122); (170, 170); (181, 181);
   (186, 186); (192, 214); (216, 246); (248, 442);
   (444, 447); (452, 659); (661, 687); (880, 883);
   (886, 887); (891, 893); (895, 895); (902, 902);
   (904, 906); (908, 908); (910, 929); (931, 1013);
   (1015, 1153); (1162, 1327); (1329, 1366); (1376, 1416);
   (4256, 4293); (4295, 4295); (4301, 4301); (4304, 4346);
   (4349, 4351); (5024, 5109); (5112, 5117); (7296, 7304);
   (7312, 7354); (7357, 7359); (7424, 7467); (7531, 7543);
   (7545, 7578); (7680, 7957); (7960, 7965); (7968, 8005);
   (8008, 8013); (8016, 8023); (8025, 8025); (8027, 8027);
   (8029, 8029); (8031, 8061); (8064, 8116); (8118, 8124);
   (8126, 8126); (8130, 8132); (8134, 8140); (8144, 8147);
   (8150, 8155); (8160, 8172); (8178, 8180); (8182, 8188);
   (8450, 8450); (8455, 8455); (8458, 8467); (8469, 8469);
   (8473, 8477); (8484, 8484); (8486, 8486); (8488, 8488);
   (8490, 8493); (8495, 8500); (8505, 8505); (8508, 8511);
   (8517, 8521); (8526, 8526); (8544, 8575); (8579, 8580);
   (9398, 9449); (11264, 11387); (11390, 11492); (11499, 11502);
   (11506, 11507); (11520, 11557); (11559, 11559); (11565, 11565);
   (42560, 42605); (42624, 42651); (42786, 42863); (42865, 42887);
   (42891, 42894); (42896, 42954); (42960, 42961); (42963, 42963);
   (42965, 42969); (42997, 42998); (43002, 43002); (43824, 43866);
   (43872, 43880); (43888, 43967); (64256, 64262); (64275, 64279);
   (65313, 65338); (65345, 65370); (66560, 66639); (66736, 66771);
   (66776, 66811); (66928, 66938); (66940, 66954); (66956, 66962);
   (66964, 66965); (66967, 66977); (66979, 66993); (66995, 67001);
   (67003, 67004); (68736, 68786); (68800, 68850); (71840, 71903);
   (93760, 93823); (119808, 119892); (119894, 119964); (119966, 119967);
   (119970, 119970); (119973, 119974); (119977, 119980); (119982, 119993);
   (119995, 119995); (119997, 120003); (120005, 120069); (120071, 120074);
   (120077, 120084); (120086, 120092); (120094, 120121); (120123, 120126);
   (120128, 120132); (120134, 120134); (120138, 120144); (120146, 120485);
   (120488, 120512); (120514, 120538); (120540, 120570); (120572, 120596);
   (120598, 120628); (120630, 120654); (120656, 120686); (120688, 120712);
   (120714, 120744); (120746, 120770); (120772, 120779); (122624, 122633);
   (122635, 122654); (125184, 125251); (127280, 127305); (127312, 127337);
   (127344, 127369)]%N.

Definition in_ranges (t : list (N * N)) (c : N) : bool :=
  existsb (fun r => ((fst r <=? c) && (c <=? snd r))%N) t.

Definition in_run (r : N * N * N * N) (c : N) : bool :=
  let '(start, count, step, _) := r in
  ((start <=? c) && (c <? start + count * step)
   && ((c - start) mod step =? 0))%N.

Definition run_image (runs : list (N * N * N * N)) (c : N) : N :=
  match List.find (fun r => in_run r c) runs with
  | Some (start, _, _, target) => (target + (c - start))%N
  | None => c
  end.

Definition table_digit (c : N) : bool := in_ranges digit_ranges c.

Definition table_decimal (c : N) : option N :=
  match List.find (fun r => ((fst r <=? c) && (c <=? snd r))%N)
                  decimal_ranges with
  | Some r => Some ((c - fst r) mod 10)%N
  | None => None
  end.

(** U+0130 is the one character whose lower-case form has two. *)
Definition lower_char (c : N) : list N :=
  if (c =? 304)%N then [105; 775]%N else [run_image lower_runs c].

Definition upper_char (c : N) : list N :=
  match List.find (fun e => (fst e =? c)%N) upper_special with
  | Some e => snd e
  | None => [run_image upper_runs c]
  end.

(** The first character that is not case-ignorable *)
Definition first_weighty (l : list N) : option N :=
  List.find (fun c => negb (in_ranges case_ignorable_ranges c)) l.

(** A capital sigma is final when a cased character precedes it and none
    follows, case-ignorable characters apart. *)
Definition final_sigma (before after : list N) : bool :=
  match first_weighty before with
  | Some c =>
      in_ranges cased_ranges c
      && match first_weighty after with
         | Some d => negb (in_ranges cased_ranges d)
         | None => true
         end
  | None => false
  end.

(** [before] holds the characters already passed, the nearest first. *)
Fixpoint lower_from (before l : list N) : list N :=
  match l with
  | [] => []
  | c :: l' =>
      (if (c =? 931)%N
       then [if final_sigma before l' then 962 else 963]%N
       else lower_char c) ++ lower_from (c :: before) l'
  end.

Definition table_lower (l : list N) : list N := lower_from [] l.

Definition table_upper (l : list N) : list N := flat_map upper_char l.

Definition unicode_14 : Unicode.
Proof.
  refine {| numeric_digit := table_digit;
            decimal_digit := table_decimal;
            to_lower := table_lower;
            to_upper := table_upper |}.
  all: assert (forall P : N -> bool,
         forallb P (map N.of_nat (seq 0 128)) = true ->
         forall c : N, (c < 128)%N -> P c = true) as Hascii.
  all: try (intros P HP c Hc; rewrite forallb_forall in HP; apply HP;
            apply in_map_iff; exists (N.to_nat c); split;
            [apply N2Nat.id | apply in_seq; lia]).
  - intros c Hc.
    apply (Hascii (fun c => Bool.eqb (table_digit c)
                              ((48 <=? c) && (c <=? 57))%N)) in Hc;
      [now apply Bool.eqb_prop in Hc | vm_compute; reflexivity].
  - intros c Hc.
    assert (c < 128)%N as Hlt by lia.
    apply (Hascii (fun c => implb ((48 <=? c) && (c <=? 57))%N
                              match table_decimal c with
                              | Some v => (v =? c - 48)%N
                              | None => false
                              end)) in Hlt; [| vm_compute; reflexivity].
    replace ((48 <=? c) && (c <=? 57))%N with true in Hlt
      by (symmetry; apply andb_true_intro; split; apply N.leb_le; lia).
    simpl in Hlt. destruct (table_decimal c); [| discriminate].
    now apply N.eqb_eq in Hlt as ->.
  - intros l Hl. unfold table_lower. generalize (@nil N) as before.
    induction Hl as [|c l Hc _ IH]; intros before; [reflexivity |].
    cbn [lower_from map]. rewrite IH.
    apply (Hascii (fun c => negb (c =? 931)%N
                            && match lower_char c with
                               | [d] => (d =? lower_ascii c)%N
                               | _ => false
                               end)) in Hc; [| vm_compute; reflexivity].
    apply andb_prop in Hc as [Hs Hd]. apply negb_true_iff in Hs. rewrite Hs.
    destruct (lower_char c) as [|d [|]]; try discriminate.
    now apply N.eqb_eq in Hd as ->.
  - intros l Hl. unfold table_upper.
    induction Hl as [|c l Hc _ IH]; [reflexivity |].
    cbn [flat_map map]. rewrite IH.
    apply (Hascii (fun c => match upper_char c with
                            | [d] => (d =? upper_ascii c)%N
                            | _ => false
                            end)) in Hc; [| vm_compute; reflexivity].
    destruct (upper_char c) as [|d [|]]; try discriminate.
    now apply N.eqb_eq in Hc as ->.
  - intros [|c l]; [reflexivity |]. unfold table_lower. cbn [lower_from].
    destruct (c =? 931)%N; [discriminate |].
    unfold lower_char. destruct (c =? 304)%N; discriminate.
Defined.

(** ** Tactics *)

(** Symbolic execution of [start]: unfold the monad, then split on whatever
    the next test looks at. *)
Ltac unfold_start :=
  unfold start, dvh2csv, to_csv, os_mkdir, with_files, os_path_isdir,
    os_path_isfile, except_TypeError, getitem, container_get,
    container_dataset, container_clear, print, emit, bind, ret, raise, lift;
  cbv beta iota zeta.

Ltac split_next :=
  match goal with
  | |- context [match ?x with _ => _ end] =>
      lazymatch x with
      | context [match _ with _ => _ end] => fail
      | _ => destruct x eqn:?
      end
  end;
  cbv beta iota zeta;
  cbn [fst snd patient_dict_container files progress stdout].

(** A statement about a character, by cases on its eight bits *)
Ltac all_chars c :=
  destruct c as [[] [] [] [] [] [] [] []]; reflexivity.

(** * Strings *)

Lemma str_compare_refl x : str_compare x x = Eq.
Proof.
  induction x as [|a x IH]; [reflexivity |]. simpl.
  now rewrite N.compare_refl.
Qed.

Lemma str_compare_eq x : forall y, str_compare x y = Eq -> x = y.
Proof.
  induction x as [|a x IH]; intros [|b y]; simpl; try congruence.
  destruct (a ?= b)%N eqn:Hab; try discriminate.
  apply N.compare_eq_iff in Hab. intros Hxy. f_equal; auto.
Qed.

Lemma str_compare_antisym x : forall y,
  str_compare y x = CompOpp (str_compare x y).
Proof.
  induction x as [|a x IH]; intros [|b y]; simpl; try reflexivity.
  rewrite (N.compare_antisym a b).
  destruct (a ?= b)%N; simpl; auto.
Qed.

Lemma str_compare_trans x : forall y z,
  str_compare x y = Lt -> str_compare y z = Lt -> str_compare x z = Lt.
Proof.
  induction x as [|a x IH]; intros [|b y] [|c z]; simpl; try congruence.
  destruct (a ?= b)%N eqn:Hab; try discriminate;
    destruct (b ?= c)%N eqn:Hbc; try discriminate; intros Hxy Hyz.
  - apply N.compare_eq_iff in Hab, Hbc. subst.
    rewrite N.compare_refl. eauto.
  - apply N.compare_eq_iff in Hab. subst. now rewrite Hbc.
  - apply N.compare_eq_iff in Hbc. subst. now rewrite Hab.
  - change (a < b)%N in Hab. change (b < c)%N in Hbc.
    assert (a < c)%N as Hac by lia.
    change ((a ?= c)%N = Lt) in Hac. now rewrite Hac.
Qed.

Lemma str_eqb_eq x y : str_eqb x y = true <-> x = y.
Proof.
  unfold str_eqb. split.
  - destruct (str_compare x y) eqn:Hc; try discriminate.
    intros _. now apply str_compare_eq.
  - intros ->. now rewrite str_compare_refl.
Qed.

Lemma str_eqb_refl x : str_eqb x x = true.
Proof. now apply str_eqb_eq. Qed.

Lemma str_eqb_sym x y : str_eqb x y = str_eqb y x.
Proof.
  unfold str_eqb. rewrite (str_compare_antisym x y).
  now destruct (str_compare x y).
Qed.

(** ** [decode] on ASCII *)

Lemma decode_cons_ascii c s :
  (N_of_ascii c <? 128)%N = true ->
  decode (String c s) = N_of_ascii c :: decode s.
Proof. intros Hc. cbn [decode]. cbv zeta. now rewrite Hc. Qed.

Lemma decode_ascii s :
  is_ascii s = true ->
  decode s = map N_of_ascii (list_ascii_of_string s)
  /\ Forall (fun c => (c < 128)%N) (decode s).
Proof.
  induction s as [|c s IH]; [split; [reflexivity | constructor] |].
  cbn [is_ascii str_forall]. intros [Hc Hs]%andb_prop.
  destruct (IH Hs) as [IH1 IH2]. rewrite (decode_cons_ascii c s Hc).
  split; [simpl; now rewrite IH1 |].
  constructor; [now apply N.ltb_lt | exact IH2].
Qed.

Lemma decode_nonempty c s : decode (String c s) <> [].
Proof.
  cbn [decode]. cbv zeta.
  destruct (N_of_ascii c <? 128)%N; [discriminate |].
  destruct s as [|c1 s]; [discriminate |].
  destruct (seq2 _ _); [discriminate |].
  destruct s as [|c2 s]; [discriminate |].
  destruct (seq3 _ _ _); [discriminate |].
  destruct s as [|c3 s]; [discriminate |].
  destruct (seq4 _ _ _ _); discriminate.
Qed.

Lemma decimal_string_forall d :
  decimal_string d = true -> str_forall isdigit_char d = true.
Proof. destruct d; [discriminate | auto]. Qed.

Lemma text_not_decimal t :
  str_forall (fun c => negb (isdigit_char c)) t = true ->
  decimal_string t = false.
Proof.
  destruct t as [|c t]; [reflexivity |]. simpl.
  intros [Hc _]%andb_prop. apply negb_true_iff in Hc. now rewrite Hc.
Qed.

Lemma digits_ascii d : str_forall isdigit_char d = true -> is_ascii d = true.
Proof.
  unfold is_ascii. induction d as [|c d IH]; [reflexivity |]. simpl.
  intros [Hc Hd]%andb_prop. rewrite (IH Hd), andb_true_r.
  unfold isdigit_char in Hc. apply andb_prop in Hc as [_ Hc].
  apply N.leb_le in Hc. apply N.ltb_lt. lia.
Qed.

Section StringFacts.
Context `{Unicode}.

(** On the digits 0-9, [str.isdigit] holds and [int] reads the number. *)
Lemma decimal_string_isdigit d :
  decimal_string d = true ->
  isdigit d = true /\ int_of_str d = Ok (decimal_value d).
Proof.
  intros Hd. pose proof (decimal_string_forall d Hd) as Hall.
  assert (forall s acc, str_forall isdigit_char s = true ->
            forallb numeric_digit (decode s) = true
            /\ int_from acc (decode s) = Ok (value_from acc s)) as Hgen.
  { induction s as [|c s IH]; intros acc; [split; reflexivity |].
    cbn [str_forall]. intros [Hc Hs]%andb_prop.
    assert ((N_of_ascii c <? 128)%N = true) as Hlt.
    { unfold isdigit_char in Hc. apply andb_prop in Hc as [_ Hc].
      apply N.leb_le in Hc. apply N.ltb_lt. lia. }
    rewrite (decode_cons_ascii c s Hlt). cbn [forallb int_from value_from].
    rewrite numeric_digit_ascii by now apply N.ltb_lt.
    fold (isdigit_char c). rewrite Hc.
    rewrite decimal_digit_ascii.
    - destruct (IH (acc * 10 + (N_of_ascii c - 48))%N Hs) as [-> ->]. auto.
    - unfold isdigit_char in Hc. apply andb_prop in Hc as [H1 H2].
      apply N.leb_le in H1, H2. lia. }
  destruct (Hgen d 0%N Hall) as [Hf Hi].
  split; [| exact Hi].
  unfold isdigit. destruct d as [|c d]; [discriminate |].
  destruct (decode (String c d)) eqn:Hdec;
    [now apply decode_nonempty in Hdec | exact Hf].
Qed.

(** On ASCII, [str.isdigit] is the test for the digits 0-9. *)
Lemma isdigit_ascii_string s :
  is_ascii s = true -> isdigit s = decimal_string s.
Proof.
  intros Hs.
  assert (forallb numeric_digit (decode s) = str_forall isdigit_char s)
    as Hall.
  { revert Hs. unfold is_ascii.
    induction s as [|c s IH]; [reflexivity |].
    cbn [str_forall]. intros [Hc Hs]%andb_prop.
    rewrite (decode_cons_ascii c s Hc). cbn [forallb].
    rewrite numeric_digit_ascii by now apply N.ltb_lt.
    fold (isdigit_char c). now rewrite (IH Hs). }
  destruct s as [|c s]; [reflexivity |].
  unfold isdigit, decimal_string.
  destruct (decode (String c s)) eqn:Hdec;
    [now apply decode_nonempty in Hdec | exact Hall].
Qed.

Lemma plain_piece_convert t :
  plain_piece t = true -> convert t = Ok (convert_plain t).
Proof.
  unfold plain_piece, convert, convert_plain.
  destruct (decimal_string t) eqn:Hd.
  - destruct (decimal_string_isdigit t Hd) as [-> ->]. reflexivity.
  - destruct (isdigit t); [discriminate | reflexivity].
Qed.

Lemma map_result_ok {A B} (f : A -> result B) (g : A -> B) l :
  (forall x, In x l -> f x = Ok (g x)) -> map_result f l = Ok (map g l).
Proof.
  induction l as [|x l IH]; [reflexivity |]. intros Hf. simpl.
  rewrite (Hf x) by now left. simpl.
  rewrite IH by (intros; apply Hf; now right). reflexivity.
Qed.

(** The key of a plain name is computed, and is [plain_key]. *)
Lemma alphanum_key_plain s :
  plain s = true -> alphanum_key s = Ok (plain_key s).
Proof.
  unfold plain, alphanum_key, plain_key. intros Hp.
  apply map_result_ok. intros t Ht. apply plain_piece_convert.
  rewrite forallb_forall in Hp. now apply Hp.
Qed.

Lemma lower_cons_nonempty t :
  (t =? "")%string = false -> exists c u, lower t = c :: u.
Proof.
  destruct t as [|a t]; [discriminate |]. intros _. unfold lower.
  destruct (to_lower (decode (String a t))) as [|c u] eqn:Hl; [| eauto].
  apply to_lower_nil in Hl. now apply decode_nonempty in Hl.
Qed.

End StringFacts.
(** * Properties of the natural order *)

Lemma spec_runs_valid s : forallb run_valid (spec_runs s) = true.
Proof.
  induction s as [|c s IH]; [reflexivity |]. simpl.
  destruct (isdigit_char c) eqn:Hc.
  - destruct (spec_runs s) as [|[d|t] rest]; simpl in *.
    + now rewrite Hc.
    + apply andb_prop in IH as [Hd Hrest]. rewrite Hrest, andb_true_r.
      rewrite Hc. simpl. now apply decimal_string_forall.
    + rewrite Hc. simpl. exact IH.
  - destruct (spec_runs s) as [|[d|t] rest]; simpl in *.
    + now rewrite Hc.
    + rewrite Hc. simpl. exact IH.
    + apply andb_prop in IH as [Ht Hrest]. rewrite Hrest, andb_true_r.
      rewrite Hc. simpl. apply andb_prop in Ht as [_ Ht]. exact Ht.
Qed.

Lemma spec_runs_alternating s : alternating (spec_runs s) = true.
Proof.
  induction s as [|c s IH]; [reflexivity |]. simpl.
  destruct (isdigit_char c) eqn:Hc;
    destruct (spec_runs s) as [|[d|t] rest]; simpl in *; auto.
Qed.

(** [re.split] returns the runs, with the empty text where a digit run
    starts or ends the string. *)
Lemma re_split_runs s : re_split_digits s = split_T (spec_runs s).
Proof.
  induction s as [|c s IH]; [reflexivity |]. simpl. rewrite IH.
  pose proof (spec_runs_valid s) as Hv.
  destruct (isdigit_char c) eqn:Hc;
    destruct (spec_runs s) as [|[d|t] rest]; simpl in *; try reflexivity.
  apply andb_prop in Hv as [Ht _]. apply andb_prop in Ht as [Hne _].
  destruct t; [discriminate | reflexivity].
Qed.

(** The pieces [re.split] returns make up the string again. *)
Lemma re_split_concat s : String.concat "" (re_split_digits s) = s.
Proof.
  induction s as [|c s IH]; [reflexivity |]. cbn [re_split_digits].
  pose proof (re_split_runs s) as Hr.
  destruct (re_split_digits s) as [|t rest];
    [destruct (spec_runs s) as [|[?|?] ?]; discriminate | clear Hr].
  destruct (isdigit_char c).
  - destruct t as [|c' t'].
    + destruct rest as [|d rest'].
      * simpl in *. now rewrite <- IH.
      * destruct rest'; simpl in *; now rewrite <- IH.
    + destruct rest; simpl in *; now rewrite <- IH.
  - destruct rest; simpl in *; now rewrite <- IH.
Qed.

Example re_split_slice : re_split_digits "CT10.dcm" = ["CT"; "10"; ".dcm"].
Proof. reflexivity. Qed.

Example re_split_leading_digits :
  re_split_digits "007a12" = [""; "007"; "a"; "12"; ""].
Proof. reflexivity. Qed.

Lemma tok_agrees_str x y : tok_agrees (str_compare x y) (TStr x) (TStr y).
Proof.
  unfold tok_agrees. simpl. unfold str_ltb, str_eqb.
  rewrite (str_compare_antisym x y).
  destruct (str_compare x y) eqn:Hc; simpl; auto.
Qed.

Lemma tok_agrees_int x y : tok_agrees (x ?= y)%N (TInt x) (TInt y).
Proof.
  unfold tok_agrees. simpl. rewrite !N.ltb_compare.
  rewrite (N.compare_antisym x y).
  destruct (x ?= y)%N eqn:Hc; simpl.
  - apply N.compare_eq_iff in Hc. subst. now rewrite N.eqb_refl.
  - change (x < y)%N in Hc.
    rewrite (proj2 (N.eqb_neq x y)), (proj2 (N.eqb_neq y x)) by lia. auto.
  - apply N.compare_gt_iff in Hc.
    rewrite (proj2 (N.eqb_neq x y)), (proj2 (N.eqb_neq y x)) by lia. auto.
Qed.

Lemma agrees_cons c0 c a b ka kb :
  tok_agrees c0 a b ->
  match c0 with Eq => agrees c ka kb | _ => c = c0 end ->
  agrees c (a :: ka) (b :: kb).
Proof.
  unfold agrees, tok_agrees. simpl.
  destruct c0.
  - intros [-> ->]. auto.
  - intros (-> & -> & -> & ->) ->. auto.
  - intros (-> & -> & -> & ->) ->. auto.
Qed.

Lemma alternating_tail r rs :
  alternating (r :: rs) = true ->
  alternating rs = true
  /\ (is_digit_run r = false -> no_text_head rs).
Proof.
  simpl. intros [Hhd Hrs]%andb_prop. split; [exact Hrs |].
  intros Hr. destruct rs as [|[d|t] rs']; simpl; auto.
  rewrite Hr in Hhd. discriminate.
Qed.

Section NaturalOrder.
Context `{Unicode}.

Lemma convert_plain_text t :
  str_forall (fun c => negb (isdigit_char c)) t = true ->
  convert_plain t = TStr (lower t).
Proof.
  intros Ht. unfold convert_plain. now rewrite (text_not_decimal t Ht).
Qed.

Lemma convert_plain_digits d :
  decimal_string d = true -> convert_plain d = TInt (decimal_value d).
Proof. intros Hd. unfold convert_plain. now rewrite Hd. Qed.

Lemma lower_empty : lower "" = [].
Proof. unfold lower. simpl. now rewrite to_lower_ascii. Qed.

Lemma convert_plain_empty : convert_plain "" = TStr [].
Proof. unfold convert_plain. simpl. now rewrite lower_empty. Qed.

Lemma plain_key_runs s :
  plain_key s = map convert_plain (split_T (spec_runs s)).
Proof. unfold plain_key. now rewrite re_split_runs. Qed.

Lemma compare_runs_total_sound ra : forall rb,
  forallb run_valid ra = true -> forallb run_valid rb = true ->
  alternating ra = true -> alternating rb = true ->
  agrees (compare_runs_total ra rb)
         (map convert_plain (split_T ra)) (map convert_plain (split_T rb))
  /\ (no_text_head ra -> no_text_head rb ->
      agrees (compare_runs_total ra rb)
             (map convert_plain (split_D ra))
             (map convert_plain (split_D rb))).
Proof.
  induction ra as [|x ra IH]; intros rb Hva Hvb Haa Hab.
  - destruct rb as [|y rb]; cbn [split_T split_D map compare_runs_total].
    + rewrite convert_plain_empty.
      split; [| intros _ _]; split; reflexivity.
    + simpl in Hvb. apply andb_prop in Hvb as [Hy Hvb].
      destruct y as [d|t]; cbn [split_T split_D map run_valid] in *.
      * rewrite convert_plain_empty, (convert_plain_digits d Hy).
        split; [| intros _ _]; split; reflexivity.
      * apply andb_prop in Hy as [Hne Ht].
        rewrite convert_plain_empty, (convert_plain_text t Ht).
        apply negb_true_iff in Hne.
        destruct (lower_cons_nonempty t Hne) as (c0 & u & ->).
        split; [split; reflexivity | contradiction].
  - simpl in Hva. apply andb_prop in Hva as [Hx Hva].
    destruct (alternating_tail _ _ Haa) as [Haa' Hta].
    destruct rb as [|y rb].
    + destruct x as [d|t];
        cbn [split_T split_D map run_valid compare_runs_total] in *.
      * rewrite convert_plain_empty, (convert_plain_digits d Hx).
        split; [| intros _ _]; split; reflexivity.
      * apply andb_prop in Hx as [Hne Ht].
        rewrite convert_plain_empty, (convert_plain_text t Ht).
        apply negb_true_iff in Hne.
        destruct (lower_cons_nonempty t Hne) as (c0 & u & ->).
        split; [split; reflexivity | contradiction].
    + simpl in Hvb. apply andb_prop in Hvb as [Hy Hvb].
      destruct (alternating_tail _ _ Hab) as [Hab' Htb].
      destruct (IH rb Hva Hvb Haa' Hab') as [IHT IHD].
      destruct x as [dx|tx], y as [dy|ty]; simpl in Hx, Hy;
        cbn [compare_runs_total run_compare_total spec_run_compare
             is_digit_run split_T split_D map].
      * rewrite (convert_plain_digits dx Hx), (convert_plain_digits dy Hy).
        assert (match (decimal_value dx ?= decimal_value dy)%N with
                | Eq => agrees (compare_runs_total (DigitRun dx :: ra)
                                                   (DigitRun dy :: rb))
                          (map convert_plain (split_T ra))
                          (map convert_plain (split_T rb))
                | _ => compare_runs_total (DigitRun dx :: ra) (DigitRun dy :: rb)
                       = (decimal_value dx ?= decimal_value dy)%N
                end) as Htail.
        { cbn [compare_runs_total run_compare_total spec_run_compare].
          destruct (decimal_value dx ?= decimal_value dy)%N; auto. }
        cbn [compare_runs_total run_compare_total spec_run_compare] in Htail.
        rewrite convert_plain_empty.
        split; [| intros _ _].
        -- apply (agrees_cons Eq); [split; reflexivity |].
           eapply agrees_cons; [apply tok_agrees_int | exact Htail].
        -- eapply agrees_cons; [apply tok_agrees_int | exact Htail].
      * apply andb_prop in Hy as [Hne Hy]. rewrite (convert_plain_text ty Hy).
        rewrite convert_plain_empty, (convert_plain_digits dx Hx).
        apply negb_true_iff in Hne.
        destruct (lower_cons_nonempty ty Hne) as (c0 & u & ->).
        split; [split; reflexivity | contradiction].
      * apply andb_prop in Hx as [Hne Hx]. rewrite (convert_plain_text tx Hx).
        rewrite convert_plain_empty, (convert_plain_digits dy Hy).
        apply negb_true_iff in Hne.
        destruct (lower_cons_nonempty tx Hne) as (c0 & u & ->).
        split; [split; reflexivity | contradiction].
      * apply andb_prop in Hx as [_ Hx]. apply andb_prop in Hy as [_ Hy].
        rewrite (convert_plain_text tx Hx), (convert_plain_text ty Hy).
        split; [| contradiction].
        eapply agrees_cons; [apply tok_agrees_str |].
        destruct (str_compare (lower tx) (lower ty)); auto.
Qed.

Lemma compare_runs_total_extends ra : forall rb c,
  spec_compare_runs ra rb = Some c -> compare_runs_total ra rb = c.
Proof.
  induction ra as [|x ra IH]; intros [|y rb] c; simpl; try congruence.
  unfold run_compare_total.
  destruct (spec_run_compare x y) as [[]|]; try congruence. apply IH.
Qed.

(** The comparison of the keys of two plain names is the comparison of
    the runs. *)
Lemma natural_compare_total_sound a b :
  agrees (natural_compare a b) (plain_key a) (plain_key b).
Proof.
  rewrite !plain_key_runs.
  apply compare_runs_total_sound;
    auto using spec_runs_valid, spec_runs_alternating.
Qed.

Lemma key_lt_plain a b :
  plain a = true -> plain b = true ->
  key_lt a b = Ok (match natural_compare a b with Lt => true | _ => false end)
  /\ key_lt b a
     = Ok (match natural_compare a b with Gt => true | _ => false end).
Proof.
  intros Ha Hb. unfold key_lt.
  rewrite (alphanum_key_plain a Ha), (alphanum_key_plain b Hb). simpl.
  apply natural_compare_total_sound.
Qed.

Lemma key_lt_of_compare a b c :
  plain a = true -> plain b = true ->
  spec_natural_compare a b = Some c ->
  key_lt a b = Ok (match c with Lt => true | _ => false end)
  /\ key_lt b a = Ok (match c with Gt => true | _ => false end).
Proof.
  intros Ha Hb Hc. rewrite <- (compare_runs_total_extends _ _ _ Hc).
  now apply key_lt_plain.
Qed.

(** A name of ASCII characters is plain. *)
Lemma is_ascii_concat l :
  is_ascii (String.concat "" l) = true ->
  forall t, In t l -> is_ascii t = true.
Proof.
  assert (forall a b, is_ascii (a +:+ b) = is_ascii a && is_ascii b) as Happ.
  { unfold is_ascii. induction a as [|c a IH]; intros b; [reflexivity |].
    simpl. now rewrite IH, andb_assoc. }
  induction l as [|x l IH]; [contradiction |].
  destruct l as [|y l].
  - simpl. intros Hx t [<- | []]. exact Hx.
  - change (String.concat "" (x :: y :: l))
      with (x +:+ "" +:+ String.concat "" (y :: l)).
    rewrite !Happ. change (is_ascii "") with true. cbn [andb].
    intros [Hx Hl]%andb_prop t [<- | Ht]; [exact Hx | now apply IH].
Qed.

Lemma ascii_plain s : is_ascii s = true -> plain s = true.
Proof.
  intros Hs. unfold plain. apply forallb_forall. intros t Ht.
  unfold plain_piece. rewrite isdigit_ascii_string; [apply implb_same |].
  apply (is_ascii_concat (re_split_digits s)); [| exact Ht].
  now rewrite re_split_concat.
Qed.

End NaturalOrder.
(** ** Python's [<] on keys *)

Lemma tok_eqb_eq x y : tok_eqb x y = true -> x = y.
Proof.
  destruct x, y; simpl; try discriminate.
  - now intros ->%N.eqb_eq.
  - now intros ->%str_eqb_eq.
Qed.

Lemma tok_eqb_refl x : tok_eqb x x = true.
Proof. destruct x; simpl; [apply N.eqb_refl | apply str_eqb_refl]. Qed.

Lemma tok_eqb_sym x y : tok_eqb x y = tok_eqb y x.
Proof.
  destruct x, y; simpl; auto using N.eqb_sym, str_eqb_sym.
Qed.

Lemma tok_lt_irrefl x : tok_lt x x = Ok false.
Proof.
  destruct x; simpl.
  - now rewrite N.ltb_irrefl.
  - unfold str_ltb. now rewrite str_compare_refl.
Qed.

Lemma tok_lt_trans x y z :
  tok_lt x y = Ok true -> tok_lt y z = Ok true -> tok_lt x z = Ok true.
Proof.
  destruct x, y, z; simpl; try discriminate.
  - intros [= Hxy] [= Hyz]. f_equal.
    apply N.ltb_lt in Hxy, Hyz. apply N.ltb_lt. lia.
  - unfold str_ltb. intros [= Hxy] [= Hyz]. f_equal.
    destruct (str_compare s s0) eqn:H1; try discriminate.
    destruct (str_compare s0 s1) eqn:H2; try discriminate.
    now rewrite (str_compare_trans _ _ _ H1 H2).
Qed.

Lemma tok_lt_asym x y : tok_lt x y = Ok true -> tok_lt y x = Ok false.
Proof.
  destruct x, y; simpl; try discriminate.
  - intros [= Hxy]. f_equal. apply N.ltb_lt in Hxy. apply N.ltb_ge. lia.
  - unfold str_ltb. intros [= Hxy]. f_equal.
    rewrite str_compare_antisym.
    destruct (str_compare s s0); simpl; auto; discriminate.
Qed.

(** Two elements of the same kind that are not equal are ordered. *)
Lemma tok_lt_connex x y :
  tok_eqb x y = false -> tok_lt x y = Ok false -> tok_lt y x = Ok true.
Proof.
  destruct x, y; simpl; try discriminate.
  - intros Hne%N.eqb_neq [= Hlt]. f_equal.
    apply N.ltb_ge in Hlt. apply N.ltb_lt. lia.
  - unfold str_eqb, str_ltb. rewrite (str_compare_antisym s s0).
    destruct (str_compare s s0); simpl; try discriminate. reflexivity.
Qed.

Lemma tok_lt_defined_sym x y b :
  tok_lt x y = Ok b -> exists b', tok_lt y x = Ok b'.
Proof. destruct x, y; simpl; try discriminate; eauto. Qed.

Lemma list_lt_irrefl a : list_lt a a = Ok false.
Proof.
  induction a as [|x a IH]; [reflexivity |]. simpl.
  now rewrite tok_eqb_refl.
Qed.

Lemma list_lt_asym a : forall b,
  list_lt a b = Ok true -> list_lt b a = Ok false.
Proof.
  induction a as [|x a IH]; intros [|y b]; simpl; try congruence.
  rewrite (tok_eqb_sym y x).
  destruct (tok_eqb x y) eqn:Hxy; intros H1; [auto |].
  now apply tok_lt_asym.
Qed.

(** Whether two keys can be compared does not depend on the side. *)
Lemma comparable_sym a : forall b, comparable a b -> comparable b a.
Proof.
  unfold comparable.
  induction a as [|x a IH]; intros [|y b]; simpl; eauto.
  rewrite (tok_eqb_sym y x).
  destruct (tok_eqb x y); [apply IH |].
  intros [r Hr]. eapply tok_lt_defined_sym; eauto.
Qed.

Lemma list_lt_raise a : forall b e, list_lt a b = Raise e -> e = TypeError.
Proof.
  induction a as [|x a IH]; intros [|y b] e; simpl; try discriminate.
  destruct (tok_eqb x y); [apply IH |].
  destruct x, y; simpl; congruence.
Qed.

(** Keys that tie are equal. *)
Lemma list_lt_tie a : forall b,
  list_lt a b = Ok false -> list_lt b a = Ok false -> a = b.
Proof.
  induction a as [|x a IH]; intros [|y b]; simpl; try congruence.
  rewrite (tok_eqb_sym y x).
  destruct (tok_eqb x y) eqn:Hxy.
  - apply tok_eqb_eq in Hxy. subst. intros H1 H2. f_equal. auto.
  - intros H1 H2. rewrite (tok_lt_connex x y Hxy H1) in H2. discriminate.
Qed.

(** If [x] is before [y] and [z] is not before [y], then [z] is not before
    [x]: the two are compared without an exception. *)
Lemma list_lt_le_trans x : forall y z,
  list_lt x y = Ok true -> list_lt z y = Ok false -> list_lt z x = Ok false.
Proof.
  induction x as [|x0 x IH]; intros [|y0 y] [|z0 z]; simpl;
    try congruence.
  destruct (tok_eqb x0 y0) eqn:Hxy.
  - apply tok_eqb_eq in Hxy. subst y0. intros H1.
    destruct (tok_eqb z0 x0); [now apply IH | auto].
  - intros H1. destruct (tok_eqb z0 y0) eqn:Hzy.
    + apply tok_eqb_eq in Hzy. subst z0. intros _.
      rewrite (tok_eqb_sym y0 x0), Hxy. now apply tok_lt_asym.
    + intros H2. pose proof (tok_lt_connex z0 y0 Hzy H2) as H3.
      pose proof (tok_lt_trans _ _ _ H1 H3) as H4.
      destruct (tok_eqb z0 x0) eqn:Hzx.
      * apply tok_eqb_eq in Hzx. subst z0.
        rewrite tok_lt_irrefl in H4. discriminate.
      * now apply tok_lt_asym.
Qed.

(** ** The insertion *)

Lemma insort_eq x l : forall r, insort x l = Ok r -> r = insort_total x l.
Proof.
  induction l as [|y l IH]; intros r; simpl; [congruence |].
  unfold elt_ltb. destruct (list_lt (fst x) (fst y)) as [[]|]; simpl;
    try congruence.
  destruct (insort x l) as [r'|]; simpl; [| discriminate].
  intros [= <-]. f_equal. now apply IH.
Qed.

Lemma insort_defined x l :
  (forall y, In y l -> comparable (fst x) (fst y)) ->
  insort x l = Ok (insort_total x l).
Proof.
  induction l as [|y l IH]; intros Hc; [reflexivity |]. simpl.
  unfold elt_ltb. destruct (Hc y (or_introl eq_refl)) as [b ->]. simpl.
  destruct b; [reflexivity |].
  rewrite IH by (intros; apply Hc; now right). reflexivity.
Qed.

Lemma insort_raise x l : forall e,
  insort x l = Raise e ->
  e = TypeError
  /\ exists y, In y l /\ list_lt (fst x) (fst y) = Raise TypeError.
Proof.
  induction l as [|y l IH]; intros e; simpl; [discriminate |].
  destruct (list_lt (fst x) (fst y)) as [[]|e0] eqn:Hxy; simpl.
  - discriminate.
  - destruct (insort x l) as [r'|e1]; simpl; [discriminate |].
    intros [= <-]. destruct (IH e1 eq_refl) as (-> & z & Hz & Hr).
    split; [reflexivity |]. exists z. auto.
  - intros [= <-]. pose proof (list_lt_raise _ _ _ Hxy) as ->.
    split; [reflexivity |]. exists y. auto.
Qed.

Lemma insort_total_perm x l : Permutation (insort_total x l) (x :: l).
Proof.
  induction l as [|y l IH]; [reflexivity |]. simpl.
  destruct (elt_ltb x y); [reflexivity |].
  rewrite IH. apply perm_swap.
Qed.

Lemma in_insort_total x l c : In c (insort_total x l) <-> c = x \/ In c l.
Proof.
  rewrite <- !list_elem_of_In, insort_total_perm, elem_of_cons.
  reflexivity.
Qed.

(** An insertion that returns keeps the list sorted. *)
Lemma insort_sorted x l :
  StronglySorted elt_le l -> forall r, insort x l = Ok r ->
  StronglySorted elt_le r.
Proof.
  induction 1 as [|y l Hl IH Hy]; intros r; simpl.
  - intros [= <-]. repeat constructor.
  - destruct (list_lt (fst x) (fst y)) as [[]|] eqn:Hxy; simpl;
      try discriminate.
    + intros [= <-]. constructor; [constructor; assumption |].
      constructor.
      * unfold elt_le. now apply list_lt_asym.
      * apply List.Forall_forall. intros z Hz.
        rewrite List.Forall_forall in Hy. specialize (Hy z Hz).
        unfold elt_le in *. eapply list_lt_le_trans; eauto.
    + destruct (insort x l) as [r'|] eqn:Hr; simpl; [| discriminate].
      intros [= <-]. constructor; [now apply IH |].
      rewrite (insort_eq x l r' Hr), insort_total_perm.
      constructor; assumption.
Qed.

(** The elements of a sorted list can be compared with each other. *)
Lemma sorted_comparable l :
  StronglySorted elt_le l ->
  forall a b, In a l -> In b l -> comparable (fst a) (fst b).
Proof.
  induction 1 as [|y l Hl IH Hy]; [contradiction |].
  rewrite List.Forall_forall in Hy.
  intros a b [<- | Ha] [<- | Hb].
  - exists false. apply list_lt_irrefl.
  - apply comparable_sym. exists false. now apply Hy.
  - exists false. now apply Hy.
  - now apply IH.
Qed.

Lemma sorted_step_raise l : forall e,
  fold_left sorted_step l (Raise e) = Raise e.
Proof. induction l as [|x l IH]; intros e; [reflexivity | apply IH]. Qed.

Lemma sort_returns l : forall acc s,
  StronglySorted elt_le acc ->
  fold_left sorted_step l (Ok acc) = Ok s ->
  StronglySorted elt_le s /\ Permutation s (acc ++ l)
  /\ s = fold_left (fun acc x => insort_total x acc) l acc.
Proof.
  induction l as [|x l IH]; intros acc s Hacc; simpl.
  - intros [= <-]. now rewrite app_nil_r.
  - destruct (insort x acc) as [r|e] eqn:Hr;
      [| now rewrite sorted_step_raise].
    intros Hs.
    destruct (IH r s (insort_sorted x acc Hacc r Hr) Hs)
      as (Hsorted & Hperm & Heq).
    pose proof (insort_eq x acc r Hr) as ->.
    split; [exact Hsorted | split; [| exact Heq]].
    rewrite Hperm, insort_total_perm. apply Permutation_middle.
Qed.

Lemma sort_defined l : forall acc,
  (forall a b, In a (acc ++ l) -> In b (acc ++ l) ->
               comparable (fst a) (fst b)) ->
  fold_left sorted_step l (Ok acc)
  = Ok (fold_left (fun acc x => insort_total x acc) l acc).
Proof.
  induction l as [|x l IH]; intros acc Hc; [reflexivity |]. simpl.
  rewrite insort_defined.
  - apply IH. intros a b Ha Hb.
    rewrite in_app_iff, in_insort_total in Ha, Hb.
    apply Hc; rewrite in_app_iff; simpl; intuition (subst; auto).
  - intros y Hy. apply Hc; rewrite in_app_iff; simpl; auto.
Qed.

Lemma sort_raises l : forall acc e,
  fold_left sorted_step l (Ok acc) = Raise e ->
  e = TypeError
  /\ exists a b, In a (acc ++ l) /\ In b (acc ++ l)
                 /\ list_lt (fst a) (fst b) = Raise TypeError.
Proof.
  induction l as [|x l IH]; intros acc e; simpl; [discriminate |].
  destruct (insort x acc) as [r|e0] eqn:Hr.
  - intros Hs. destruct (IH r e Hs) as (-> & a & b & Ha & Hb & Hab).
    split; [reflexivity |]. exists a, b.
    pose proof (insort_eq x acc r Hr) as ->.
    assert (forall c, In c (insort_total x acc ++ l) ->
                      In c (acc ++ x :: l)) as Hin.
    { intros c Hc. rewrite in_app_iff, in_insort_total in Hc.
      rewrite in_app_iff. simpl. intuition (subst; auto). }
    auto.
  - rewrite sorted_step_raise. intros [= <-].
    destruct (insort_raise x acc e0 Hr) as (-> & y & Hy & Hxy).
    split; [reflexivity |]. exists x, y.
    rewrite !in_app_iff. simpl. auto.
Qed.
(** ** [natural_sort] *)

Lemma map_result_raise {A B} (f : A -> result B) l : forall e,
  map_result f l = Raise e -> exists x, In x l /\ f x = Raise e.
Proof.
  induction l as [|x l IH]; intros e; simpl; [discriminate |].
  destruct (f x) as [y|e0] eqn:Hx; simpl.
  - destruct (map_result f l) as [r|e1]; simpl; [discriminate |].
    intros [= <-]. destruct (IH e1 eq_refl) as (z & Hz & Hr). eauto.
  - intros [= <-]. eauto.
Qed.

Lemma filter_map_comm {A B} (q : B -> bool) (f : A -> B) l :
  List.filter q (map f l) = map f (List.filter (fun x => q (f x)) l).
Proof.
  induction l as [|x l IH]; [reflexivity |]. simpl.
  destruct (q (f x)); simpl; now rewrite IH.
Qed.

Lemma filter_none {A} (p : A -> bool) l :
  (forall x, In x l -> p x = false) -> List.filter p l = [].
Proof.
  induction l as [|x l IH]; [reflexivity |]. intros Hall. simpl.
  rewrite (Hall x) by now left. apply IH. intros y Hy. apply Hall. now right.
Qed.

Lemma filter_cons_eq {A} (p : A -> bool) x l :
  List.filter p (x :: l) = if p x then x :: List.filter p l else List.filter p l.
Proof. reflexivity. Qed.

(** Inserting behind everything: the element is after all of the list. *)
Lemma insort_last x acc :
  Forall (fun y => elt_le y x) acc -> insort x acc = Ok (acc ++ [x]).
Proof.
  induction 1 as [|y acc Hy _ IH]; [reflexivity |]. simpl.
  unfold elt_le in Hy. now rewrite Hy, IH.
Qed.

Lemma sort_of_sorted l : forall acc,
  StronglySorted elt_le (acc ++ l) ->
  fold_left sorted_step l (Ok acc) = Ok (acc ++ l).
Proof.
  induction l as [|x l IH]; intros acc Hs; simpl.
  - now rewrite app_nil_r.
  - rewrite insort_last.
    + rewrite IH; rewrite <- app_assoc; [reflexivity | exact Hs].
    + apply List.Forall_forall. intros y Hy.
      eapply (StronglySorted_app_1_elem_of _ acc (x :: l));
        [exact Hs | now apply list_elem_of_In | left].
Qed.

(** Elements that share a key, if they share the property [p], stay in
    the order in which they were inserted. *)
Lemma insort_total_filter (p : list tok * string -> bool) x acc :
  (forall a b, In a (x :: acc) -> In b (x :: acc) ->
               p a = true -> p b = true -> fst a = fst b) ->
  StronglySorted elt_le acc ->
  List.filter p (insort_total x acc)
  = List.filter p acc ++ (if p x then [x] else []).
Proof.
  intros Hp Hs. induction Hs as [|y acc Hs IH Hy];
    [simpl; now destruct (p x) |].
  cbn [insort_total]. unfold elt_ltb.
  destruct (list_lt (fst x) (fst y)) as [[]|] eqn:Hxy.
  - rewrite (filter_cons_eq _ x (y :: acc)).
    destruct (p x) eqn:Hx; [| now rewrite app_nil_r].
    assert (List.filter p (y :: acc) = []) as ->; [| reflexivity].
    apply filter_none. intros w Hw.
    destruct (p w) eqn:Hpw; [| reflexivity]. exfalso.
    assert (fst x = fst w) as Hk
      by (apply Hp; simpl; auto; destruct Hw; auto).
    rewrite Hk in Hxy. destruct Hw as [<- | Hw].
    + rewrite list_lt_irrefl in Hxy. discriminate.
    + rewrite List.Forall_forall in Hy. specialize (Hy w Hw).
      unfold elt_le in Hy. congruence.
  - rewrite !filter_cons_eq, IH.
    + destruct (p y); reflexivity.
    + intros a b Ha Hb. apply Hp; simpl in *; tauto.
  - rewrite !filter_cons_eq, IH.
    + destruct (p y); reflexivity.
    + intros a b Ha Hb. apply Hp; simpl in *; tauto.
Qed.

Lemma sort_stable (p : list tok * string -> bool) l : forall acc s,
  (forall a b, In a (acc ++ l) -> In b (acc ++ l) ->
               p a = true -> p b = true -> fst a = fst b) ->
  StronglySorted elt_le acc ->
  fold_left sorted_step l (Ok acc) = Ok s ->
  List.filter p s = List.filter p acc ++ List.filter p l.
Proof.
  induction l as [|x l IH]; intros acc s Hp Hacc; simpl.
  - intros [= <-]. now rewrite app_nil_r.
  - destruct (insort x acc) as [r|e] eqn:Hr;
      [| now rewrite sorted_step_raise].
    intros Hs. pose proof (insort_eq x acc r Hr) as ->.
    rewrite (IH (insort_total x acc) s);
      [| | eapply insort_sorted; eauto | exact Hs].
    + rewrite insort_total_filter; [| | exact Hacc].
      * rewrite <- app_assoc. now destruct (p x).
      * intros a b Ha Hb. apply Hp; rewrite in_app_iff; simpl in *; tauto.
    + intros a b Ha Hb. rewrite in_app_iff, in_insort_total in Ha, Hb.
      apply Hp; rewrite in_app_iff; simpl; intuition (subst; auto).
Qed.

Section SortNames.
Context `{Unicode}.

Lemma int_from_raise l : forall acc e,
  int_from acc l = Raise e -> e = ValueError.
Proof.
  induction l as [|c l IH]; intros acc e; simpl; [discriminate |].
  destruct (decimal_digit c); [apply IH | congruence].
Qed.

Lemma convert_raise t e : convert t = Raise e -> e = ValueError.
Proof.
  unfold convert, int_of_str. destruct (isdigit t); [| discriminate].
  destruct (int_from 0 (decode t)) as [n|e0] eqn:Hi; simpl; [discriminate |].
  intros [= <-]. eapply int_from_raise; eauto.
Qed.

(** The computation of a key raises nothing but [ValueError]. *)
Lemma alphanum_key_raise s e : alphanum_key s = Raise e -> e = ValueError.
Proof.
  unfold alphanum_key.
  intros (t & _ & Ht)%map_result_raise. eapply convert_raise; eauto.
Qed.

Lemma key_lt_keys x y kx ky :
  alphanum_key x = Ok kx -> alphanum_key y = Ok ky ->
  key_lt x y = list_lt kx ky.
Proof. unfold key_lt. now intros -> ->. Qed.

Lemma key_lt_ok x y b :
  key_lt x y = Ok b ->
  exists kx ky, alphanum_key x = Ok kx /\ alphanum_key y = Ok ky
                /\ list_lt kx ky = Ok b.
Proof.
  unfold key_lt. destruct (alphanum_key x) as [kx|]; [| discriminate].
  destruct (alphanum_key y) as [ky|]; [| discriminate]. simpl. eauto.
Qed.

Lemma keyed_ok l : forall ks,
  keyed l = Ok ks -> map snd ks = l /\ Forall well_keyed ks.
Proof.
  unfold keyed. induction l as [|x l IH]; intros ks; simpl.
  - intros [= <-]. split; [reflexivity | constructor].
  - destruct (alphanum_key x) as [k|] eqn:Hk; simpl; [| discriminate].
    destruct (map_result _ l) as [r|]; simpl; [| discriminate].
    intros [= <-]. destruct (IH r eq_refl) as [Hm Hw].
    split; [simpl; now rewrite Hm | constructor; auto].
Qed.

Lemma keyed_raise l e :
  keyed l = Raise e ->
  e = ValueError /\ exists x, In x l /\ alphanum_key x = Raise ValueError.
Proof.
  unfold keyed. intros (x & Hx & Hr)%map_result_raise.
  destruct (alphanum_key x) as [k|e0] eqn:Hk; simpl in Hr; [discriminate |].
  injection Hr as ->. pose proof (alphanum_key_raise x e Hk) as ->. eauto.
Qed.

Lemma keyed_defined l :
  (forall x, In x l -> exists k, alphanum_key x = Ok k) ->
  exists ks, keyed l = Ok ks.
Proof.
  unfold keyed. induction l as [|x l IH]; intros Hk; simpl; [eauto |].
  destruct (Hk x (or_introl eq_refl)) as [k ->]. simpl.
  destruct IH as [ks ->]; [intros; apply Hk; now right |]. simpl. eauto.
Qed.

Lemma well_keyed_lt a b :
  well_keyed a -> well_keyed b ->
  key_lt (snd a) (snd b) = list_lt (fst a) (fst b).
Proof. intros Ha Hb. now apply key_lt_keys. Qed.

Lemma sorted_names ks :
  Forall well_keyed ks ->
  StronglySorted elt_le ks <-> StronglySorted key_le (map snd ks).
Proof.
  induction ks as [|a ks IH]; intros Hw.
  - split; constructor.
  - inversion Hw as [|? ? Ha Hks]; subst. specialize (IH Hks).
    assert (Forall (elt_le a) ks <-> Forall (key_le (snd a)) (map snd ks))
      as Hall.
    { rewrite List.Forall_map, !List.Forall_forall.
      rewrite List.Forall_forall in Hks.
      split; intros Hle b Hb; specialize (Hle b Hb);
        unfold key_le, elt_le in *;
        [rewrite well_keyed_lt | rewrite <- well_keyed_lt]; auto. }
    split; intros Hs; inversion Hs; subst; constructor; tauto.
Qed.

(** What a run of [natural_sort] that returns has done *)
Lemma natural_sort_ok l l' :
  natural_sort l = Ok l' ->
  (forall x y, In x l -> In y l -> exists b, key_lt x y = Ok b)
  /\ Permutation l' l /\ StronglySorted key_le l'.
Proof.
  unfold natural_sort.
  destruct (keyed l) as [ks|] eqn:Hk; simpl; [| discriminate].
  destruct (fold_left sorted_step ks (Ok [])) as [s|] eqn:Hs; simpl;
    [| discriminate].
  intros [= <-]. destruct (keyed_ok l ks Hk) as [Hm Hw].
  destruct (sort_returns ks [] s (SSorted_nil _) Hs) as (Hsorted & Hperm & _).
  simpl in Hperm.
  assert (Forall well_keyed s) as Hws by now rewrite Hperm.
  split; [| split].
  - intros x y Hx Hy. rewrite <- Hm in Hx, Hy.
    apply in_map_iff in Hx as (a & <- & Ha), Hy as (b & <- & Hb).
    rewrite List.Forall_forall in Hw.
    rewrite well_keyed_lt by auto.
    apply (sorted_comparable s Hsorted);
      apply list_elem_of_In; rewrite Hperm; now apply list_elem_of_In.
  - rewrite <- Hm. now apply Permutation_map.
  - now apply sorted_names.
Qed.

Lemma natural_sort_defined l :
  (forall x y, In x l -> In y l -> exists b, key_lt x y = Ok b) ->
  exists l', natural_sort l = Ok l'.
Proof.
  intros Hc. unfold natural_sort.
  destruct (keyed_defined l) as [ks Hk].
  { intros x Hx. destruct (Hc x x Hx Hx) as [b Hb].
    apply key_lt_ok in Hb as (kx & _ & Hkx & _). eauto. }
  rewrite Hk. simpl. destruct (keyed_ok l ks Hk) as [Hm Hw].
  rewrite sort_defined; [simpl; eauto |].
  simpl. intros a b Ha Hb. rewrite List.Forall_forall in Hw.
  unfold comparable. rewrite <- well_keyed_lt by auto.
  apply Hc; rewrite <- Hm; now apply in_map.
Qed.

Lemma natural_sort_raise l e :
  natural_sort l = Raise e ->
  (e = ValueError
   /\ exists x, In x l /\ alphanum_key x = Raise ValueError)
  \/ (e = TypeError
      /\ (forall x, In x l -> exists k, alphanum_key x = Ok k)
      /\ exists x y, In x l /\ In y l /\ key_lt x y = Raise TypeError).
Proof.
  unfold natural_sort.
  destruct (keyed l) as [ks|e0] eqn:Hk; simpl.
  2:{ intros [= <-]. left. now apply keyed_raise. }
  destruct (keyed_ok l ks Hk) as [Hm Hw]. rewrite List.Forall_forall in Hw.
  destruct (fold_left sorted_step ks (Ok [])) as [s|e1] eqn:Hs; simpl;
    [discriminate |].
  intros [= <-]. right.
  destruct (sort_raises ks [] e1 Hs) as (-> & a & b & Ha & Hb & Hab).
  simpl in Ha, Hb. split; [reflexivity | split].
  - intros x Hx. rewrite <- Hm in Hx.
    apply in_map_iff in Hx as (c & <- & Hc). exists (fst c). now apply Hw.
  - exists (snd a), (snd b). rewrite <- Hm.
    split; [now apply in_map | split; [now apply in_map |]].
    rewrite well_keyed_lt; auto.
Qed.

(** Sorting two names *)
Lemma natural_sort_pair a b r :
  key_lt b a = Ok r ->
  natural_sort [a; b] = Ok (if r then [b; a] else [a; b]).
Proof.
  intros (kb & ka & Hb & Ha & Hlt)%key_lt_ok.
  unfold natural_sort, keyed. simpl. rewrite Ha, Hb. simpl.
  rewrite Hlt. simpl. now destruct r.
Qed.

Lemma sorted_perm_unique l1 : forall l2,
  StronglySorted key_le l1 -> StronglySorted key_le l2 ->
  Permutation l1 l2 ->
  (forall x y, In x l1 -> In y l1 -> key_tie x y = true -> x = y) ->
  l1 = l2.
Proof.
  induction l1 as [|x l1 IH]; intros l2 H1 H2 Hp Htie.
  - apply Permutation_nil in Hp. now subst.
  - destruct l2 as [|y l2].
    { symmetry in Hp. apply Permutation_nil in Hp. discriminate. }
    assert (x = y) as <-.
    { destruct (string_dec x y) as [|Hne]; [assumption |].
      assert (In y l1) as Hy.
      { assert (In y (x :: l1)) as [? | ?]
          by (apply list_elem_of_In; rewrite Hp; left); congruence. }
      assert (In x l2) as Hx.
      { assert (In x (y :: l2)) as [? | ?]
          by (apply list_elem_of_In; rewrite <- Hp; left); congruence. }
      inversion H1 as [|? ? _ Hall1]; subst.
      inversion H2 as [|? ? _ Hall2]; subst.
      rewrite List.Forall_forall in Hall1, Hall2.
      apply Htie; [now left | now right |].
      unfold key_tie. specialize (Hall2 x Hx). specialize (Hall1 y Hy).
      unfold key_le in *. now rewrite Hall1, Hall2. }
    f_equal. apply Permutation_cons_inv in Hp.
    inversion H1; inversion H2; subst.
    apply IH; auto. intros a b Ha Hb. apply Htie; now right.
Qed.

Lemma natural_sort_permuted l1 l2 :
  Permutation l1 l2 ->
  (forall x y, In x l1 -> In y l1 -> key_tie x y = true -> x = y) ->
  natural_sort l1 = natural_sort l2.
Proof.
  intros Hp Htie.
  assert (forall x, In x l1 <-> In x l2) as Hin
    by (intros x; rewrite <- !list_elem_of_In; now rewrite Hp).
  destruct (natural_sort l1) as [s1|e1] eqn:H1,
           (natural_sort l2) as [s2|e2] eqn:H2.
  - destruct (natural_sort_ok _ _ H1) as (_ & Hp1 & Hs1).
    destruct (natural_sort_ok _ _ H2) as (_ & Hp2 & Hs2).
    f_equal. apply sorted_perm_unique; auto.
    + now rewrite Hp1, Hp2.
    + intros x y Hx Hy. apply Htie; apply list_elem_of_In;
        rewrite <- Hp1; now apply list_elem_of_In.
  - exfalso. destruct (natural_sort_ok _ _ H1) as (Hc & _ & _).
    destruct (natural_sort_raise _ _ H2)
      as [(_ & x & Hx & Hr) | (_ & _ & x & y & Hx & Hy & Hr)].
    + apply Hin in Hx. destruct (Hc x x Hx Hx) as [b Hb].
      apply key_lt_ok in Hb as (kx & _ & Hkx & _). congruence.
    + apply Hin in Hx, Hy. destruct (Hc x y Hx Hy) as [b Hb]. congruence.
  - exfalso. destruct (natural_sort_ok _ _ H2) as (Hc & _ & _).
    destruct (natural_sort_raise _ _ H1)
      as [(_ & x & Hx & Hr) | (_ & _ & x & y & Hx & Hy & Hr)].
    + apply Hin in Hx. destruct (Hc x x Hx Hx) as [b Hb].
      apply key_lt_ok in Hb as (kx & _ & Hkx & _). congruence.
    + apply Hin in Hx, Hy. destruct (Hc x y Hx Hy) as [b Hb]. congruence.
  - f_equal.
    destruct (natural_sort_raise _ _ H1)
      as [(-> & x & Hx & Hr) | (-> & Hk1 & _)];
      destruct (natural_sort_raise _ _ H2)
        as [(-> & x' & Hx' & Hr') | (-> & Hk2 & _)]; try reflexivity;
      exfalso.
    + apply Hin in Hx. destruct (Hk2 x Hx) as [k Hk]. congruence.
    + apply Hin in Hx'. destruct (Hk1 x' Hx') as [k Hk]. congruence.
Qed.

End SortNames.
Section SortTheorems.
Context `{Unicode}.

Lemma natural_sort_sorted l :
  (forall x, In x l -> exists k, alphanum_key x = Ok k) ->
  StronglySorted key_le l -> natural_sort l = Ok l.
Proof.
  intros Hk Hs. destruct (keyed_defined l Hk) as [ks Hks].
  destruct (keyed_ok l ks Hks) as [Hm Hw].
  unfold natural_sort. rewrite Hks. simpl.
  rewrite (sort_of_sorted ks []); [simpl; now rewrite Hm |].
  simpl. apply sorted_names; [exact Hw | now rewrite Hm].
Qed.

(** X1: [natural_sort] leaves a list in natural order as it is, when the
    keys of its names can be computed; sorting twice is sorting once. *)
Theorem natural_sort_idempotent l :
  ((forall x, In x l -> exists k, alphanum_key x = Ok k) ->
   StronglySorted key_le l -> natural_sort l = Ok l)
  /\ (forall l', natural_sort l = Ok l' -> natural_sort l' = Ok l').
Proof.
  split; [apply natural_sort_sorted |].
  intros l' Hs. destruct (natural_sort_ok l l' Hs) as (Hc & Hp & Hsorted).
  apply natural_sort_sorted; [| exact Hsorted].
  intros x Hx.
  assert (In x l) as Hxl
    by (apply list_elem_of_In; rewrite <- Hp; now apply list_elem_of_In).
  destruct (Hc x x Hxl Hxl) as [b Hb].
  apply key_lt_ok in Hb as (kx & _ & Hkx & _). eauto.
Qed.

Lemma key_tie_key z a :
  well_keyed a -> key_tie z (snd a) = true -> alphanum_key z = Ok (fst a).
Proof.
  unfold key_tie, well_keyed. intros Ha.
  destruct (key_lt z (snd a)) as [[]|] eqn:H1; try discriminate.
  destruct (key_lt (snd a) z) as [[]|] eqn:H2; try discriminate.
  intros _. apply key_lt_ok in H1 as (kz & ka & Hz & Ha' & H1).
  rewrite (key_lt_keys _ _ _ _ Ha Hz) in H2.
  assert (ka = fst a) as -> by congruence.
  rewrite Hz. f_equal. now apply list_lt_tie.
Qed.

(** X2: [natural_sort] is stable: in what it returns, the names that tie
    with a given name are in the order in which they came in. *)
Theorem natural_sort_stable l l' z :
  natural_sort l = Ok l' ->
  List.filter (key_tie z) l' = List.filter (key_tie z) l.
Proof.
  unfold natural_sort.
  destruct (keyed l) as [ks|] eqn:Hk; simpl; [| discriminate].
  destruct (fold_left sorted_step ks (Ok [])) as [s|] eqn:Hs; simpl;
    [| discriminate].
  intros [= <-]. destruct (keyed_ok l ks Hk) as [Hm Hw].
  rewrite <- Hm, !filter_map_comm. f_equal.
  rewrite (sort_stable _ ks [] s); [reflexivity | | constructor | exact Hs].
  simpl. intros a b Ha Hb Hpa Hpb. rewrite List.Forall_forall in Hw.
  pose proof (key_tie_key z a (Hw a Ha) Hpa) as Hza.
  pose proof (key_tie_key z b (Hw b Hb) Hpb) as Hzb. congruence.
Qed.

(** X3: When no two different names of the list tie, [natural_sort] returns
    the same list for every order in which the names are given. *)
Theorem natural_sort_any_listing l1 l2 :
  Permutation l1 l2 ->
  (forall x y, In x l1 -> In y l1 -> key_tie x y = true -> x = y) ->
  natural_sort l1 = natural_sort l2.
Proof.
  intros Hp Htie.
  assert (forall x, In x l1 <-> In x l2) as Hin
    by (intros x; rewrite <- !list_elem_of_In; now rewrite Hp).
  destruct (natural_sort l1) as [s1|e1] eqn:H1,
           (natural_sort l2) as [s2|e2] eqn:H2.
  - destruct (natural_sort_ok _ _ H1) as (_ & Hp1 & Hs1).
    destruct (natural_sort_ok _ _ H2) as (_ & Hp2 & Hs2).
    f_equal. apply sorted_perm_unique; auto.
    + now rewrite Hp1, Hp2.
    + intros x y Hx Hy. apply Htie; apply list_elem_of_In;
        rewrite <- Hp1; now apply list_elem_of_In.
  - exfalso. destruct (natural_sort_ok _ _ H1) as (Hc & _ & _).
    destruct (natural_sort_raise _ _ H2)
      as [(_ & x & Hx & Hr) | (_ & _ & x & y & Hx & Hy & Hr)].
    + apply Hin in Hx. destruct (Hc x x Hx Hx) as [b Hb].
      apply key_lt_ok in Hb as (kx & _ & Hkx & _). congruence.
    + apply Hin in Hx, Hy. destruct (Hc x y Hx Hy) as [b Hb]. congruence.
  - exfalso. destruct (natural_sort_ok _ _ H2) as (Hc & _ & _).
    destruct (natural_sort_raise _ _ H1)
      as [(_ & x & Hx & Hr) | (_ & _ & x & y & Hx & Hy & Hr)].
    + apply Hin in Hx. destruct (Hc x x Hx Hx) as [b Hb].
      apply key_lt_ok in Hb as (kx & _ & Hkx & _). congruence.
    + apply Hin in Hx, Hy. destruct (Hc x y Hx Hy) as [b Hb]. congruence.
  - f_equal.
    destruct (natural_sort_raise _ _ H1)
      as [(-> & x & Hx & Hr) | (-> & Hk1 & _)];
      destruct (natural_sort_raise _ _ H2)
        as [(-> & x' & Hx' & Hr') | (-> & Hk2 & _)]; try reflexivity;
      exfalso.
    + apply Hin in Hx. destruct (Hk2 x Hx) as [k Hk]. congruence.
    + apply Hin in Hx'. destruct (Hk1 x' Hx') as [k Hk]. congruence.
Qed.

(** X25: How [natural_sort] ends: it returns exactly when the key of every
    name can be computed and any two keys can be compared, and then
    returns the names rearranged in natural order; it raises [ValueError] when
    [int] refuses a piece of a name that [str.isdigit] accepts, and
    [TypeError] when all keys are computed and two of them cannot be
    compared (an [int] of one meets a [str] of the other). *)
Theorem natural_sort_outcome l :
  match natural_sort l with
  | Ok l' =>
      (forall x y, In x l -> In y l -> exists b, key_lt x y = Ok b)
      /\ Permutation l' l /\ StronglySorted key_le l'
  | Raise e =>
      (e = ValueError
       /\ exists x, In x l /\ alphanum_key x = Raise ValueError)
      \/ (e = TypeError
          /\ (forall x, In x l -> exists k, alphanum_key x = Ok k)
          /\ exists x y, In x l /\ In y l /\ key_lt x y = Raise TypeError)
  end.
Proof.
  destruct (natural_sort l) as [l'|e] eqn:Hs.
  - now apply natural_sort_ok.
  - now apply natural_sort_raise.
Qed.

(** ** Plain names *)

Lemma natural_sort_plain l :
  Forall (fun x => plain x = true) l ->
  exists l', natural_sort l = Ok l' /\ Permutation l' l
             /\ StronglySorted key_le l'.
Proof.
  intros Hp. rewrite List.Forall_forall in Hp.
  destruct (natural_sort_defined l) as [l' Hl'].
  { intros x y Hx Hy.
    destruct (key_lt_plain x y (Hp x Hx) (Hp y Hy)) as [-> _]. eauto. }
  exists l'. split; [exact Hl' |]. now apply natural_sort_ok.
Qed.

Lemma spec_runs_head_nondigit s :
  starts_nondigit s = true ->
  match spec_runs s with DigitRun _ :: _ => False | _ => True end.
Proof.
  destruct s as [|c s]; [exact (fun _ => I) |]. simpl.
  intros Hc%negb_true_iff. rewrite Hc.
  now destruct (spec_runs s) as [|[?|?] ?].
Qed.

Lemma spec_runs_digits d s :
  decimal_string d = true -> starts_nondigit s = true ->
  spec_runs (d +:+ s) = DigitRun d :: spec_runs s.
Proof.
  intros Hd Hs. apply decimal_string_forall in Hd as Hall.
  destruct d as [|c d]; [discriminate |]. clear Hd.
  revert c Hall. induction d as [|c' d IH]; intros c Hall.
  - simpl in Hall. rewrite andb_true_r in Hall.
    change (String c "" +:+ s) with (String c s).
    cbn [spec_runs]. rewrite Hall.
    pose proof (spec_runs_head_nondigit s Hs) as Hh.
    destruct (spec_runs s) as [|[?|?] ?];
      [reflexivity | contradiction | reflexivity].
  - cbn [str_forall] in Hall. apply andb_prop in Hall as [Hc Hall].
    change (String c (String c' d) +:+ s)
      with (String c (String c' d +:+ s)).
    cbn [spec_runs]. rewrite Hc.
    change (spec_runs (String c' (d +:+ s)))
      with (spec_runs (String c' d +:+ s)).
    now rewrite (IH c' Hall).
Qed.

(** The runs of a name with a number in it: those before the number, the
    number, those behind it. *)
Lemma spec_runs_numbered p c d s :
  isdigit_char c = false -> decimal_string d = true ->
  starts_nondigit s = true ->
  spec_runs (p +:+ String c (d +:+ s))
  = spec_runs (p +:+ String c "") ++ DigitRun d :: spec_runs s.
Proof.
  intros Hc Hd Hs. induction p as [|c0 p IH].
  - change ("" +:+ String c (d +:+ s)) with (String c (d +:+ s)).
    change ("" +:+ String c "") with (String c "").
    cbn [spec_runs]. rewrite Hc, (spec_runs_digits d s Hd Hs). reflexivity.
  - change (String c0 p +:+ String c (d +:+ s))
      with (String c0 (p +:+ String c (d +:+ s))).
    change (String c0 p +:+ String c "") with (String c0 (p +:+ String c "")).
    cbn [spec_runs]. rewrite IH.
    assert (spec_runs (p +:+ String c "") <> []) as Hne.
    { clear. destruct p as [|c1 p]; simpl.
      - now destruct (isdigit_char c).
      - destruct (isdigit_char c1);
          now destruct (spec_runs (p +:+ String c "")) as [|[?|?] ?]. }
    destruct (spec_runs (p +:+ String c "")) as [|[d0|t0] rs];
      [congruence | |]; destruct (isdigit_char c0); reflexivity.
Qed.

Lemma spec_compare_runs_refl rs : spec_compare_runs rs rs = Some Eq.
Proof.
  induction rs as [|[d|t] rs IH]; [reflexivity | |]; simpl.
  - now rewrite N.compare_refl.
  - now rewrite str_compare_refl.
Qed.

Lemma spec_compare_runs_app rs a b :
  spec_compare_runs (rs ++ a) (rs ++ b) = spec_compare_runs a b.
Proof.
  induction rs as [|[d|t] rs IH]; [reflexivity | |]; simpl.
  - now rewrite N.compare_refl.
  - now rewrite str_compare_refl.
Qed.

(** Two names that agree up to a number are compared by the numbers, then
    by what follows. *)
Lemma natural_compare_numbered p c d1 d2 s1 s2 :
  isdigit_char c = false ->
  decimal_string d1 = true -> decimal_string d2 = true ->
  starts_nondigit s1 = true -> starts_nondigit s2 = true ->
  spec_natural_compare (p +:+ String c (d1 +:+ s1))
                       (p +:+ String c (d2 +:+ s2))
  = match (decimal_value d1 ?= decimal_value d2)%N with
    | Eq => spec_compare_runs (spec_runs s1) (spec_runs s2)
    | o => Some o
    end.
Proof.
  intros Hc Hd1 Hd2 Hs1 Hs2. unfold spec_natural_compare.
  rewrite (spec_runs_numbered p c d1 s1 Hc Hd1 Hs1).
  rewrite (spec_runs_numbered p c d2 s2 Hc Hd2 Hs2).
  rewrite spec_compare_runs_app. cbn [spec_compare_runs spec_run_compare].
  now destruct (decimal_value d1 ?= decimal_value d2)%N.
Qed.

Lemma is_ascii_app a b : is_ascii (a +:+ b) = is_ascii a && is_ascii b.
Proof.
  unfold is_ascii. induction a as [|c a IH]; [reflexivity |].
  simpl. now rewrite IH, andb_assoc.
Qed.

Lemma append_assoc a b c : (a +:+ b) +:+ c = a +:+ (b +:+ c).
Proof.
  induction a as [|x a IH]; [reflexivity |].
  change (String x ((a +:+ b) +:+ c) = String x (a +:+ (b +:+ c))).
  now rewrite IH.
Qed.

Lemma natural_sort_slices path :
  is_ascii path = true ->
  natural_sort [path +:+ "/CT1.dcm"; path +:+ "/CT10.dcm";
                path +:+ "/CT2.dcm"]
  = Ok [path +:+ "/CT1.dcm"; path +:+ "/CT2.dcm"; path +:+ "/CT10.dcm"].
Proof.
  intros Hpath.
  assert (forall x, is_ascii x = true -> plain (path +:+ x) = true) as Hpl
    by (intros x Hx; apply ascii_plain; now rewrite is_ascii_app, Hpath).
  assert (forall d1 d2 c,
            decimal_string d1 = true -> decimal_string d2 = true ->
            (decimal_value d1 ?= decimal_value d2)%N = c -> c <> Eq ->
            list_lt
              (plain_key (path +:+ "/CT" +:+ d1 +:+ ".dcm"))
              (plain_key (path +:+ "/CT" +:+ d2 +:+ ".dcm"))
            = Ok (match c with Lt => true | _ => false end)) as Hlt.
  { intros d1 d2 c Hd1 Hd2 Hc Hne.
    assert (forall d, decimal_string d = true ->
              plain (path +:+ "/CT" +:+ d +:+ ".dcm") = true) as Hpd.
    { intros d Hd. apply ascii_plain. rewrite !is_ascii_app, Hpath.
      rewrite (digits_ascii d (decimal_string_forall d Hd)). reflexivity. }
    pose proof (natural_compare_numbered (path +:+ "/C") "T" d1 d2
                  ".dcm" ".dcm" eq_refl Hd1 Hd2 eq_refl eq_refl) as Hcmp.
    rewrite Hc in Hcmp.
    assert (spec_natural_compare (path +:+ "/CT" +:+ d1 +:+ ".dcm")
                                 (path +:+ "/CT" +:+ d2 +:+ ".dcm") = Some c)
      as Hcmp'.
    { replace (path +:+ "/CT" +:+ d1 +:+ ".dcm")
        with ((path +:+ "/C") +:+ String "T" (d1 +:+ ".dcm"))
        by (now rewrite append_assoc).
      replace (path +:+ "/CT" +:+ d2 +:+ ".dcm")
        with ((path +:+ "/C") +:+ String "T" (d2 +:+ ".dcm"))
        by (now rewrite append_assoc).
      rewrite Hcmp. now destruct c. }
    destruct (key_lt_of_compare _ _ c (Hpd d1 Hd1) (Hpd d2 Hd2) Hcmp')
      as [Hk _].
    unfold key_lt in Hk. now rewrite !alphanum_key_plain in Hk by auto. }
  unfold natural_sort, keyed. cbn [map_result].
  rewrite !alphanum_key_plain by (apply Hpl; reflexivity).
  cbn [rbind fold_left sorted_step insort fst snd].
  change (path +:+ "/CT1.dcm") with (path +:+ "/CT" +:+ "1" +:+ ".dcm").
  change (path +:+ "/CT2.dcm") with (path +:+ "/CT" +:+ "2" +:+ ".dcm").
  change (path +:+ "/CT10.dcm") with (path +:+ "/CT" +:+ "10" +:+ ".dcm").
  rewrite (Hlt "10" "1" Gt eq_refl eq_refl eq_refl) by discriminate.
  cbn [rbind sorted_step insort fst snd].
  rewrite (Hlt "2" "1" Gt eq_refl eq_refl eq_refl) by discriminate.
  cbn [rbind sorted_step insort fst snd].
  rewrite (Hlt "2" "10" Lt eq_refl eq_refl eq_refl) by discriminate.
  reflexivity.
Qed.

(** X26: On plain names (the ASCII ones among them) the code does what
    the specification says of the natural order: Python's comparison of the
    keys, and with it [natural_sort], decides as the comparison run by run
    does - the strings are split into their maximal runs of digits and of
    other characters, digit runs are compared as integers, other runs
    after [str.lower], the first differing run decides and a strict prefix
    comes first.  This is the comparison of the specification wherever
    that one decides (it is silent where a digit run meets a non-digit
    run; there the digit run comes first).  [natural_sort] returns a list
    of plain names rearranged in that order; CT1.dcm, CT10.dcm, CT2.dcm of
    a directory are enumerated as CT1, CT2, CT10. *)
Theorem natural_sort_refines :
  (forall a b, plain a = true -> plain b = true ->
      key_lt a b
        = Ok (match natural_compare a b with Lt => true | _ => false end)
      /\ key_lt b a
        = Ok (match natural_compare a b with Gt => true | _ => false end)
      /\ natural_sort [a; b]
         = Ok (match natural_compare a b with Gt => [b; a] | _ => [a; b] end))
  /\ (forall a b c,
        spec_natural_compare a b = Some c -> natural_compare a b = c)
  /\ (forall l, Forall (fun x => plain x = true) l ->
        exists l', natural_sort l = Ok l' /\ Permutation l' l
                   /\ StronglySorted key_le l')
  /\ (forall s, is_ascii s = true -> plain s = true)
  /\ (forall path, is_ascii path = true ->
        natural_sort [path +:+ "/CT1.dcm"; path +:+ "/CT10.dcm";
                      path +:+ "/CT2.dcm"]
        = Ok [path +:+ "/CT1.dcm"; path +:+ "/CT2.dcm";
              path +:+ "/CT10.dcm"]).
Proof.
  split; [| split; [| split; [| split]]].
  - intros a b Ha Hb. destruct (key_lt_plain a b Ha Hb) as [H1 H2].
    split; [exact H1 | split; [exact H2 |]].
    rewrite (natural_sort_pair a b _ H2).
    now destruct (natural_compare a b).
  - intros a b c. apply compare_runs_total_extends.
  - apply natural_sort_plain.
  - apply ascii_plain.
  - apply natural_sort_slices.
Qed.

End SortTheorems.
Section Numbers.
Context `{Unicode}.

(** X5: Two plain names that agree up to a number and carry different
    numbers are ordered by the value of the number, whatever its number of
    digits; when the numbers have the same value (leading zeros) and the
    names agree behind them, the names tie. *)
Theorem natural_sort_by_number p c d1 d2 s1 s2 :
  isdigit_char c = false ->
  decimal_string d1 = true -> decimal_string d2 = true ->
  starts_nondigit s1 = true -> starts_nondigit s2 = true ->
  let a := p +:+ String c (d1 +:+ s1) in
  let b := p +:+ String c (d2 +:+ s2) in
  plain a = true -> plain b = true ->
  ((decimal_value d1 < decimal_value d2)%N ->
   natural_sort [a; b] = Ok [a; b] /\ natural_sort [b; a] = Ok [a; b])
  /\ (decimal_value d1 = decimal_value d2 -> s1 = s2 -> key_tie a b = true).
Proof.
  intros Hc Hd1 Hd2 Hs1 Hs2 a b Ha Hb.
  pose proof (natural_compare_numbered p c d1 d2 s1 s2 Hc Hd1 Hd2 Hs1 Hs2)
    as Hcmp.
  fold a b in Hcmp. split.
  - intros Hlt. change ((decimal_value d1 ?= decimal_value d2)%N = Lt) in Hlt.
    rewrite Hlt in Hcmp.
    destruct (key_lt_of_compare a b Lt Ha Hb Hcmp) as [Hab Hba].
    rewrite (natural_sort_pair a b _ Hba), (natural_sort_pair b a _ Hab).
    auto.
  - intros Heq <-. rewrite Heq, N.compare_refl in Hcmp.
    rewrite spec_compare_runs_refl in Hcmp.
    destruct (key_lt_of_compare a b Eq Ha Hb Hcmp) as [Hab Hba].
    unfold key_tie. now rewrite Hab, Hba.
Qed.

End Numbers.

(** ** Letter case, for names of ASCII characters *)

Lemma lower_ascii_bound c : (c < 128)%N -> (lower_ascii c < 128)%N.
Proof.
  unfold lower_ascii. intros Hc.
  destruct ((65 <=? c) && (c <=? 90))%N eqn:Ht; [| exact Hc].
  apply andb_prop in Ht as [_ Ht]. apply N.leb_le in Ht. lia.
Qed.

Lemma upper_ascii_bound c : (c < 128)%N -> (upper_ascii c < 128)%N.
Proof.
  unfold upper_ascii. intros Hc.
  destruct ((97 <=? c) && (c <=? 122))%N; lia.
Qed.

Lemma lower_lower_ascii c : lower_ascii (lower_ascii c) = lower_ascii c.
Proof.
  unfold lower_ascii.
  destruct ((65 <=? c) && (c <=? 90))%N eqn:Ht; [| now rewrite Ht].
  apply andb_prop in Ht as [H1 H2]. apply N.leb_le in H1, H2.
  destruct ((65 <=? c + 32) && (c + 32 <=? 90))%N eqn:Ht'; [| reflexivity].
  apply andb_prop in Ht' as [_ H3]. apply N.leb_le in H3. lia.
Qed.

Lemma lower_upper_ascii c : lower_ascii (upper_ascii c) = lower_ascii c.
Proof.
  unfold lower_ascii, upper_ascii.
  destruct ((97 <=? c) && (c <=? 122))%N eqn:Hu.
  - apply andb_prop in Hu as [H1 H2]. apply N.leb_le in H1, H2.
    replace ((65 <=? c - 32) && (c - 32 <=? 90))%N with true
      by (symmetry; apply andb_true_intro; split; apply N.leb_le; lia).
    replace ((65 <=? c) && (c <=? 90))%N with false
      by (symmetry; apply andb_false_iff; right; apply N.leb_gt; lia).
    lia.
  - reflexivity.
Qed.

Lemma upper_lower_ascii c : upper_ascii (lower_ascii c) = upper_ascii c.
Proof.
  unfold lower_ascii, upper_ascii.
  destruct ((65 <=? c) && (c <=? 90))%N eqn:Hl.
  - apply andb_prop in Hl as [H1 H2]. apply N.leb_le in H1, H2.
    replace ((97 <=? c + 32) && (c + 32 <=? 122))%N with true
      by (symmetry; apply andb_true_intro; split; apply N.leb_le; lia).
    replace ((97 <=? c) && (c <=? 122))%N with false
      by (symmetry; apply andb_false_iff; left; apply N.leb_gt; lia).
    lia.
  - reflexivity.
Qed.

Lemma upper_upper_ascii c : upper_ascii (upper_ascii c) = upper_ascii c.
Proof.
  unfold upper_ascii.
  destruct ((97 <=? c) && (c <=? 122))%N eqn:Ht; [| now rewrite Ht].
  apply andb_prop in Ht as [H1 H2]. apply N.leb_le in H1, H2.
  replace ((97 <=? c - 32) && (c - 32 <=? 122))%N with false
    by (symmetry; apply andb_false_iff; left; apply N.leb_gt; lia).
  reflexivity.
Qed.

Lemma isdigit_lower_char c : isdigit_char (on_char lower_ascii c) = isdigit_char c.
Proof. all_chars c. Qed.

Lemma isdigit_upper_char c : isdigit_char (on_char upper_ascii c) = isdigit_char c.
Proof. all_chars c. Qed.

Lemma slash_lower_char c : Ascii.eqb (on_char lower_ascii c) "/" = Ascii.eqb c "/".
Proof. all_chars c. Qed.

Lemma slash_upper_char c : Ascii.eqb (on_char upper_ascii c) "/" = Ascii.eqb c "/".
Proof. all_chars c. Qed.

Lemma digit_lower_char c : isdigit_char c = true -> on_char lower_ascii c = c.
Proof.
  destruct c as [[] [] [] [] [] [] [] []]; vm_compute; intros;
    first [reflexivity | discriminate].
Qed.

Lemma digit_upper_char c : isdigit_char c = true -> on_char upper_ascii c = c.
Proof.
  destruct c as [[] [] [] [] [] [] [] []]; vm_compute; intros;
    first [reflexivity | discriminate].
Qed.

(** A change of letter case [f] and [re.split] commute. *)
Lemma re_split_str_map f s :
  (forall c, isdigit_char (on_char f c) = isdigit_char c) ->
  re_split_digits (str_map f s) = map (str_map f) (re_split_digits s).
Proof.
  intros Hf. induction s as [|c s IH]; [reflexivity |].
  cbn [str_map re_split_digits]. rewrite IH, Hf.
  destruct (re_split_digits s) as [|t rest]; [reflexivity |].
  cbn [map]. destruct (isdigit_char c); [| reflexivity].
  destruct t; [| reflexivity]. destruct rest; reflexivity.
Qed.

Lemma str_forall_str_map p f s :
  (forall c, p (on_char f c) = p c) ->
  str_forall p (str_map f s) = str_forall p s.
Proof.
  intros Hf. induction s as [|c s IH]; [reflexivity |]. simpl.
  now rewrite Hf, IH.
Qed.

Lemma decimal_string_str_map f s :
  (forall c, isdigit_char (on_char f c) = isdigit_char c) ->
  decimal_string (str_map f s) = decimal_string s.
Proof.
  intros Hf. destruct s as [|c s]; [reflexivity |].
  cbn [str_map decimal_string str_forall].
  now rewrite Hf, (str_forall_str_map _ _ _ Hf).
Qed.

Lemma str_map_digits f s :
  (forall c, isdigit_char c = true -> on_char f c = c) ->
  str_forall isdigit_char s = true -> str_map f s = s.
Proof.
  intros Hf. induction s as [|c s IH]; [reflexivity |]. simpl.
  intros [Hc Hs]%andb_prop.
  now rewrite (Hf c Hc), (IH Hs).
Qed.

Lemma decode_str_map f s :
  (forall c, (c < 128)%N -> (f c < 128)%N) ->
  is_ascii s = true ->
  is_ascii (str_map f s) = true
  /\ decode (str_map f s) = map f (decode s).
Proof.
  intros Hf. unfold is_ascii.
  induction s as [|c s IH]; [split; reflexivity |].
  cbn [str_forall str_map]. intros [Hc Hs]%andb_prop.
  destruct (IH Hs) as [IH1 IH2].
  assert (N_of_ascii (on_char f c) = f (N_of_ascii c)) as Hemb.
  { apply N_ascii_embedding. apply N.ltb_lt in Hc.
    specialize (Hf _ Hc). lia. }
  assert ((N_of_ascii (on_char f c) <? 128)%N = true) as Hc'.
  { rewrite Hemb. apply N.ltb_lt, Hf. now apply N.ltb_lt. }
  split.
  - now rewrite Hc', IH1.
  - rewrite (decode_cons_ascii _ _ Hc'), (decode_cons_ascii _ _ Hc).
    simpl. now rewrite Hemb, IH2.
Qed.

Section LetterCase.
Context `{Unicode}.

Lemma lower_str_map f s :
  (forall c, (c < 128)%N -> (f c < 128)%N) ->
  (forall c, lower_ascii (f c) = lower_ascii c) ->
  is_ascii s = true -> lower (str_map f s) = lower s.
Proof.
  intros Hb Hl Hs. unfold lower.
  destruct (decode_str_map f s Hb Hs) as [Hs' Hd].
  rewrite !to_lower_ascii by (now apply decode_ascii).
  rewrite Hd, map_map. apply map_ext. intros c. apply Hl.
Qed.

Lemma convert_plain_str_map f s :
  (forall c, (c < 128)%N -> (f c < 128)%N) ->
  (forall c, isdigit_char (on_char f c) = isdigit_char c) ->
  (forall c, isdigit_char c = true -> on_char f c = c) ->
  (forall c, lower_ascii (f c) = lower_ascii c) ->
  is_ascii s = true ->
  convert_plain (str_map f s) = convert_plain s.
Proof.
  intros Hb Hd Hid Hl Hs. unfold convert_plain.
  rewrite (decimal_string_str_map f s Hd).
  destruct (decimal_string s) eqn:Hds.
  - now rewrite (str_map_digits f s Hid (decimal_string_forall s Hds)).
  - now rewrite lower_str_map.
Qed.

Lemma plain_key_str_map f s :
  (forall c, (c < 128)%N -> (f c < 128)%N) ->
  (forall c, isdigit_char (on_char f c) = isdigit_char c) ->
  (forall c, isdigit_char c = true -> on_char f c = c) ->
  (forall c, lower_ascii (f c) = lower_ascii c) ->
  is_ascii s = true ->
  plain_key (str_map f s) = plain_key s.
Proof.
  intros Hb Hd Hid Hl Hs. unfold plain_key.
  rewrite (re_split_str_map f s Hd), map_map.
  apply map_ext_in. intros p Hp. apply convert_plain_str_map; auto.
  apply (is_ascii_concat (re_split_digits s)); [| exact Hp].
  now rewrite re_split_concat.
Qed.

Lemma alphanum_key_str_map f s :
  (forall c, (c < 128)%N -> (f c < 128)%N) ->
  (forall c, isdigit_char (on_char f c) = isdigit_char c) ->
  (forall c, isdigit_char c = true -> on_char f c = c) ->
  (forall c, lower_ascii (f c) = lower_ascii c) ->
  is_ascii s = true ->
  alphanum_key (str_map f s) = alphanum_key s.
Proof.
  intros Hb Hd Hid Hl Hs.
  destruct (decode_str_map f s Hb Hs) as [Hs' _].
  rewrite !alphanum_key_plain by now apply ascii_plain.
  f_equal. now apply plain_key_str_map.
Qed.

(** X4: For names of ASCII characters the key ignores the case of the
    letters: a name, its lower-case form and its upper-case form have the
    same key, so two names that differ in case only tie and [natural_sort]
    keeps them in the order given.  ([lower_string s] is [s.lower()].) *)
Theorem alphanum_key_ignores_case s :
  is_ascii s = true ->
  lower s = decode (lower_string s)
  /\ alphanum_key (lower_string s) = alphanum_key s
  /\ alphanum_key (upper_string s) = alphanum_key s
  /\ (forall t, is_ascii t = true -> lower_string t = lower_string s ->
        key_tie s t = true /\ natural_sort [s; t] = Ok [s; t]).
Proof.
  intros Hs.
  assert (forall x, is_ascii x = true ->
            alphanum_key (lower_string x) = alphanum_key x) as Hl
    by (intros x Hx; apply alphanum_key_str_map;
        auto using lower_ascii_bound, isdigit_lower_char, digit_lower_char,
          lower_lower_ascii).
  split; [| split; [now apply Hl | split]].
  - unfold lower_string.
    destruct (decode_str_map lower_ascii s lower_ascii_bound Hs) as [_ ->].
    unfold lower. apply to_lower_ascii. now apply decode_ascii.
  - apply alphanum_key_str_map;
      auto using upper_ascii_bound, isdigit_upper_char, digit_upper_char,
        lower_upper_ascii.
  - intros t Ht Heq.
    assert (alphanum_key t = alphanum_key s) as Hk
      by (rewrite <- (Hl t Ht), <- (Hl s Hs); now rewrite Heq).
    assert (key_lt s t = Ok false /\ key_lt t s = Ok false) as [Hst Hts].
    { unfold key_lt. rewrite Hk.
      rewrite (alphanum_key_plain s (ascii_plain s Hs)). simpl.
      now rewrite list_lt_irrefl. }
    split; [unfold key_tie; now rewrite Hst, Hts |].
    now rewrite (natural_sort_pair s t _ Hts).
Qed.

End LetterCase.
(** * Properties of [get_datasets] *)

Section DiscoveryFacts.
Context `{Unicode}.

Lemma loop_inv_init d : loop_inv d [] loop_init.
Proof.
  split; simpl; try reflexivity.
  intros s. rewrite lookup_empty. now destruct (modality_of_label s).
Qed.

Lemma filter_snoc {A} (p : A -> bool) l x :
  List.filter p (l ++ [x]) = List.filter p l ++ (if p x then [x] else []).
Proof. rewrite List.filter_app. reflexivity. Qed.

Lemma modality_of_label_inv s m :
  modality_of_label s = Some m ->
  (s = "rtss" /\ m = "RTSTRUCT") \/ (s = "rtdose" /\ m = "RTDOSE")
  \/ (s = "rtplan" /\ m = "RTPLAN").
Proof.
  unfold modality_of_label.
  destruct (String.eqb_spec s "rtss");
    [intros [= <-]; auto |].
  destruct (String.eqb_spec s "rtdose");
    [intros [= <-]; auto |].
  destruct (String.eqb_spec s "rtplan");
    [intros [= <-]; auto | discriminate].
Qed.

(** A file that changes nothing in the dictionaries *)
Lemma loop_inv_skip d pre st file out :
  has_modality d "CT" file = false ->
  (forall s m, modality_of_label s = Some m -> has_modality d m file = false) ->
  out = printed st ++ (if unreadable d file then [cannot_read file] else []) ->
  loop_inv d pre st ->
  loop_inv d (pre ++ [file])
    {| read_data_dict := read_data_dict st;
       file_names_dict := file_names_dict st;
       ct_index := ct_index st;
       printed := out |}.
Proof.
  intros HCT Hm -> [Hi Hc Hr Hd Ho].
  split; simpl; intros; rewrite ?filter_snoc, ?HCT, ?app_nil_r; auto.
  - rewrite Hr. destruct (modality_of_label s) as [m|] eqn:Hs; [| reflexivity].
    simpl. now rewrite filter_snoc, (Hm s m Hs), app_nil_r.
  - rewrite Ho. destruct (unreadable d file); simpl.
    + now rewrite map_app.
    + now rewrite !app_nil_r.
Qed.

Lemma loop_st_eta st :
  st = {| read_data_dict := read_data_dict st;
          file_names_dict := file_names_dict st;
          ct_index := ct_index st;
          printed := printed st |}.
Proof. now destruct st. Qed.

Lemma has_modality_read d m file ds :
  inspected d file = true -> dcmread d file = Some ds ->
  has_modality d m file = String.eqb (Modality ds) m.
Proof. unfold has_modality. now intros -> ->. Qed.

Lemma unreadable_read d file ds :
  dcmread d file = Some ds -> unreadable d file = false.
Proof. unfold unreadable. intros ->. apply andb_false_r. Qed.

(** A file stored under one of the [str] keys *)
Lemma loop_inv_rt d pre st file ds label :
  inspected d file = true -> dcmread d file = Some ds ->
  modality_of_label label = Some (Modality ds) ->
  loop_inv d pre st ->
  loop_inv d (pre ++ [file]) (store_under (KStr label) ds file st).
Proof.
  intros Hin Hds Hlab [Hi Hc Hr Hd Ho].
  assert (has_modality d "CT" file = false) as HCT.
  { rewrite (has_modality_read d _ file ds Hin Hds).
    apply modality_of_label_inv in Hlab as [[_ ->] | [[_ ->] | [_ ->]]];
      reflexivity. }
  split; simpl.
  - now rewrite filter_snoc, HCT, app_nil_r.
  - intros k. rewrite lookup_insert_ne by discriminate.
    now rewrite filter_snoc, HCT, app_nil_r.
  - intros s. destruct (decide (s = label)) as [-> | Hne].
    + rewrite lookup_insert_eq, Hlab. simpl.
      rewrite filter_snoc, (has_modality_read d _ file ds Hin Hds).
      rewrite String.eqb_refl. now rewrite last_snoc.
    + rewrite lookup_insert_ne by congruence. rewrite Hr.
      destruct (modality_of_label s) as [m|] eqn:Hs; [| reflexivity]. simpl.
      rewrite filter_snoc, (has_modality_read d _ file ds Hin Hds).
      destruct (String.eqb_spec (Modality ds) m) as [<- | _];
        [| now rewrite app_nil_r].
      exfalso. apply Hne.
      apply modality_of_label_inv in Hlab as [[-> Hm] | [[-> Hm] | [-> Hm]]];
        rewrite Hm in Hs;
        apply modality_of_label_inv in Hs as [[-> ?] | [[-> ?] | [-> ?]]];
        congruence.
  - intros k. destruct (decide (k = KStr label)) as [-> | Hne].
    + rewrite !lookup_insert_eq. simpl. now rewrite Hds.
    + rewrite !lookup_insert_ne by congruence. apply Hd.
  - rewrite filter_snoc, (unreadable_read d file ds Hds), app_nil_r. exact Ho.
Qed.

Lemma loop_inv_step d pre st file :
  loop_inv d pre st -> loop_inv d (pre ++ [file]) (loop_body d st file).
Proof.
  intros Hinv. unfold loop_body. fold (inspected d file).
  destruct (inspected d file) eqn:Hin.
  2:{ rewrite (loop_st_eta st). apply loop_inv_skip; simpl; auto.
      - unfold has_modality. now rewrite Hin.
      - intros s m _. unfold has_modality. now rewrite Hin.
      - unfold unreadable. rewrite Hin. simpl. now rewrite app_nil_r. }
  destruct (dcmread d file) as [ds|] eqn:Hds.
  2:{ apply loop_inv_skip; auto.
      - unfold has_modality. rewrite Hds. apply andb_false_r.
      - intros s m _. unfold has_modality. rewrite Hds. apply andb_false_r.
      - unfold unreadable. now rewrite Hin, Hds. }
  destruct (String.eqb_spec (Modality ds) "CT") as [HCT | HnCT].
  { destruct Hinv as [Hi Hc Hr Hd Ho].
    assert (has_modality d "CT" file = true) as Hm
      by (rewrite (has_modality_read d _ file ds Hin Hds), HCT; reflexivity).
    split; simpl.
    - rewrite filter_snoc, Hm, length_app. simpl. lia.
    - intros k. rewrite filter_snoc, Hm.
      destruct (decide (k = ct_index st)) as [-> | Hne].
      + rewrite lookup_insert_eq, Hi. now rewrite list_lookup_middle.
      + rewrite lookup_insert_ne by congruence. rewrite Hc.
        destruct (decide (k < ct_index st)) as [Hlt | Hge].
        * rewrite lookup_app_l by lia. reflexivity.
        * rewrite (lookup_ge_None_2 (List.filter _ pre)) by lia.
          symmetry. apply lookup_ge_None_2. rewrite length_app. simpl. lia.
    - intros s. rewrite lookup_insert_ne by discriminate. rewrite Hr.
      destruct (modality_of_label s) as [m|] eqn:Hs; [| reflexivity]. simpl.
      rewrite filter_snoc, (has_modality_read d _ file ds Hin Hds), HCT.
      apply modality_of_label_inv in Hs as [[_ ->] | [[_ ->] | [_ ->]]];
        simpl; now rewrite app_nil_r.
    - intros k. destruct (decide (k = KInt (ct_index st))) as [-> | Hne].
      + rewrite !lookup_insert_eq. simpl. now rewrite Hds.
      + rewrite !lookup_insert_ne by congruence. apply Hd.
    - rewrite filter_snoc, (unreadable_read d file ds Hds), app_nil_r.
      exact Ho. }
  destruct (String.eqb_spec (Modality ds) "RTSTRUCT") as [Hm | Hn1].
  { apply loop_inv_rt; auto. now rewrite Hm. }
  destruct (String.eqb_spec (Modality ds) "RTDOSE") as [Hm | Hn2].
  { apply loop_inv_rt; auto. now rewrite Hm. }
  destruct (String.eqb_spec (Modality ds) "RTPLAN") as [Hm | Hn3].
  { apply loop_inv_rt; auto. now rewrite Hm. }
  rewrite (loop_st_eta st). apply loop_inv_skip; simpl; auto.
  - rewrite (has_modality_read d _ file ds Hin Hds).
    now apply String.eqb_neq.
  - intros s m Hs. rewrite (has_modality_read d _ file ds Hin Hds).
    apply String.eqb_neq.
    apply modality_of_label_inv in Hs as [[_ ->] | [[_ ->] | [_ ->]]]; auto.
  - rewrite (unreadable_read d file ds Hds). now rewrite app_nil_r.
Qed.

Lemma loop_inv_fold d files : forall pre st,
  loop_inv d pre st ->
  loop_inv d (pre ++ files) (fold_left (loop_body d) files st).
Proof.
  induction files as [|file files IH]; intros pre st Hinv; simpl.
  - now rewrite app_nil_r.
  - replace (pre ++ file :: files) with ((pre ++ [file]) ++ files)
      by (now rewrite <- app_assoc).
    apply IH. now apply loop_inv_step.
Qed.

Lemma loop_inv_all d files :
  loop_inv d files (fold_left (loop_body d) files loop_init).
Proof. apply (loop_inv_fold d files [] loop_init), loop_inv_init. Qed.


Lemma get_datasets_inv d path r f out :
  get_datasets d path = Ok (r, f, out) ->
  exists dcm_files,
    natural_sort (glob d (path +:+ "/*")) = Ok dcm_files
    /\ r = read_data_dict (fold_left (loop_body d) dcm_files loop_init)
    /\ f = file_names_dict (fold_left (loop_body d) dcm_files loop_init)
    /\ out = printed (fold_left (loop_body d) dcm_files loop_init).
Proof.
  unfold get_datasets.
  destruct (natural_sort (glob d (path +:+ "/*"))) as [dcm_files|];
    simpl; [| discriminate].
  intros [= <- <- <-]. eauto.
Qed.

(** [get_datasets] raises what [natural_sort] raises, and nothing else. *)
Lemma get_datasets_raise d path e :
  get_datasets d path = Raise e
  <-> natural_sort (glob d (path +:+ "/*")) = Raise e.
Proof.
  unfold get_datasets.
  destruct (natural_sort (glob d (path +:+ "/*"))); simpl;
    split; congruence.
Qed.

Lemma has_modality_is_read d m file :
  has_modality d m file = true ->
  is_Some (dcmread d file) /\ unreadable d file = false.
Proof.
  unfold has_modality, unreadable.
  intros [Hin Hm]%andb_prop. rewrite Hin.
  destruct (dcmread d file); [eauto | discriminate].
Qed.

Lemma loop_inv_recorded d files st k file :
  loop_inv d files st -> file_names_dict st !! k = Some file ->
  In file files /\ is_Some (dcmread d file) /\ unreadable d file = false.
Proof.
  intros [Hi Hc Hr Hd Ho] Hk.
  assert (exists m, In file (List.filter (has_modality d m) files))
    as [m [Hin Hm]%List.filter_In].
  { destruct k as [i|s].
    - exists "CT". rewrite Hc in Hk. apply list_elem_of_In.
      eapply list_elem_of_lookup_2; eauto.
    - rewrite Hr in Hk. destruct (modality_of_label s) as [m|]; [| discriminate].
      exists m. simpl in Hk. apply list_elem_of_In.
      now apply last_Some_elem_of. }
  split; [assumption |]. eapply has_modality_is_read; eauto.
Qed.


(** Two runs of the loop whose lists have the same files of each modality
    build the same dictionaries. *)
Lemma loop_inv_same_dicts d l1 l2 st1 st2 :
  loop_inv d l1 st1 -> loop_inv d l2 st2 ->
  (forall m, List.filter (has_modality d m) l1
             = List.filter (has_modality d m) l2) ->
  read_data_dict st1 = read_data_dict st2
  /\ file_names_dict st1 = file_names_dict st2.
Proof.
  intros H1 H2 Heq.
  assert (file_names_dict st1 = file_names_dict st2) as Hf.
  { apply map_eq. intros [i|s].
    - rewrite (inv_ct _ _ _ H1), (inv_ct _ _ _ H2). now rewrite Heq.
    - rewrite (inv_rt _ _ _ H1), (inv_rt _ _ _ H2).
      destruct (modality_of_label s); simpl; [now rewrite Heq | reflexivity]. }
  split; [| assumption].
  apply map_eq. intros k.
  rewrite (inv_read _ _ _ H1), (inv_read _ _ _ H2). now rewrite Hf.
Qed.

Lemma filter_filter_readable d m l :
  List.filter (has_modality d m)
    (List.filter (fun x => negb (unreadable d x)) l)
  = List.filter (has_modality d m) l.
Proof.
  induction l as [|x l IH]; [reflexivity |]. simpl.
  destruct (unreadable d x) eqn:Hu; simpl.
  - rewrite IH. destruct (has_modality d m x) eqn:Hm; [| reflexivity].
    apply has_modality_is_read in Hm as [_ Hm]. congruence.
  - now rewrite IH.
Qed.


(** X27: What [get_datasets] does with a file the codec cannot read: it
    is reported on the standard output, appears in neither dictionary, and
    the dictionaries are those built from the other files; when no file
    passes the test of the loop both dictionaries are empty.  Whether
    [get_datasets] raises does not depend on the codec: it raises what
    [natural_sort] raises. *)
Theorem get_datasets_unreadable_skipped (d : Directory) (path : string) :
  (forall r f out,
     get_datasets d path = Ok (r, f, out) ->
     exists dcm_files,
       natural_sort (glob d (path +:+ "/*")) = Ok dcm_files
       /\ out = "Natural Sorting..."
                :: map cannot_read (List.filter (unreadable d) dcm_files)
       /\ (forall k file, f !! k = Some file -> unreadable d file = false)
       /\ (let st := fold_left (loop_body d)
                       (List.filter (fun x => negb (unreadable d x)) dcm_files)
                       loop_init in
           r = read_data_dict st /\ f = file_names_dict st)
       /\ ((forall file, In file (glob d (path +:+ "/*")) ->
                         inspected d file = false) ->
           r = ∅ /\ f = ∅ /\ out = ["Natural Sorting..."]))
  /\ (forall e, get_datasets d path = Raise e
                <-> natural_sort (glob d (path +:+ "/*")) = Raise e).
Proof.
  split; [| intros e; apply get_datasets_raise].
  intros r f out (dcm_files & Hs & -> & -> & ->)%get_datasets_inv.
  pose proof (loop_inv_all d dcm_files) as Hinv.
  destruct (natural_sort_ok _ _ Hs) as (_ & Hperm & _).
  exists dcm_files.
  split; [exact Hs |].
  split; [apply (inv_out _ _ _ Hinv) |].
  split; [| split].
  - intros k file Hk. eapply loop_inv_recorded; eauto.
  - simpl.
    eapply loop_inv_same_dicts; [exact Hinv | apply loop_inv_all |].
    intros m. now rewrite filter_filter_readable.
  - intros Hnone.
    assert (forall file, In file dcm_files -> inspected d file = false) as Hn.
    { intros file Hin. apply Hnone.
      apply list_elem_of_In. rewrite <- Hperm. now apply list_elem_of_In. }
    assert (forall m, List.filter (has_modality d m) dcm_files = []) as Hm.
    { intros m. apply filter_none. intros x Hx.
      unfold has_modality. now rewrite (Hn x Hx). }
    assert (file_names_dict (fold_left (loop_body d) dcm_files loop_init) = ∅)
      as Hf.
    { apply map_eq. intros [i|s]; rewrite lookup_empty.
      - rewrite (inv_ct _ _ _ Hinv), Hm. now destruct i.
      - rewrite (inv_rt _ _ _ Hinv).
        destruct (modality_of_label s); simpl; [now rewrite Hm | reflexivity]. }
    split; [| split; [exact Hf |]].
    + apply map_eq. intros k.
      rewrite (inv_read _ _ _ Hinv), Hf, !lookup_empty. reflexivity.
    + etransitivity; [apply (inv_out _ _ _ Hinv) |]. f_equal.
      rewrite filter_none; [reflexivity |].
      intros x Hx. unfold unreadable. now rewrite (Hn x Hx).
Qed.

End DiscoveryFacts.

(** ** Paths *)

Section PathFacts.
Context `{Unicode}.

Lemma has_slash_app p q : has_slash (p +:+ q) = has_slash p || has_slash q.
Proof.
  induction p as [|c p IH]; [reflexivity |]. simpl.
  now rewrite IH, orb_assoc.
Qed.

Lemma basename_no_slash q : has_slash q = false -> basename q = q.
Proof.
  destruct q as [|c q]; [reflexivity |]. simpl.
  intros [Hc Hq]%orb_false_elim. now rewrite Hq, Hc.
Qed.

Lemma basename_append p q :
  has_slash q = false -> basename (p +:+ String "/" q) = q.
Proof.
  intros Hq. induction p as [|c p IH].
  - simpl. now rewrite Hq.
  - change (String c p +:+ String "/" q) with (String c (p +:+ String "/" q)).
    cbn [basename].
    assert (has_slash (p +:+ String "/" q) = true) as ->
      by (rewrite has_slash_app; simpl; apply orb_true_r).
    exact IH.
Qed.

Lemma basename_suffix p :
  has_slash (basename p) = false
  /\ exists dir, p = dir +:+ basename p
                 /\ (dir = "" \/ exists dir', dir = dir' +:+ "/").
Proof.
  induction p as [|c p (Hn & dir & Hp & Hdir)].
  - split; [reflexivity |]. exists "". auto.
  - cbn [basename]. destruct (has_slash p) eqn:Hs.
    + split; [exact Hn |]. exists (String c dir). split.
      * change (String c dir +:+ basename p)
          with (String c (dir +:+ basename p)). f_equal. exact Hp.
      * right. destruct Hdir as [-> | (dir' & ->)].
        -- change ("" +:+ basename p) with (basename p) in Hp.
           rewrite <- Hp in Hn. congruence.
        -- exists (String c dir'). reflexivity.
    + destruct (Ascii.eqb_spec c "/") as [-> | Hc].
      * split; [exact Hs |]. exists "/". split; [reflexivity |].
        right. exists "". reflexivity.
      * split.
        -- simpl. rewrite Hs. now apply Ascii.eqb_neq in Hc as ->.
        -- exists "". auto.
Qed.

(** X6: [basename] is the part of a path behind its last slash: it contains no
    slash, the path is a directory part, empty or ending in a slash,
    followed by it, and [basename] of a name behind a directory and a
    slash is the name.  So the prefix test of [get_datasets] looks at the
    file name only, not at the directories of the path. *)
Theorem basename_listed :
  (forall p, has_slash (basename p) = false
             /\ exists dir, p = dir +:+ basename p
                            /\ (dir = "" \/ exists dir', dir = dir' +:+ "/"))
  /\ (forall p q, has_slash q = false ->
        basename (p +:+ "/" +:+ q) = q
        /\ has_dicom_prefix (p +:+ "/" +:+ q) = has_dicom_prefix q).
Proof.
  split; [apply basename_suffix |].
  intros p q Hq.
  assert (basename (p +:+ "/" +:+ q) = q) as Hb
    by now apply basename_append.
  split; [exact Hb |].
  unfold has_dicom_prefix. now rewrite Hb, (basename_no_slash q Hq).
Qed.

End PathFacts.
(** ** The prefix test *)

Lemma has_slash_str_map f p :
  (forall c, Ascii.eqb (on_char f c) "/" = Ascii.eqb c "/") ->
  has_slash (str_map f p) = has_slash p.
Proof.
  intros Hf. induction p as [|c p IH]; [reflexivity |]. simpl.
  now rewrite Hf, IH.
Qed.

Lemma basename_str_map f p :
  (forall c, Ascii.eqb (on_char f c) "/" = Ascii.eqb c "/") ->
  basename (str_map f p) = str_map f (basename p).
Proof.
  intros Hf. induction p as [|c p IH]; [reflexivity |].
  cbn [str_map basename]. rewrite (has_slash_str_map f p Hf), Hf, IH.
  destruct (has_slash p); [reflexivity |].
  destruct (Ascii.eqb c "/"); reflexivity.
Qed.

Lemma length_decode_ascii s :
  is_ascii s = true -> length (decode s) = String.length s.
Proof.
  unfold is_ascii. induction s as [|c s IH]; [reflexivity |].
  cbn [str_forall]. intros [Hc Hs]%andb_prop.
  rewrite (decode_cons_ascii c s Hc). simpl. now rewrite IH.
Qed.

Section PrefixFacts.
Context `{Unicode}.

Lemma is_ascii_basename p : is_ascii p = true -> is_ascii (basename p) = true.
Proof.
  intros Hp. destruct (basename_suffix p) as (_ & dir & Heq & _).
  rewrite Heq, is_ascii_app in Hp. now apply andb_prop in Hp as [_ ?].
Qed.

Lemma has_dicom_prefix_str_map f file :
  (forall c, (c < 128)%N -> (f c < 128)%N) ->
  (forall c, Ascii.eqb (on_char f c) "/" = Ascii.eqb c "/") ->
  (forall c, upper_ascii (f c) = upper_ascii c) ->
  is_ascii file = true ->
  has_dicom_prefix (str_map f file) = has_dicom_prefix file.
Proof.
  intros Hb Hs Hu Hfile. unfold has_dicom_prefix.
  rewrite (basename_str_map f file Hs).
  pose proof (is_ascii_basename file Hfile) as Hbase.
  destruct (decode_str_map f (basename file) Hb Hbase) as [_ ->].
  destruct (decode_ascii (basename file) Hbase) as [_ Hall].
  rewrite firstn_map.
  assert (Forall (fun c => (c < 128)%N) (take 2 (decode (basename file))))
    as Htake by now apply Forall_take.
  rewrite !to_upper_ascii; [| exact Htake |].
  - rewrite map_map.
    now rewrite (map_ext _ upper_ascii Hu).
  - rewrite List.Forall_map. eapply List.Forall_impl; [| exact Htake].
    intros c. apply Hb.
Qed.

(** X7: For names of ASCII characters the prefix test ignores the case of
    the letters, and a file whose name has fewer than two characters does
    not pass it. *)
Theorem has_dicom_prefix_case file :
  is_ascii file = true ->
  has_dicom_prefix (lower_string file) = has_dicom_prefix file
  /\ has_dicom_prefix (upper_string file) = has_dicom_prefix file
  /\ (String.length (basename file) < 2 -> has_dicom_prefix file = false).
Proof.
  intros Hfile. split; [| split].
  - apply has_dicom_prefix_str_map;
      auto using lower_ascii_bound, slash_lower_char, upper_lower_ascii.
  - apply has_dicom_prefix_str_map;
      auto using upper_ascii_bound, slash_upper_char, upper_upper_ascii.
  - intros Hlen. unfold has_dicom_prefix.
    pose proof (is_ascii_basename file Hfile) as Hbase.
    destruct (decode_ascii (basename file) Hbase) as [_ Hall].
    rewrite <- (length_decode_ascii _ Hbase) in Hlen.
    rewrite to_upper_ascii by now apply Forall_take.
    assert (length (map upper_ascii (take 2 (decode (basename file)))) < 2)
      as Hshort by (rewrite length_map, length_take; lia).
    match goal with
    | |- ?e = false => destruct e eqn:He; [| reflexivity]
    end.
    exfalso. apply existsb_exists in He as (p & Hp & Heq).
    apply str_eqb_eq in Heq. rewrite Heq in Hshort.
    simpl in Hp. destruct Hp as [<- | [<- | [<- | [<- | [<- | []]]]]];
      vm_compute in Hshort; lia.
Qed.

End PrefixFacts.

(** * Further properties of [get_datasets] *)

Section DiscoveryMore.
Context `{Unicode}.

Lemma fold_left_agree {A B} (f g : A -> B -> A) l : forall a,
  (forall a x, In x l -> f a x = g a x) ->
  fold_left f l a = fold_left g l a.
Proof.
  induction l as [|x l IH]; intros a Hfg; [reflexivity |]. simpl.
  rewrite (Hfg a x) by now left. apply IH. intros; apply Hfg; now right.
Qed.

Lemma loop_body_agree d d' st file :
  isfile d file = isfile d' file ->
  (inspected d file = true -> dcmread d file = dcmread d' file) ->
  loop_body d st file = loop_body d' st file.
Proof.
  intros Hf Hr. unfold loop_body. unfold inspected in Hr. rewrite <- Hf.
  destruct (isfile d file && has_dicom_prefix file); [| reflexivity].
  now rewrite Hr.
Qed.

Lemma in_natural_sort l l' x :
  natural_sort l = Ok l' -> In x l' <-> In x l.
Proof.
  intros (_ & Hp & _)%natural_sort_ok.
  rewrite <- !list_elem_of_In. now rewrite Hp.
Qed.

(** X8: [get_datasets] reads the files it inspects and no other: what the
    codec would say of a directory entry that is not a regular file, or
    whose name does not begin with CT, RD, RP, RS or RT, has no influence
    on the result. *)
Theorem get_datasets_reads_only_inspected d d' path :
  glob d (path +:+ "/*") = glob d' (path +:+ "/*") ->
  (forall file, In file (glob d (path +:+ "/*")) ->
                isfile d file = isfile d' file) ->
  (forall file, In file (glob d (path +:+ "/*")) ->
                inspected d file = true -> dcmread d file = dcmread d' file) ->
  get_datasets d path = get_datasets d' path.
Proof.
  intros Hg Hf Hr. unfold get_datasets. rewrite <- Hg.
  destruct (natural_sort (glob d (path +:+ "/*"))) as [dcm_files|e] eqn:Hs;
    [| reflexivity].
  simpl.
  assert (fold_left (loop_body d) dcm_files loop_init
          = fold_left (loop_body d') dcm_files loop_init) as ->;
    [| reflexivity].
  apply fold_left_agree.
  intros st file Hin. apply (proj1 (in_natural_sort _ _ _ Hs)) in Hin.
  apply loop_body_agree; [apply Hf | apply Hr]; exact Hin.
Qed.

(** X9: The dictionaries do not depend on the order in which [glob] lists the
    directory, as long as no two different paths tie in the natural
    order. *)
Theorem get_datasets_listing_order d d' path :
  Permutation (glob d (path +:+ "/*")) (glob d' (path +:+ "/*")) ->
  (forall file, isfile d file = isfile d' file) ->
  (forall file, dcmread d file = dcmread d' file) ->
  (forall x y, In x (glob d (path +:+ "/*")) ->
               In y (glob d (path +:+ "/*")) ->
               key_tie x y = true -> x = y) ->
  get_datasets d path = get_datasets d' path.
Proof.
  intros Hp Hf Hr Htie. unfold get_datasets.
  rewrite <- (natural_sort_permuted _ _ Hp Htie).
  destruct (natural_sort (glob d (path +:+ "/*"))) as [dcm_files|e];
    [| reflexivity].
  simpl.
  assert (fold_left (loop_body d) dcm_files loop_init
          = fold_left (loop_body d') dcm_files loop_init) as ->;
    [| reflexivity].
  apply fold_left_agree.
  intros st file _. apply loop_body_agree; auto.
Qed.

Lemma loop_inv_entry d files st k file :
  loop_inv d files st -> file_names_dict st !! k = Some file ->
  exists m, modality_of_key k = Some m /\ In file files
            /\ has_modality d m file = true.
Proof.
  intros [Hi Hc Hr Hd Ho] Hk. destruct k as [i|s]; simpl.
  - exists "CT". split; [reflexivity |]. rewrite Hc in Hk.
    apply List.filter_In, list_elem_of_In.
    eapply list_elem_of_lookup_2; eauto.
  - rewrite Hr in Hk. destruct (modality_of_label s) as [m|]; [| discriminate].
    exists m. split; [reflexivity |]. simpl in Hk.
    apply List.filter_In, list_elem_of_In. now apply last_Some_elem_of.
Qed.

(** X10: Every entry of the dictionaries comes from the listing: the path is a
    listed regular file with one of the five prefixes, the dataset under
    the same key is the one read from that path, and its modality is the
    one the key stands for. *)
Theorem get_datasets_entries d path r f out :
  get_datasets d path = Ok (r, f, out) ->
  forall k file, f !! k = Some file ->
    In file (glob d (path +:+ "/*"))
    /\ isfile d file = true /\ has_dicom_prefix file = true
    /\ exists read_file,
         dcmread d file = Some read_file /\ r !! k = Some read_file
         /\ modality_of_key k = Some (Modality read_file).
Proof.
  intros (dcm_files & Hs & -> & -> & ->)%get_datasets_inv k file Hk.
  pose proof (loop_inv_all d dcm_files) as Hinv.
  destruct (loop_inv_entry _ _ _ _ _ Hinv Hk) as (m & Hm & Hin & Hmod).
  apply (proj1 (in_natural_sort _ _ _ Hs)) in Hin. split; [exact Hin |].
  unfold has_modality, inspected in Hmod.
  apply andb_prop in Hmod as [[Hf Hp]%andb_prop Hmod].
  split; [exact Hf | split; [exact Hp |]].
  destruct (dcmread d file) as [read_file|] eqn:Hread; [| discriminate].
  exists read_file. split; [reflexivity |]. split.
  - rewrite (inv_read _ _ _ Hinv k), Hk. simpl. exact Hread.
  - apply String.eqb_eq in Hmod. now rewrite Hm, Hmod.
Qed.

(** X11: No readable file of a known modality is lost: every CT file of the
    listing is under some [int] key, and a label is a key as soon as the
    listing has a file of its modality. *)
Theorem get_datasets_complete d path r f out :
  get_datasets d path = Ok (r, f, out) ->
  (forall file, In file (glob d (path +:+ "/*")) ->
                has_modality d "CT" file = true ->
                exists k, f !! KInt k = Some file)
  /\ (forall label m file,
        modality_of_label label = Some m ->
        In file (glob d (path +:+ "/*")) ->
        has_modality d m file = true ->
        is_Some (f !! KStr label) /\ is_Some (r !! KStr label)).
Proof.
  intros (dcm_files & Hs & -> & -> & ->)%get_datasets_inv.
  pose proof (loop_inv_all d dcm_files) as Hinv.
  split.
  - intros file Hin Hm. apply (proj2 (in_natural_sort _ _ _ Hs)) in Hin.
    assert (file ∈ List.filter (has_modality d "CT") dcm_files) as Hel
      by (apply list_elem_of_In, List.filter_In; auto).
    apply list_elem_of_lookup_1 in Hel as [k Hk]. exists k.
    now rewrite (inv_ct _ _ _ Hinv).
  - intros label m file Hlab Hin Hm.
    apply (proj2 (in_natural_sort _ _ _ Hs)) in Hin.
    assert (In file (List.filter (has_modality d m) dcm_files)) as Hel
      by (apply List.filter_In; auto).
    assert (exists last_file,
              file_names_dict (fold_left (loop_body d) dcm_files loop_init)
              !! KStr label = Some last_file) as [last_file Hk].
    { rewrite (inv_rt _ _ _ Hinv), Hlab. simpl.
      destruct (List.filter (has_modality d m) dcm_files) as [|x l]
        using rev_ind; [contradiction |].
      exists x. apply last_snoc. }
    split; [eauto |].
    destruct (loop_inv_entry _ _ _ _ _ Hinv Hk) as (m' & _ & _ & Hmod).
    rewrite (inv_read _ _ _ Hinv), Hk. simpl.
    apply has_modality_is_read in Hmod as [Hsome _]. exact Hsome.
Qed.

End DiscoveryMore.

(** * Properties of [dvh2csv] *)

Section CsvFacts.
Context `{Numeric}.

Lemma range0_10 stop :
  range0 stop 10 = map (fun k => k * 10) (seq 0 ((stop + 9) / 10)).
Proof. unfold range0. do 3 f_equal. lia. Qed.

Lemma samples_count_bound (dose : list num) k :
  k < samples_count dose <-> 10 * k < length dose.
Proof.
  unfold samples_count.
  pose proof (Nat.div_mod_eq (length dose + 9) 10) as Hd.
  pose proof (Nat.mod_upper_bound (length dose + 9) 10) as Hm.
  lia.
Qed.

Lemma dose_fold (dose : list num) idx : forall row m,
  fold_left (dose_step dose) idx (row, m)
  = (row ++ flat_map (fun i => match dose !! i with
                               | Some v => [CNum v]
                               | None => []
                               end) idx,
     fold_left Nat.max idx m).
Proof.
  induction idx as [|i idx IH]; intros row m; cbn [fold_left flat_map].
  - now rewrite app_nil_r.
  - assert (dose_step dose (row, m) i
            = (row ++ match dose !! i with
                      | Some v => [CNum v]
                      | None => []
                      end, Nat.max m i)) as ->.
    { unfold dose_step. destruct (dose !! i); rewrite ?app_nil_r;
        f_equal; destruct (Nat.ltb_spec m i); lia. }
    now rewrite IH, <- app_assoc.
Qed.

Lemma sampled_cells (dose : list num) c : forall a,
  (forall k, a <= k < a + c -> 10 * k < length dose) ->
  flat_map (fun i => match dose !! i with
                     | Some v => [CNum v]
                     | None => []
                     end) (map (fun k => k * 10) (seq a c))
  = map (raw_cell dose) (seq a c).
Proof.
  induction c as [|c IH]; intros a Hin; [reflexivity |]. simpl.
  rewrite IH by (intros k Hk; apply Hin; lia).
  unfold raw_cell at 2. rewrite (Nat.mul_comm 10 a).
  destruct (lookup_lt_is_Some_2 dose (a * 10)) as [v ->]; [| reflexivity].
  specialize (Hin a). lia.
Qed.

Lemma max_indices c : forall m,
  fold_left Nat.max (map (fun k => k * 10) (seq 0 c)) m
  = Nat.max m (10 * (c - 1)).
Proof.
  induction c as [|c IH]; intros m; [simpl; lia |].
  rewrite seq_S, map_app, fold_left_app, IH. simpl. lia.
Qed.

Lemma roi_step_eq patient_id acc m item :
  roi_step patient_id (acc, m) item
  = (acc ++ [raw_row patient_id (snd item)],
     Nat.max m (10 * (samples_count (counts (snd item)) - 1))).
Proof.
  unfold roi_step. rewrite range0_10, dose_fold.
  fold (samples_count (counts (snd item))).
  rewrite sampled_cells, max_indices; [reflexivity |].
  intros k Hk. apply samples_count_bound. lia.
Qed.

Lemma csv_rows_from patient_id dict : forall acc m,
  fold_left (roi_step patient_id) dict (acc, m)
  = (acc ++ map (fun item => raw_row patient_id (snd item)) dict,
     Nat.max m (10 * (max_samples dict - 1))).
Proof.
  induction dict as [|item dict IH]; intros acc m; cbn [fold_left map].
  - rewrite app_nil_r. f_equal. unfold max_samples. simpl. lia.
  - rewrite roi_step_eq, IH, <- app_assoc. f_equal.
    change (max_samples (item :: dict))
      with (Nat.max (samples_count (counts (snd item))) (max_samples dict)).
    lia.
Qed.

Lemma csv_rows_eq dict patient_id :
  csv_rows dict patient_id
  = (map (fun item => raw_row patient_id (snd item)) dict,
     10 * (max_samples dict - 1)).
Proof. unfold csv_rows. now rewrite csv_rows_from. Qed.

Lemma csv_header_eq n :
  0 < n ->
  csv_header_of (10 * (n - 1))
  = ["Patient ID"; "ROI"; "Volume (mL)"] ++ dose_labels n.
Proof.
  intros Hn. unfold csv_header_of, dose_labels. f_equal.
  rewrite range0_10, map_map.
  replace ((10 * (n - 1) + 1 + 9) / 10) with n.
  - apply map_ext. intros k. now rewrite (Nat.mul_comm k 10).
  - pose proof (Nat.div_mod_eq (10 * (n - 1) + 1 + 9) 10).
    pose proof (Nat.mod_upper_bound (10 * (n - 1) + 1 + 9) 10). lia.
Qed.

Lemma row_width_rows patient_id dict :
  dict <> [] ->
  row_width (map (fun item => raw_row patient_id (snd item)) dict)
  = 3 + max_samples dict.
Proof.
  induction dict as [|item dict IH]; [congruence |]. intros _.
  unfold row_width, max_samples in *. simpl.
  rewrite length_map, length_seq.
  destruct dict as [|item' dict]; [simpl; lia |].
  rewrite IH by discriminate. lia.
Qed.

Lemma max_samples_ge dict item :
  In item dict -> samples_count (counts (snd item)) <= max_samples dict.
Proof.
  induction dict as [|x dict IH]; [contradiction |].
  unfold max_samples in *. simpl. intros [-> | Hin]; [lia |].
  specialize (IH Hin). lia.
Qed.

Lemma max_samples_pos dict :
  (exists item, In item dict /\ counts (snd item) <> []) ->
  0 < max_samples dict.
Proof.
  intros (item & Hin & Hne).
  pose proof (max_samples_ge dict item Hin) as Hle.
  assert (0 < samples_count (counts (snd item))); [| lia].
  apply samples_count_bound. destruct (counts (snd item)); [congruence |].
  simpl. lia.
Qed.

Lemma missing_cells (dose : list num) e : forall c,
  samples_count dose <= c ->
  replicate e CNaN = map (raw_cell dose) (seq c e).
Proof.
  induction e as [|e IH]; intros c Hc; [reflexivity |]. simpl. f_equal.
  - unfold raw_cell. rewrite lookup_ge_None_2; [reflexivity |].
    pose proof (samples_count_bound dose c). lia.
  - apply IH. lia.
Qed.

(** Padding, rounding and filling a raw row gives [record_row]. *)
Lemma finished_row patient_id n dvh :
  samples_count (counts dvh) <= n ->
  map (fun c => match c with
                | CNaN => CNum zero
                | CNum x => CNum (filled x)
                | CStr _ => c
                end)
    (map (fun c => match c with CNum x => CNum (round2 x) | _ => c end)
       (pad_row (3 + n) (raw_row patient_id dvh)))
  = record_row patient_id n dvh.
Proof.
  intros Hle. unfold pad_row, raw_row, record_row.
  rewrite length_app, length_map, length_seq.
  cbn [length app map].
  match goal with
  | |- context [replicate ?e CNaN] =>
      replace e with (n - samples_count (counts dvh)) by (cbn; lia)
  end.
  rewrite (missing_cells (counts dvh) _ (samples_count (counts dvh)))
    by lia.
  rewrite <- map_app.
  replace (seq 0 (samples_count (counts dvh))
             ++ seq (samples_count (counts dvh))
                    (n - samples_count (counts dvh)))
    with (seq 0 n).
  2:{ replace n with (samples_count (counts dvh)
                      + (n - samples_count (counts dvh))) at 1 by lia.
      now rewrite seq_app. }
  do 3 f_equal. rewrite !map_map. apply map_ext. intros k.
  unfold raw_cell. now destruct (counts dvh !! (10 * k)).
Qed.

Lemma dvh_frame_eq dict patient_id :
  0 < max_samples dict ->
  dvh_frame dict patient_id
  = Ok {| columns := ["Patient ID"; "ROI"; "Volume (mL)"]
                       ++ dose_labels (max_samples dict);
          rows := map (fun item =>
                         record_row patient_id (max_samples dict) (snd item))
                      dict |}.
Proof.
  intros Hpos. unfold dvh_frame. rewrite csv_rows_eq.
  rewrite (csv_header_eq _ Hpos).
  assert (dict <> []) as Hne
    by (intros ->; unfold max_samples in Hpos; simpl in Hpos; lia).
  unfold pd_DataFrame.
  destruct (map (fun item => raw_row patient_id (snd item)) dict)
    as [|row0 rest] eqn:Hrows.
  { destruct dict; [congruence | discriminate]. }
  rewrite <- Hrows. rewrite (row_width_rows _ _ Hne).
  cbn [length app]. unfold dose_labels at 1.
  rewrite length_map, length_seq, Nat.eqb_refl.
  cbn [rbind]. unfold df_fillna, df_round, map_cells. cbn [columns rows].
  do 2 f_equal. rewrite !map_map. apply map_ext_in. intros item Hin.
  apply finished_row. now apply max_samples_ge.
Qed.

End CsvFacts.

(** ** Paths *)

Lemma split_slash_name q :
  str_forall (fun c => negb (Ascii.eqb c "/") && negb (Ascii.eqb c "000")) q
    = true ->
  split_slash q = [q].
Proof.
  induction q as [|c q IH]; [reflexivity |]. cbn [str_forall split_slash].
  intros [[Hc _]%andb_prop Hq]%andb_prop. rewrite (IH Hq).
  apply negb_true_iff in Hc. now rewrite Hc.
Qed.

(** Joining a file name to a path appends it as the last part. *)
Lemma joinpath_file_name p q :
  file_name q = true -> joinpath p q = p ++ [q] /\ parent (p ++ [q]) = Some p.
Proof.
  unfold file_name.
  intros [[[Hne Hdot]%andb_prop Hdots]%andb_prop Hall]%andb_prop.
  apply negb_true_iff in Hne, Hdot, Hdots.
  assert (root_of q = None /\ String.eqb q "/" = false
          /\ String.eqb q "//" = false) as (Hroot & Hr1 & Hr2).
  { destruct q as [|c q]; [discriminate |].
    cbn [str_forall] in Hall.
    apply andb_prop in Hall as [[Hc _]%andb_prop _].
    apply negb_true_iff, Ascii.eqb_neq in Hc.
    split; [| split].
    - unfold root_of.
      destruct c as [[] [] [] [] [] [] [] []]; try reflexivity.
      now contradiction Hc.
    - apply String.eqb_neq. congruence.
    - apply String.eqb_neq. congruence. }
  split.
  - unfold joinpath, parse_parts. rewrite Hroot, (split_slash_name q Hall).
    simpl. now rewrite Hne, Hdot.
  - unfold parent. rewrite rev_app_distr. simpl.
    rewrite Hdots, Hr1, Hr2. simpl. now rewrite rev_involutive.
Qed.

Lemma joinpath_csv p :
  joinpath p "CSV" = p ++ ["CSV"] /\ parent (p ++ ["CSV"]) = Some p.
Proof. now apply joinpath_file_name. Qed.

Lemma app_one_neq {A} (p : list A) x : p ++ [x] <> p.
Proof.
  intros Heq. apply (f_equal (@length A)) in Heq.
  rewrite length_app in Heq. simpl in Heq. lia.
Qed.

Section StartFacts.
Context `{Numeric}.

Lemma dvh2csv_run dict path csv_name patient_id w :
  dvh2csv dict path csv_name patient_id w =
  match dvh_frame dict patient_id with
  | Ok df =>
      with_files
        (fs_append (joinpath path csv_name)
           (csv_lines df (negb (fs_isfile (files w) (joinpath path csv_name)))))
        w
  | Raise e => (Raise e, w)
  end.
Proof.
  unfold dvh2csv, dvh_frame, bind, os_path_isfile, lift, to_csv.
  destruct (csv_rows dict patient_id) as [dvh_csv_list max_roi_dose].
  destruct (pd_DataFrame dvh_csv_list (csv_header_of max_roi_dose));
    reflexivity.
Qed.

(** C6 (amended): a call of [dvh2csv] that returns has written, when the
    target did not exist, the header line followed by the data lines, and
    when the target was a file, the data lines alone behind its former
    content, which is left as it was; it returns whenever the frame can be
    built and the target is a file, or is missing while [csv_name] is a
    file name and [path] a directory; a call that raises writes
    nothing. *)
Theorem dvh2csv_header dict path csv_name patient_id w :
  (forall w', dvh2csv dict path csv_name patient_id w = (Ok tt, w') ->
     exists df,
       dvh_frame dict patient_id = Ok df
       /\ patient_dict_container w' = patient_dict_container w
       /\ progress w' = progress w /\ stdout w' = stdout w
       /\ match files w !! joinpath path csv_name with
          | Some (File old) =>
              files w' = <[joinpath path csv_name :=
                             File (old ++ map DataLine (rows df))]> (files w)
          | None =>
              files w' = <[joinpath path csv_name :=
                             File (HeaderLine (columns df)
                                     :: map DataLine (rows df))]> (files w)
          | Some Dir => False
          end)
  /\ (forall df, dvh_frame dict patient_id = Ok df ->
        fs_isfile (files w) (joinpath path csv_name) = true
        \/ (files w !! joinpath path csv_name = None
            /\ file_name csv_name = true
            /\ fs_isdir (files w) path = true) ->
        exists w', dvh2csv dict path csv_name patient_id w = (Ok tt, w'))
  /\ (forall e w', dvh2csv dict path csv_name patient_id w = (Raise e, w') ->
        w' = w).
Proof.
  rewrite dvh2csv_run.
  unfold with_files, fs_append, fs_create, fs_isfile, csv_lines.
  split; [| split].
  - intros w'. destruct (dvh_frame dict patient_id) as [df|e]; [| discriminate].
    destruct (files w !! joinpath path csv_name) as [[|old]|] eqn:Ht;
      cbn [negb app]; try discriminate.
    + intros [= <-]. exists df. cbn. auto.
    + destruct (parent (joinpath path csv_name)) as [dir|]; [| discriminate].
      destruct (fs_isdir (files w) dir); [| discriminate].
      intros [= <-]. exists df. cbn. auto.
  - intros df -> Hopen.
    destruct (files w !! joinpath path csv_name) as [[|old]|] eqn:Ht;
      cbn [negb app].
    + destruct Hopen as [? | [? _]]; discriminate.
    + eauto.
    + destruct Hopen as [? | (_ & Hname & Hdir)]; [discriminate |].
      destruct (joinpath_file_name path csv_name Hname) as [-> ->].
      rewrite Hdir. eauto.
  - intros e w'. destruct (dvh_frame dict patient_id) as [df|e0].
    + destruct (files w !! joinpath path csv_name) as [[|old]|];
        cbn [negb app]; try (intros [= _ <-]; reflexivity); try discriminate.
      destruct (parent (joinpath path csv_name)) as [dir|];
        [| intros [= _ <-]; reflexivity].
      destruct (fs_isdir (files w) dir); [discriminate |].
      intros [= _ <-]; reflexivity.
    + intros [= _ <-]; reflexivity.
Qed.

(** C4 (amended): when some record has a bin, the header has one dose
    column per sample of the longest record, labelled 0cGy, 10cGy, ...,
    and the line of each record is the patient, the name, the volume and
    the bins at 0, 10, 20, ..., all rounded, with 0.0 where the record has
    no bin and for a value that is NaN; this is the frame [dvh2csv] hands
    to the writer. *)
Theorem dvh2csv_rows dict patient_id :
  (exists item, In item dict /\ counts (snd item) <> []) ->
  let n := max_samples dict in
  let df := {| columns := ["Patient ID"; "ROI"; "Volume (mL)"]
                            ++ dose_labels n;
               rows := map (fun item => record_row patient_id n (snd item))
                           dict |} in
  0 < n
  /\ length (dose_labels n) = n
  /\ dvh_frame dict patient_id = Ok df
  /\ forall path csv_name w,
       dvh2csv dict path csv_name patient_id w
       = with_files
           (fs_append (joinpath path csv_name)
              (csv_lines df
                 (negb (fs_isfile (files w) (joinpath path csv_name))))) w.
Proof.
  intros Hbin n df. pose proof (max_samples_pos dict Hbin) as Hpos.
  split; [exact Hpos |].
  split; [unfold dose_labels; now rewrite length_map, length_seq |].
  split; [now apply dvh_frame_eq |].
  intros path csv_name w. rewrite dvh2csv_run.
  now rewrite (dvh_frame_eq dict patient_id Hpos).
Qed.

(** ** [start] *)

Lemma start_never_truthy self il w v :
  fst (start self il w) = Ok v -> truthy v = false.
Proof.
  unfold_start. repeat split_next; cbn [fst]; intros [= <-]; reflexivity.
Qed.

Lemma start_store self il w :
  (fst (start self il w) = Ok (PyBool false) ->
   patient_dict_container (snd (start self il w)) = container_empty)
  /\ (fst (start self il w) <> Ok (PyBool false) ->
      patient_dict_container (snd (start self il w))
      = patient_dict_container w).
Proof.
  unfold_start. repeat split_next; cbn [fst snd patient_dict_container];
    split; intros Hr; try reflexivity; try congruence.
Qed.

Lemma start_on_entry self il w :
  is_set (interrupt_flag self) OnEntry = true ->
  start self il w
  = (Ok (PyBool false),
     {| patient_dict_container := container_empty;
        files := files w;
        progress := progress w;
        stdout := stdout w ++ [stopped] |}).
Proof. intros Hset. unfold_start. now rewrite Hset. Qed.

Lemma start_unready self il w :
  is_set (interrupt_flag self) OnEntry = false -> ready self = false ->
  start self il w = (Ok PyNone, w).
Proof. intros Hset Hready. unfold_start. now rewrite Hset, Hready. Qed.

Lemma start_running self il w rtss rtdose :
  is_set (interrupt_flag self) OnEntry = false -> ready self = true ->
  loaded w rtss rtdose ->
  start self il w =
  match computed self il w rtss rtdose with
  | Ok raw_dvh =>
      if is_set (interrupt_flag self) AfterDVH then
        (Ok (PyBool false),
         {| patient_dict_container := container_empty;
            files := files w;
            progress := progress w ++ [checking; calculating];
            stdout := stdout w ++ [stopped] |})
      else export_csv self raw_dvh (after_dvh w)
  | Raise TypeError =>
      (Ok PyNone,
       {| patient_dict_container := patient_dict_container w;
          files := files w;
          progress := progress w ++ [checking; calculating];
          stdout := stdout w ++ [skipping] |})
  | Raise e => (Raise e, after_dvh w)
  end.
Proof.
  intros Hset Hready [Hrtss Hrtdose].
  unfold start. rewrite Hset, Hready. cbn [negb].
  unfold export_csv, computed, after_dvh, checking, calculating.
  unfold except_TypeError, getitem, container_get, container_dataset,
    container_clear, print, emit, bind, ret, raise, lift.
  cbv beta iota zeta. cbn [patient_dict_container files progress stdout].
  rewrite Hrtss, Hrtdose. cbv beta iota zeta.
  rewrite <- !app_assoc. cbn [app].
  destruct (get_thickness_dict il rtss (dataset (patient_dict_container w)))
    as [th|[]]; cbn [rbind]; try reflexivity.
  destruct (calc_dvhs il rtss rtdose _ th (interrupt_flag self)) as [raw|[]];
    try reflexivity.
  destruct (is_set (interrupt_flag self) AfterDVH); [reflexivity |].
  unfold exporting.
  cbn [patient_dict_container files progress stdout].
  rewrite ?Hrtss. cbv beta iota zeta. rewrite <- ?app_assoc. reflexivity.
Qed.

Lemma export_csv_value self raw_dvh w v :
  fst (export_csv self raw_dvh w) = Ok v -> v = PyNone.
Proof.
  unfold export_csv. unfold_start. repeat split_next; cbn [fst];
    intros [= <-]; reflexivity.
Qed.

End StartFacts.

Section StartProperties.
Context `{Numeric}.

Lemma start_not_loaded self il w :
  is_set (interrupt_flag self) OnEntry = false -> ready self = true ->
  dataset (patient_dict_container w) !! KStr "rtss" = None
  \/ dataset (patient_dict_container w) !! KStr "rtdose" = None ->
  fst (start self il w) = Raise KeyError.
Proof.
  intros Hset Hready Hmiss. unfold_start. rewrite Hset, Hready. cbn [negb].
  cbn [patient_dict_container files progress stdout].
  destruct (dataset (patient_dict_container w) !! KStr "rtss") eqn:Hs;
    [| reflexivity].
  destruct Hmiss as [? | ->]; [discriminate | reflexivity].
Qed.

Lemma start_false_iff self il w :
  fst (start self il w) = Ok (PyBool false) <-> cancelled self il w.
Proof.
  unfold cancelled.
  destruct (is_set (interrupt_flag self) OnEntry) eqn:Hset.
  { rewrite start_on_entry by assumption. cbn [fst]. tauto. }
  destruct (ready self) eqn:Hready.
  2:{ rewrite start_unready by assumption. cbn [fst].
      split; [discriminate | intros [? | [? _]]; discriminate]. }
  destruct (dataset (patient_dict_container w) !! KStr "rtss")
    as [rtss|] eqn:Hrtss.
  2:{ rewrite start_not_loaded by auto.
      split; [discriminate |].
      intros [? | [_ (rtss & rtdose & raw & [Hl _] & _)]]; congruence. }
  destruct (dataset (patient_dict_container w) !! KStr "rtdose")
    as [rtdose|] eqn:Hrtdose.
  2:{ rewrite start_not_loaded by auto.
      split; [discriminate |].
      intros [? | [_ (rtss' & rtdose' & raw & [_ Hl] & _)]]; congruence. }
  rewrite (start_running self il w rtss rtdose) by (unfold loaded; auto).
  split.
  - intros Hfalse. right. split; [reflexivity |]. exists rtss, rtdose.
    destruct (computed self il w rtss rtdose) as [raw|e] eqn:Hc.
    + exists raw. unfold loaded. repeat split; auto.
      destruct (is_set (interrupt_flag self) AfterDVH); [reflexivity |].
      apply export_csv_value in Hfalse. discriminate.
    + destruct e; discriminate.
  - intros [? | [_ (rtss' & rtdose' & raw & [Hl1 Hl2] & Hc & Hafter)]];
      [discriminate |].
    assert (rtss' = rtss) as -> by congruence.
    assert (rtdose' = rtdose) as -> by congruence.
    now rewrite Hc, Hafter.
Qed.

(** C1 (amended): [start] empties the store exactly when one of the two
    checkpoints finds the flag set; however else it ends, the store is
    what it was.  In particular a ready run that is not cancelled and goes
    through the export leaves the store as it found it. *)
Theorem start_clears_when_cancelled self il w :
  (cancelled self il w ->
   patient_dict_container (snd (start self il w)) = container_empty)
  /\ (~ cancelled self il w ->
      patient_dict_container (snd (start self il w))
      = patient_dict_container w)
  /\ (forall rtss rtdose raw_dvh,
        ready self = true ->
        is_set (interrupt_flag self) OnEntry = false ->
        loaded w rtss rtdose ->
        computed self il w rtss rtdose = Ok raw_dvh ->
        is_set (interrupt_flag self) AfterDVH = false ->
        start self il w = export_csv self raw_dvh (after_dvh w)
        /\ patient_dict_container (snd (start self il w))
           = patient_dict_container w).
Proof.
  destruct (start_store self il w) as [Hclear Hkeep].
  split; [| split].
  - intros Hc. apply Hclear. now apply start_false_iff.
  - intros Hc. apply Hkeep. now rewrite start_false_iff.
  - intros rtss rtdose raw_dvh Hready Hset Hl Hc Hafter.
    split.
    + rewrite (start_running self il w rtss rtdose) by assumption.
      now rewrite Hc, Hafter.
    + apply Hkeep. rewrite start_false_iff.
      intros [? | [_ (rtss' & rtdose' & raw & [Hl1 Hl2] & Hc' & Hafter')]];
        congruence.
Qed.

(** C2 (amended): a job that is not ready returns a falsy value, reports
    no progress and writes no file; when the flag is not set it changes
    nothing at all, and when the flag is set it returns [False], prints the
    stop notice and empties the store. *)
Theorem start_not_ready self il w :
  ready self = false ->
  (exists v, fst (start self il w) = Ok v /\ truthy v = false)
  /\ progress (snd (start self il w)) = progress w
  /\ files (snd (start self il w)) = files w
  /\ (is_set (interrupt_flag self) OnEntry = false ->
      start self il w = (Ok PyNone, w))
  /\ (is_set (interrupt_flag self) OnEntry = true ->
      start self il w = (Ok (PyBool false), stopped_world w [])).
Proof.
  intros Hready.
  destruct (is_set (interrupt_flag self) OnEntry) eqn:Hset.
  - rewrite start_on_entry by assumption. unfold stopped_world.
    rewrite app_nil_r. cbn.
    repeat split; eauto; discriminate.
  - rewrite start_unready by assumption. cbn.
    repeat split; eauto; discriminate.
Qed.

(** C7: when the flag is set as [start] is entered, [start] returns
    [False], prints the stop notice, empties the store, reports no progress
    and raises nothing; when the flag is found set after the DVH
    computation the same holds, the two reports made before the computation
    being the only ones. *)
Theorem start_cancellation self il w :
  (is_set (interrupt_flag self) OnEntry = true ->
   start self il w = (Ok (PyBool false), stopped_world w []))
  /\ (forall rtss rtdose raw_dvh,
        ready self = true ->
        is_set (interrupt_flag self) OnEntry = false ->
        loaded w rtss rtdose ->
        computed self il w rtss rtdose = Ok raw_dvh ->
        is_set (interrupt_flag self) AfterDVH = true ->
        start self il w
        = (Ok (PyBool false), stopped_world w [checking; calculating])).
Proof.
  split.
  - intros Hset. rewrite start_on_entry by assumption.
    unfold stopped_world. now rewrite app_nil_r.
  - intros rtss rtdose raw_dvh Hready Hset Hl Hc Hafter.
    rewrite (start_running self il w rtss rtdose) by assumption.
    now rewrite Hc, Hafter.
Qed.

(** C8: when [get_thickness_dict] or [calc_dvhs] raises [TypeError] in a
    ready run, [start] catches it, prints the notice, returns [None]
    without raising, and leaves the files (and the store) as they were. *)
Theorem start_type_error self il w rtss rtdose :
  ready self = true ->
  is_set (interrupt_flag self) OnEntry = false ->
  loaded w rtss rtdose ->
  get_thickness_dict il rtss (dataset (patient_dict_container w))
    = Raise TypeError
  \/ (exists dict_thickness,
        get_thickness_dict il rtss (dataset (patient_dict_container w))
          = Ok dict_thickness
        /\ calc_dvhs il rtss rtdose
             (additional_data (patient_dict_container w) !! "rois")
             dict_thickness (interrupt_flag self) = Raise TypeError) ->
  start self il w
  = (Ok PyNone,
     {| patient_dict_container := patient_dict_container w;
        files := files w;
        progress := progress w ++ [checking; calculating];
        stdout := stdout w ++ [skipping] |}).
Proof.
  intros Hready Hset Hl Hraise.
  rewrite (start_running self il w rtss rtdose) by assumption.
  assert (computed self il w rtss rtdose = Raise TypeError) as ->;
    [| reflexivity].
  unfold computed. destruct Hraise as [Ht | (th & Ht & Hc)];
    rewrite Ht; cbn [rbind]; [reflexivity | exact Hc].
Qed.

(** C10: [start] never returns a truthy value; it returns [False] exactly
    when a checkpoint finds the flag set; a ready run that is not cancelled
    returns [None] when the computation raises [TypeError] and, if it
    returns at all, when it goes through the export; a job that is not
    ready and not cancelled returns [None] as well. *)
Theorem start_return_value self il w :
  (forall v, fst (start self il w) = Ok v -> truthy v = false)
  /\ (fst (start self il w) = Ok (PyBool false) <-> cancelled self il w)
  /\ (forall rtss rtdose,
        ready self = true ->
        is_set (interrupt_flag self) OnEntry = false ->
        loaded w rtss rtdose ->
        (computed self il w rtss rtdose = Raise TypeError ->
         fst (start self il w) = Ok PyNone)
        /\ (forall raw_dvh,
              computed self il w rtss rtdose = Ok raw_dvh ->
              is_set (interrupt_flag self) AfterDVH = false ->
              start self il w = export_csv self raw_dvh (after_dvh w)
              /\ forall v, fst (start self il w) = Ok v -> v = PyNone))
  /\ (ready self = false ->
      is_set (interrupt_flag self) OnEntry = false ->
      fst (start self il w) = Ok PyNone).
Proof.
  split; [intros v; apply start_never_truthy |].
  split; [apply start_false_iff |].
  split.
  - intros rtss rtdose Hready Hset Hl.
    rewrite (start_running self il w rtss rtdose) by assumption.
    split.
    + now intros ->.
    + intros raw_dvh -> ->. split; [reflexivity |].
      intros v. apply export_csv_value.
  - intros Hready Hset. now rewrite start_unready.
Qed.

End StartProperties.

(** * Further properties of [dvh2csv] *)

Section CsvMore.
Context `{Numeric}.

Lemma max_samples_zero dict :
  max_samples dict = 0 <-> forall item, In item dict -> counts (snd item) = [].
Proof.
  split.
  - intros Hz item Hin. pose proof (max_samples_ge dict item Hin) as Hle.
    pose proof (samples_count_bound (counts (snd item)) 0) as Hb.
    destruct (counts (snd item)) as [|v l]; [reflexivity |].
    simpl in Hb. lia.
  - intros Hall. induction dict as [|item dict IH]; [reflexivity |].
    change (max_samples (item :: dict))
      with (Nat.max (samples_count (counts (snd item))) (max_samples dict)).
    rewrite IH by (intros; apply Hall; now right).
    rewrite (Hall item) by now left. reflexivity.
Qed.

Lemma dvh_frame_no_bins dict patient_id :
  dict <> [] -> max_samples dict = 0 ->
  dvh_frame dict patient_id = Raise ValueError.
Proof.
  intros Hne Hz. unfold dvh_frame. rewrite csv_rows_eq, Hz.
  unfold pd_DataFrame.
  destruct (map (fun item => raw_row patient_id (snd item)) dict)
    as [|row0 rest] eqn:Hrows.
  { destruct dict; [congruence | discriminate]. }
  rewrite <- Hrows, (row_width_rows _ _ Hne), Hz. reflexivity.
Qed.

Lemma dvh2csv_no_bins_run dict path csv_name patient_id w :
  dict <> [] ->
  (forall item, In item dict -> counts (snd item) = []) ->
  dvh2csv dict path csv_name patient_id w = (Raise ValueError, w).
Proof.
  intros Hne Hall. rewrite dvh2csv_run.
  now rewrite (dvh_frame_no_bins dict patient_id Hne
                 (proj2 (max_samples_zero dict) Hall)).
Qed.

(** X12: When the mapping is not empty and no record has a bin, [dvh2csv]
    raises [ValueError] (the header has the column 0cGy, the rows have no
    dose cell) and changes nothing. *)
Theorem dvh2csv_no_bins dict path csv_name patient_id w :
  dict <> [] ->
  (forall item, In item dict -> counts (snd item) = []) ->
  csv_header_of (snd (csv_rows dict patient_id))
    = ["Patient ID"; "ROI"; "Volume (mL)"; "0cGy"]
  /\ (forall row, In row (fst (csv_rows dict patient_id)) -> length row = 3)
  /\ dvh_frame dict patient_id = Raise ValueError
  /\ dvh2csv dict path csv_name patient_id w = (Raise ValueError, w).
Proof.
  intros Hne Hall.
  pose proof (proj2 (max_samples_zero dict) Hall) as Hz.
  rewrite csv_rows_eq, Hz. cbn [fst snd].
  split; [reflexivity |].
  split.
  - intros row (item & <- & Hin)%in_map_iff. unfold raw_row.
    rewrite (Hall item Hin). reflexivity.
  - split; [now apply dvh_frame_no_bins |].
    rewrite dvh2csv_run. now rewrite (dvh_frame_no_bins dict patient_id Hne Hz).
Qed.

Lemma dvh_frame_empty patient_id :
  dvh_frame [] patient_id
  = Ok {| columns := ["Patient ID"; "ROI"; "Volume (mL)"; "0cGy"];
          rows := [] |}.
Proof. reflexivity. Qed.

(** X13: For an empty mapping [dvh2csv] writes no data line: a missing target
    with a file name, in a directory, is created with the header
    [Patient ID, ROI, Volume (mL), 0cGy] alone, and an existing file is
    left as it is. *)
Theorem dvh2csv_empty path csv_name patient_id w :
  (forall old,
     files w !! joinpath path csv_name = Some (File old) ->
     dvh2csv [] path csv_name patient_id w = (Ok tt, w))
  /\ (files w !! joinpath path csv_name = None ->
      file_name csv_name = true ->
      fs_isdir (files w) path = true ->
      dvh2csv [] path csv_name patient_id w
      = (Ok tt,
         {| patient_dict_container := patient_dict_container w;
            files := <[joinpath path csv_name :=
                         File [HeaderLine ["Patient ID"; "ROI";
                                           "Volume (mL)"; "0cGy"]]]>
                       (files w);
            progress := progress w;
            stdout := stdout w |})).
Proof.
  rewrite dvh2csv_run, dvh_frame_empty.
  unfold with_files, fs_append, fs_create, fs_isfile, csv_lines. split.
  - intros old Hold. rewrite Hold. cbn [negb rows map app].
    rewrite app_nil_r, (insert_id _ _ _ Hold). now destruct w.
  - intros Hnone Hname Hdir. rewrite Hnone.
    destruct (joinpath_file_name path csv_name Hname) as [-> ->].
    rewrite Hdir. reflexivity.
Qed.

(** X14: The frame [dvh2csv] writes has one row per record, every row has as
    many cells as the header has columns, and no cell is missing. *)
Theorem dvh_frame_rectangular dict patient_id df :
  dvh_frame dict patient_id = Ok df ->
  length (rows df) = length dict
  /\ forall row, In row (rows df) ->
       length row = length (columns df) /\ ~ In CNaN row.
Proof.
  destruct dict as [|item0 dict0] eqn:Hd.
  { rewrite dvh_frame_empty. intros [= <-]. simpl. split; [reflexivity |].
    contradiction. }
  rewrite <- Hd. assert (dict <> []) as Hne by (rewrite Hd; discriminate).
  clear Hd. destruct (Nat.eq_dec (max_samples dict) 0) as [Hz | Hpos].
  { now rewrite (dvh_frame_no_bins dict patient_id Hne Hz). }
  rewrite dvh_frame_eq by lia. intros [= <-]. cbn [rows columns].
  split; [apply length_map |].
  intros row (item & <- & _)%in_map_iff. unfold record_row, dose_labels.
  split.
  - cbn [app length]. now rewrite !length_map, !length_seq.
  - intros [Hin | Hin]%in_app_iff.
    + simpl in Hin. destruct Hin as [? | [? | [? | []]]]; discriminate.
    + apply in_map_iff in Hin as (k & Hk & _).
      destruct (counts (snd item) !! (10 * k)); discriminate.
Qed.

(** X15: [dvh2csv] touches nothing but the target file: every other path, the
    store, the progress reports and the standard output are after the call
    what they were before, whether the call returns or raises. *)
Theorem dvh2csv_touches_target_only dict path csv_name patient_id w :
  let w' := snd (dvh2csv dict path csv_name patient_id w) in
  patient_dict_container w' = patient_dict_container w
  /\ progress w' = progress w /\ stdout w' = stdout w
  /\ forall p, p <> joinpath path csv_name -> files w' !! p = files w !! p.
Proof.
  rewrite dvh2csv_run. unfold with_files, fs_append, fs_create.
  destruct (dvh_frame dict patient_id) as [df|e]; [| cbn; auto].
  destruct (files w !! joinpath path csv_name) as [[|old]|]; cbn; auto.
  - repeat split; auto. intros p Hp. now rewrite lookup_insert_ne.
  - destruct (parent (joinpath path csv_name)) as [dir|]; cbn; auto.
    destruct (fs_isdir (files w) dir); cbn; auto.
    repeat split; auto. intros p Hp. now rewrite lookup_insert_ne.
Qed.

(** X16: Two exports in a row to a target that did not exist, with a file
    name, in a directory: both return, the file holds the header of the
    first call, then the lines of the first and the lines of the second;
    the header is that of the first call, whatever the dose range of the
    second. *)
Theorem dvh2csv_twice dict1 dict2 path csv_name id1 id2 w :
  files w !! joinpath path csv_name = None ->
  file_name csv_name = true ->
  fs_isdir (files w) path = true ->
  (exists item, In item dict1 /\ counts (snd item) <> []) ->
  (exists item, In item dict2 /\ counts (snd item) <> []) ->
  let w1 := snd (dvh2csv dict1 path csv_name id1 w) in
  let w2 := snd (dvh2csv dict2 path csv_name id2 w1) in
  fst (dvh2csv dict1 path csv_name id1 w) = Ok tt
  /\ fst (dvh2csv dict2 path csv_name id2 w1) = Ok tt
  /\ files w2 !! joinpath path csv_name
     = Some (File
         (HeaderLine (["Patient ID"; "ROI"; "Volume (mL)"]
                        ++ dose_labels (max_samples dict1))
          :: map (fun item =>
                    DataLine (record_row id1 (max_samples dict1) (snd item)))
                 dict1
          ++ map (fun item =>
                    DataLine (record_row id2 (max_samples dict2) (snd item)))
                 dict2)).
Proof.
  intros Hnone Hname Hdir Hb1 Hb2.
  pose proof (dvh2csv_run dict1 path csv_name id1) as Hrun1.
  rewrite (dvh_frame_eq dict1 id1 (max_samples_pos dict1 Hb1)) in Hrun1.
  pose proof (dvh2csv_run dict2 path csv_name id2) as Hrun2.
  rewrite (dvh_frame_eq dict2 id2 (max_samples_pos dict2 Hb2)) in Hrun2.
  cbv zeta.
  assert (dvh2csv dict1 path csv_name id1 w
          = (Ok tt,
             {| patient_dict_container := patient_dict_container w;
                files :=
                  <[joinpath path csv_name :=
                      File (HeaderLine (["Patient ID"; "ROI"; "Volume (mL)"]
                                          ++ dose_labels (max_samples dict1))
                            :: map DataLine
                                 (map (fun item =>
                                         record_row id1 (max_samples dict1)
                                           (snd item)) dict1))]> (files w);
                progress := progress w;
                stdout := stdout w |})) as ->.
  { rewrite Hrun1.
    unfold with_files, fs_append, fs_create, fs_isfile, csv_lines.
    rewrite Hnone.
    destruct (joinpath_file_name path csv_name Hname) as [Hj Hp].
    rewrite Hj in *. now rewrite Hp, Hdir. }
  cbn [fst snd]. split; [reflexivity |].
  rewrite Hrun2. unfold with_files, fs_append, fs_isfile, csv_lines.
  cbn [files]. rewrite lookup_insert_eq. cbn [fst snd negb app files rows].
  split; [reflexivity |].
  rewrite lookup_insert_eq. now rewrite !map_map.
Qed.

End CsvMore.

(** * Further properties of [start] and [set_filename] *)

Section StartMore.
Context `{Numeric}.

Lemma start_missing_dataset self il w :
  is_set (interrupt_flag self) OnEntry = false -> ready self = true ->
  dataset (patient_dict_container w) !! KStr "rtss" = None
  \/ dataset (patient_dict_container w) !! KStr "rtdose" = None ->
  start self il w = (Raise KeyError, after_dvh w).
Proof.
  intros Hset Hready Hmiss. unfold_start. rewrite Hset, Hready. cbn [negb].
  cbn [patient_dict_container files progress stdout].
  unfold after_dvh, checking, calculating. rewrite <- !app_assoc. cbn [app].
  destruct (dataset (patient_dict_container w) !! KStr "rtss") eqn:Hs;
    [| reflexivity].
  destruct Hmiss as [? | ->]; [discriminate | reflexivity].
Qed.

(** X17: A ready job whose store lacks the structure set or the dose raises
    [KeyError] after its first two progress reports; the store and the
    files are left as they were and nothing is printed. *)
Theorem start_key_error self il w :
  is_set (interrupt_flag self) OnEntry = false -> ready self = true ->
  dataset (patient_dict_container w) !! KStr "rtss" = None
  \/ dataset (patient_dict_container w) !! KStr "rtdose" = None ->
  start self il w
  = (Raise KeyError,
     {| patient_dict_container := patient_dict_container w;
        files := files w;
        progress := progress w ++ [checking; calculating];
        stdout := stdout w |}).
Proof.
  intros Hset Hready Hmiss. unfold_start. rewrite Hset, Hready. cbn [negb].
  cbn [patient_dict_container files progress stdout].
  rewrite <- !app_assoc. cbn [app].
  destruct (dataset (patient_dict_container w) !! KStr "rtss") eqn:Hs.
  - destruct Hmiss as [Hmiss | Hmiss]; [discriminate |].
    now rewrite Hmiss.
  - reflexivity.
Qed.

(** X18: [start] catches [TypeError] and nothing else: any other exception of
    [get_thickness_dict] or [calc_dvhs] leaves [start]; the store is not
    cleared, no file is written and nothing is printed. *)
Theorem start_propagates self il w rtss rtdose e :
  ready self = true ->
  is_set (interrupt_flag self) OnEntry = false ->
  loaded w rtss rtdose ->
  computed self il w rtss rtdose = Raise e ->
  e <> TypeError ->
  start self il w
  = (Raise e,
     {| patient_dict_container := patient_dict_container w;
        files := files w;
        progress := progress w ++ [checking; calculating];
        stdout := stdout w |}).
Proof.
  intros Hready Hset Hl Hc He.
  rewrite (start_running self il w rtss rtdose) by assumption.
  rewrite Hc. destruct e; try reflexivity. congruence.
Qed.

Lemma start_reaches self il w rtss rtdose raw_dvh :
  reaches_export self il w rtss rtdose raw_dvh ->
  start self il w = export_csv self raw_dvh (after_dvh w).
Proof.
  intros (Hready & Hset & Hl & Hc & Hafter).
  rewrite (start_running self il w rtss rtdose) by assumption.
  now rewrite Hc, Hafter.
Qed.

(** What [export_csv] does once the CSV directory is known to exist *)
Lemma export_csv_run self raw_dvh w rtss rtdose :
  loaded w rtss rtdose ->
  export_csv self raw_dvh (after_dvh w) =
  let path := joinpath (output_path self) "CSV" in
  match (if fs_isdir (files w) path then Ok (files w)
         else fs_mkdir path (files w)) with
  | Raise e => (Raise e, at_export w)
  | Ok fs =>
      match dvh2csv raw_dvh path (filename self) (PatientID rtss)
              (with_fs (at_export w) fs) with
      | (Ok _, w') => (Ok PyNone, w')
      | (Raise e, w') => (Raise e, w')
      end
  end.
Proof.
  intros [Hrtss _]. unfold export_csv, after_dvh, at_export, with_fs.
  unfold os_mkdir, with_files, os_path_isdir, getitem, container_dataset,
    emit, bind, ret, raise.
  cbv beta iota zeta. cbn [patient_dict_container files progress stdout].
  rewrite Hrtss. cbv beta iota zeta. unfold exporting.
  rewrite <- !app_assoc.
  cbn [app patient_dict_container files progress stdout].
  destruct (fs_isdir (files w) (joinpath (output_path self) "CSV"));
    cbn [negb patient_dict_container files progress stdout];
    [reflexivity |].
  destruct (fs_mkdir (joinpath (output_path self) "CSV") (files w));
    cbn [patient_dict_container files progress stdout]; reflexivity.
Qed.

Lemma start_fresh_run self il w rtss rtdose raw_dvh :
  reaches_export self il w rtss rtdose raw_dvh ->
  (exists item, In item raw_dvh /\ counts (snd item) <> []) ->
  file_name (filename self) = true ->
  fs_isdir (files w) (output_path self) = true ->
  files w !! joinpath (output_path self) "CSV" = None ->
  files w !! joinpath (joinpath (output_path self) "CSV") (filename self)
    = None ->
  start self il w
  = (Ok PyNone,
     with_fs (at_export w)
       (<[joinpath (joinpath (output_path self) "CSV") (filename self) :=
            File (HeaderLine (["Patient ID"; "ROI"; "Volume (mL)"]
                                ++ dose_labels (max_samples raw_dvh))
                  :: map (fun item =>
                            DataLine (record_row (PatientID rtss)
                                        (max_samples raw_dvh) (snd item)))
                         raw_dvh)]>
          (<[joinpath (output_path self) "CSV" := Dir]> (files w)))).
Proof.
  intros Hreach Hbins Hname Hout Hcsv Htar.
  rewrite (start_reaches _ _ _ _ _ _ Hreach).
  destruct Hreach as (_ & _ & Hl & _ & _).
  rewrite (export_csv_run self raw_dvh w rtss rtdose Hl). cbv zeta.
  unfold fs_isdir at 1. rewrite Hcsv.
  unfold fs_mkdir, fs_create. rewrite Hcsv.
  destruct (joinpath_csv (output_path self)) as [Hj Hp].
  rewrite Hj in *. rewrite Hp, Hout.
  rewrite dvh2csv_run, (dvh_frame_eq raw_dvh _ (max_samples_pos _ Hbins)).
  destruct (joinpath_file_name (output_path self ++ ["CSV"]) _ Hname)
    as [Hj' Hp'].
  rewrite Hj' in *.
  unfold with_files, fs_append, fs_create, fs_isfile, fs_isdir, with_fs,
    at_export, csv_lines.
  cbn [files patient_dict_container progress stdout].
  rewrite (lookup_insert_ne (files w)) by (symmetry; apply app_one_neq).
  rewrite Htar, Hp', lookup_insert_eq. cbn [negb app columns rows].
  now rewrite map_map.
Qed.

(** X19: A run that passes both checkpoints, into an output directory that has
    no CSV directory yet, under a file name: [start] creates the
    directory, writes the header and one line per record to the named file
    in it, makes its three progress reports and returns [None]. *)
Theorem start_exports_fresh self il w rtss rtdose raw_dvh :
  reaches_export self il w rtss rtdose raw_dvh ->
  (exists item, In item raw_dvh /\ counts (snd item) <> []) ->
  file_name (filename self) = true ->
  fs_isdir (files w) (output_path self) = true ->
  files w !! joinpath (output_path self) "CSV" = None ->
  files w !! joinpath (joinpath (output_path self) "CSV") (filename self)
    = None ->
  start self il w
  = (Ok PyNone,
     with_fs (at_export w)
       (<[joinpath (joinpath (output_path self) "CSV") (filename self) :=
            File (HeaderLine (["Patient ID"; "ROI"; "Volume (mL)"]
                                ++ dose_labels (max_samples raw_dvh))
                  :: map (fun item =>
                            DataLine (record_row (PatientID rtss)
                                        (max_samples raw_dvh) (snd item)))
                         raw_dvh)]>
          (<[joinpath (output_path self) "CSV" := Dir]> (files w)))).
Proof.
  intros Hreach Hbins Hname Hout Hcsv Htar.
  rewrite (start_reaches _ _ _ _ _ _ Hreach).
  destruct Hreach as (_ & _ & Hl & _ & _).
  rewrite (export_csv_run self raw_dvh w rtss rtdose Hl). cbv zeta.
  unfold fs_isdir at 1. rewrite Hcsv.
  unfold fs_mkdir, fs_create. rewrite Hcsv.
  destruct (joinpath_csv (output_path self)) as [Hj Hp].
  rewrite Hj in *. rewrite Hp, Hout.
  rewrite dvh2csv_run, (dvh_frame_eq raw_dvh _ (max_samples_pos _ Hbins)).
  destruct (joinpath_file_name (output_path self ++ ["CSV"]) _ Hname)
    as [Hj' Hp'].
  rewrite Hj' in *.
  unfold with_files, fs_append, fs_create, fs_isfile, fs_isdir, with_fs,
    at_export, csv_lines.
  cbn [files patient_dict_container progress stdout].
  rewrite (lookup_insert_ne (files w)) by (symmetry; apply app_one_neq).
  rewrite Htar, Hp', lookup_insert_eq. cbn [negb app columns rows].
  now rewrite map_map.
Qed.

(** X20: The same run when the CSV directory and the target file exist: no
    directory is made and the lines of the records go behind the content
    of the file, without a header. *)
Theorem start_exports_again self il w rtss rtdose raw_dvh old :
  reaches_export self il w rtss rtdose raw_dvh ->
  (exists item, In item raw_dvh /\ counts (snd item) <> []) ->
  files w !! joinpath (output_path self) "CSV" = Some Dir ->
  files w !! joinpath (joinpath (output_path self) "CSV") (filename self)
    = Some (File old) ->
  start self il w
  = (Ok PyNone,
     with_fs (at_export w)
       (<[joinpath (joinpath (output_path self) "CSV") (filename self) :=
            File (old ++ map (fun item =>
                                DataLine (record_row (PatientID rtss)
                                            (max_samples raw_dvh) (snd item)))
                             raw_dvh)]> (files w))).
Proof.
  intros Hreach Hbins Hcsv Htar.
  rewrite (start_reaches _ _ _ _ _ _ Hreach).
  destruct Hreach as (_ & _ & Hl & _ & _).
  rewrite (export_csv_run self raw_dvh w rtss rtdose Hl). cbv zeta.
  unfold fs_isdir at 1. rewrite Hcsv.
  rewrite dvh2csv_run, (dvh_frame_eq raw_dvh _ (max_samples_pos _ Hbins)).
  unfold with_files, fs_append, fs_isfile, with_fs, at_export, csv_lines.
  cbn [files patient_dict_container progress stdout].
  rewrite Htar. cbn [negb app columns rows]. now rewrite map_map.
Qed.

(** X21: When the export cannot be made the run ends in an exception after its
    three progress reports, the store untouched: without an output
    directory [os.mkdir] raises and no file changes; with records that
    have no bin the CSV directory is made and is left behind, without a
    file in it. *)
Theorem start_export_fails self il w rtss rtdose raw_dvh :
  reaches_export self il w rtss rtdose raw_dvh ->
  files w !! joinpath (output_path self) "CSV" = None ->
  (fs_isdir (files w) (output_path self) = false ->
   start self il w = (Raise OSError, at_export w))
  /\ (fs_isdir (files w) (output_path self) = true ->
      raw_dvh <> [] ->
      (forall item, In item raw_dvh -> counts (snd item) = []) ->
      start self il w
      = (Raise ValueError,
         with_fs (at_export w)
           (<[joinpath (output_path self) "CSV" := Dir]> (files w)))).
Proof.
  intros Hreach Hcsv.
  rewrite (start_reaches _ _ _ _ _ _ Hreach).
  destruct Hreach as (_ & _ & Hl & _ & _).
  rewrite (export_csv_run self raw_dvh w rtss rtdose Hl). cbv zeta.
  assert (fs_isdir (files w) (joinpath (output_path self) "CSV") = false)
    as -> by (unfold fs_isdir; now rewrite Hcsv).
  unfold fs_mkdir, fs_create. rewrite Hcsv.
  destruct (joinpath_csv (output_path self)) as [Hj Hp].
  rewrite Hj in *. rewrite Hp.
  split; intros ->; [reflexivity |].
  intros Hne Hall. now rewrite (dvh2csv_no_bins_run _ _ _ _ _ Hne Hall).
Qed.

Lemma export_csv_only_then self raw_dvh w :
  let w' := snd (export_csv self raw_dvh w) in
  patient_dict_container w' = patient_dict_container w
  /\ stdout w' = stdout w
  /\ progress w' = progress w ++ [exporting].
Proof.
  unfold export_csv. unfold_start. repeat split_next;
    cbn [fst snd patient_dict_container stdout progress]; auto.
Qed.

(** X22: Whatever happens, [start] reports progress in the order 40, 60, 90 and
    stops reporting where it ends; it prints at most one line, the stop
    notice or the notice of the type error; and it changes files only in a
    run that passes both checkpoints. *)
Theorem start_effects self il w :
  let w' := snd (start self il w) in
  (exists sent, progress w' = progress w ++ sent
                /\ (sent = [] \/ sent = [checking; calculating]
                    \/ sent = [checking; calculating; exporting]))
  /\ (exists lines, stdout w' = stdout w ++ lines
                    /\ (lines = [] \/ lines = [stopped]
                        \/ lines = [skipping]))
  /\ (files w' = files w
      \/ exists rtss rtdose raw_dvh,
           reaches_export self il w rtss rtdose raw_dvh).
Proof.
  cbv zeta.
  destruct (is_set (interrupt_flag self) OnEntry) eqn:Hset.
  { rewrite start_on_entry by assumption. cbn.
    split; [exists []; rewrite app_nil_r; auto |].
    split; [exists [stopped]; auto | auto]. }
  destruct (ready self) eqn:Hready.
  2:{ rewrite start_unready by assumption. cbn.
      split; [exists []; rewrite app_nil_r; auto |].
      split; [exists []; rewrite app_nil_r; auto | auto]. }
  destruct (dataset (patient_dict_container w) !! KStr "rtss")
    as [rtss|] eqn:Hrtss.
  2:{ rewrite start_missing_dataset by auto. cbn.
      split; [eexists; split; [reflexivity | auto] |].
      split; [exists []; rewrite app_nil_r; auto | auto]. }
  destruct (dataset (patient_dict_container w) !! KStr "rtdose")
    as [rtdose|] eqn:Hrtdose.
  2:{ rewrite start_missing_dataset by auto. cbn.
      split; [eexists; split; [reflexivity | auto] |].
      split; [exists []; rewrite app_nil_r; auto | auto]. }
  assert (loaded w rtss rtdose) as Hl by (split; assumption).
  rewrite (start_running self il w rtss rtdose) by assumption.
  destruct (computed self il w rtss rtdose) as [raw|e] eqn:Hc.
  - destruct (is_set (interrupt_flag self) AfterDVH) eqn:Hafter.
    + cbn. split; [eexists; split; [reflexivity | auto] |].
      split; [exists [stopped]; auto | auto].
    + destruct (export_csv_only_then self raw (after_dvh w))
        as (_ & Hout & Hprog).
      cbv zeta in Hout, Hprog. rewrite Hout, Hprog. cbn.
      split; [exists [checking; calculating; exporting];
              rewrite <- app_assoc; auto |].
      split; [exists []; rewrite app_nil_r; auto |].
      right. exists rtss, rtdose, raw. unfold reaches_export. auto.
  - destruct e; cbn;
      (split; [eexists; split; [reflexivity | auto] |]);
      (split; [| auto]);
      first [exists [skipping]; now auto
            | exists []; rewrite app_nil_r; now auto].
Qed.

(** X23: After [set_filename] a run that passes both checkpoints exports
    to the file of the given name in the CSV directory, and to DVHs_.csv
    when the name given is empty; the name is a file name, the output
    directory exists and has no CSV directory yet. *)
Theorem set_filename_export self name il w rtss rtdose raw_dvh :
  let target := if String.eqb name "" then "DVHs_.csv" else name in
  file_name target = true ->
  reaches_export self il w rtss rtdose raw_dvh ->
  (exists item, In item raw_dvh /\ counts (snd item) <> []) ->
  fs_isdir (files w) (output_path self) = true ->
  files w !! (output_path self ++ ["CSV"]) = None ->
  files w !! (output_path self ++ ["CSV"; target]) = None ->
  start (set_filename self name) il w
  = (Ok PyNone,
     with_fs (at_export w)
       (<[output_path self ++ ["CSV"; target] :=
            File (HeaderLine (["Patient ID"; "ROI"; "Volume (mL)"]
                                ++ dose_labels (max_samples raw_dvh))
                  :: map (fun item =>
                            DataLine (record_row (PatientID rtss)
                                        (max_samples raw_dvh) (snd item)))
                         raw_dvh)]>
          (<[output_path self ++ ["CSV"] := Dir]> (files w)))).
Proof.
  intros target Hname Hreach Hbins Hout Hcsv Htar.
  pose proof (start_fresh_run (set_filename self name) il w rtss rtdose
                raw_dvh Hreach Hbins Hname) as Hrun.
  cbn [output_path filename set_filename] in Hrun. fold target in Hrun.
  destruct (joinpath_csv (output_path self)) as [Hj _].
  destruct (joinpath_file_name (output_path self ++ ["CSV"]) _ Hname)
    as [Hj' _].
  rewrite Hj, Hj', <- app_assoc in Hrun. cbn [app] in Hrun.
  now apply Hrun.
Qed.

End StartMore.
(** * Examples and counterexamples *)

#[local] Existing Instance milli.
#[local] Existing Instance unicode_14.

Lemma ex_store_not_empty : ex_store <> container_empty.
Proof.
  intros Heq.
  apply (f_equal (fun c => dataset c !! KStr "rtss")) in Heq.
  vm_compute in Heq. discriminate.
Qed.

Lemma ex_world_loaded : loaded ex_world ex_rtss ex_rtdose.
Proof. split; vm_compute; reflexivity. Qed.

Lemma ex_csv_world_loaded old : loaded (ex_csv_world old) ex_rtss ex_rtdose.
Proof. split; vm_compute; reflexivity. Qed.

Lemma ex_world_no_out_loaded : loaded ex_world_no_out ex_rtss ex_rtdose.
Proof. split; vm_compute; reflexivity. Qed.

Lemma ex_reaches_export w raw :
  loaded w ex_rtss ex_rtdose ->
  reaches_export (ex_job false false true) (ex_loading (Ok raw)) w
    ex_rtss ex_rtdose raw.
Proof. intros Hl. unfold reaches_export. auto. Qed.

Lemma ex_dvhs_bins : exists item, In item ex_dvhs /\ counts (snd item) <> [].
Proof.
  exists (2%N, @mkDVH milli "Lung" (Some 7004%Z) [Some 99996%Z]).
  split; [right; left; reflexivity | discriminate].
Qed.


Lemma ex_directory_sorted :
  natural_sort (glob ex_directory "/p/*")
  = Ok ["/p/CT2.dcm"; "/p/CT3.dcm"; "/p/CT10.dcm"; "/p/notes.txt";
        "/p/rd1.dcm"; "/p/RS1.dcm"; "/p/RS2.dcm"; "/p/RT9.dcm"].
Proof. vm_compute. reflexivity. Qed.

(** C1, as stated, fails: a ready run that is not cancelled writes the CSV
    file and returns with the store still holding the patient. *)
Lemma start_clears_on_completion_counterexample :
  let run := start (ex_job false false true) (ex_loading (Ok ex_dvhs))
                   ex_world in
  fst run = Ok PyNone
  /\ fs_isfile (files (snd run)) ["out"; "CSV"; "DVHs_.csv"] = true
  /\ progress (snd run) = [checking; calculating; exporting]
  /\ patient_dict_container (snd run) = ex_store
  /\ patient_dict_container (snd run) <> container_empty.
Proof.
  assert (patient_dict_container
            (snd (start (ex_job false false true) (ex_loading (Ok ex_dvhs))
                        ex_world)) = ex_store) as Hs
    by (vm_compute; reflexivity).
  cbv zeta. rewrite Hs.
  repeat split; try (vm_compute; reflexivity). apply ex_store_not_empty.
Qed.

Lemma start_clears_when_cancelled_witness :
  cancelled (ex_job true false true) (ex_loading (Ok ex_dvhs)) ex_world
  /\ patient_dict_container
       (snd (start (ex_job true false true) (ex_loading (Ok ex_dvhs))
                   ex_world)) = container_empty.
Proof.
  assert (cancelled (ex_job true false true) (ex_loading (Ok ex_dvhs))
                    ex_world) as Hc by (left; reflexivity).
  split; [exact Hc |].
  exact (proj1 (start_clears_when_cancelled _ _ _) Hc).
Defined.

(** C2, as stated, fails: with the flag set, a job that is not ready
    empties the store. *)
Lemma start_not_ready_counterexample :
  let job := ex_job true false false in
  let run := start job (ex_loading (Ok ex_dvhs)) ex_world in
  ready job = false
  /\ fst run = Ok (PyBool false)
  /\ patient_dict_container ex_world = ex_store
  /\ patient_dict_container (snd run) = container_empty
  /\ patient_dict_container (snd run) <> patient_dict_container ex_world.
Proof.
  cbv zeta.
  assert (patient_dict_container
            (snd (start (ex_job true false false) (ex_loading (Ok ex_dvhs))
                        ex_world)) = container_empty) as Hs
    by (vm_compute; reflexivity).
  rewrite Hs. repeat split; try (vm_compute; reflexivity).
  intros Heq. apply ex_store_not_empty. symmetry. exact Heq.
Qed.

Lemma start_not_ready_witness :
  ready (ex_job false false false) = false
  /\ start (ex_job false false false) (ex_loading (Ok ex_dvhs)) ex_world
     = (Ok PyNone, ex_world).
Proof.
  split; [reflexivity |].
  exact (proj1 (proj2 (proj2 (proj2
           (start_not_ready (ex_job false false false)
              (ex_loading (Ok ex_dvhs)) ex_world eq_refl)))) eq_refl).
Defined.

Lemma start_cancellation_witness :
  loaded ex_world ex_rtss ex_rtdose
  /\ computed (ex_job false true true) (ex_loading (Ok ex_dvhs)) ex_world
       ex_rtss ex_rtdose = Ok ex_dvhs
  /\ start (ex_job false true true) (ex_loading (Ok ex_dvhs)) ex_world
     = (Ok (PyBool false), stopped_world ex_world [checking; calculating]).
Proof.
  assert (loaded ex_world ex_rtss ex_rtdose) as Hl
    by (split; vm_compute; reflexivity).
  split; [exact Hl | split; [reflexivity |]].
  exact (proj2 (start_cancellation (ex_job false true true)
                  (ex_loading (Ok ex_dvhs)) ex_world)
           ex_rtss ex_rtdose ex_dvhs eq_refl eq_refl Hl eq_refl eq_refl).
Defined.

Lemma start_type_error_witness :
  loaded ex_world ex_rtss ex_rtdose
  /\ start (ex_job false false true) (ex_loading (Raise TypeError)) ex_world
     = (Ok PyNone,
        {| patient_dict_container := ex_store;
           files := files ex_world;
           progress := [checking; calculating];
           stdout := [skipping] |}).
Proof.
  assert (loaded ex_world ex_rtss ex_rtdose) as Hl
    by (split; vm_compute; reflexivity).
  split; [exact Hl |].
  refine (start_type_error (ex_job false false true)
            (ex_loading (Raise TypeError)) ex_world ex_rtss ex_rtdose
            eq_refl eq_refl Hl _).
  right. exists []. split; reflexivity.
Defined.

Lemma start_return_value_witness :
  loaded ex_world ex_rtss ex_rtdose
  /\ fst (start (ex_job false false true) (ex_loading (Ok ex_dvhs)) ex_world)
     = Ok PyNone
  /\ fst (start (ex_job false false true) (ex_loading (Raise TypeError))
            ex_world) = Ok PyNone
  /\ fst (start (ex_job false false false) (ex_loading (Ok ex_dvhs)) ex_world)
     = Ok PyNone.
Proof.
  assert (loaded ex_world ex_rtss ex_rtdose) as Hl
    by (split; vm_compute; reflexivity).
  split; [exact Hl |].
  split; [| split].
  - assert (exists v, fst (start (ex_job false false true)
                             (ex_loading (Ok ex_dvhs)) ex_world) = Ok v)
      as [v Hv] by (eexists; vm_compute; reflexivity).
    rewrite Hv. f_equal.
    exact (proj2 (proj2 (proj1 (proj2 (proj2
             (start_return_value (ex_job false false true)
                (ex_loading (Ok ex_dvhs)) ex_world)))
             ex_rtss ex_rtdose eq_refl eq_refl Hl)
             ex_dvhs eq_refl eq_refl) v Hv).
  - exact (proj1 (proj1 (proj2 (proj2
             (start_return_value (ex_job false false true)
                (ex_loading (Raise TypeError)) ex_world)))
             ex_rtss ex_rtdose eq_refl eq_refl Hl) eq_refl).
  - exact (proj2 (proj2 (proj2
             (start_return_value (ex_job false false false)
                (ex_loading (Ok ex_dvhs)) ex_world))) eq_refl eq_refl).
Defined.

(** C4, as stated, fails: for a record without bins the header has the
    column 0cGy although no bin is sampled, and pandas refuses the frame,
    so that no line is emitted; and a bin whose value is NaN is written as
    0.0, not as the value of the record. *)
Lemma dvh2csv_rows_counterexample :
  ex_no_bins <> []
  /\ max_samples ex_no_bins = 0
  /\ csv_header_of (snd (csv_rows ex_no_bins "PAT7"))
     = ["Patient ID"; "ROI"; "Volume (mL)"; "0cGy"]
  /\ fst (csv_rows ex_no_bins "PAT7")
     = [[CStr "PAT7"; CStr "PTV"; CNum (Some 51234%Z)]]
  /\ dvh_frame ex_no_bins "PAT7" = Raise ValueError
  /\ (exists df,
        dvh_frame [(3%N, @mkDVH milli "Tip" (Some 0%Z) [None])] "PAT7" = Ok df
        /\ rows df = [[CStr "PAT7"; CStr "Tip"; CNum (Some 0%Z);
                       CNum (Some 0%Z)]]).
Proof.
  repeat split; try reflexivity; [discriminate |].
  eexists. split; reflexivity.
Qed.

Lemma dvh2csv_rows_witness :
  (exists item, In item ex_dvhs /\ counts (snd item) <> [])
  /\ max_samples ex_dvhs = 3
  /\ dvh_frame ex_dvhs "PAT7"
     = Ok {| columns := ["Patient ID"; "ROI"; "Volume (mL)";
                         "0cGy"; "10cGy"; "20cGy"];
             rows := [[CStr "PAT7"; CStr "PTV"; CNum (Some 51230%Z);
                       CNum (Some 100000%Z); CNum (Some 88890%Z);
                       CNum (Some 77780%Z)];
                      [CStr "PAT7"; CStr "Lung"; CNum (Some 7000%Z);
                       CNum (Some 100000%Z); CNum (Some 0%Z);
                       CNum (Some 0%Z)];
                      [CStr "PAT7"; CStr "Tip"; CNum (Some 0%Z);
                       CNum (Some 0%Z); CNum (Some 0%Z);
                       CNum (Some 0%Z)]] |}.
Proof.
  assert (exists item, In item ex_dvhs /\ counts (snd item) <> []) as Hbin.
  { exists (2%N, @mkDVH milli "Lung" (Some 7004%Z) [Some 99996%Z]).
    split; [right; left; reflexivity | discriminate]. }
  split; [exact Hbin | split; [reflexivity |]].
  exact (proj1 (proj2 (proj2 (dvh2csv_rows ex_dvhs "PAT7" Hbin)))).
Defined.

(** C6, as stated, fails: a call that raises before it writes leaves the
    target missing, without a header.  So it is when the directory of the
    target does not exist, when the name given is that of a directory that
    does not exist followed by a file name, and when pandas refuses the
    frame. *)
Lemma dvh2csv_header_counterexample :
  files ex_world !! joinpath ["out"; "CSV"] "DVHs_.csv" = None
  /\ dvh2csv ex_dvhs ["out"; "CSV"] "DVHs_.csv" "PAT7" ex_world
     = (Raise OSError, ex_world)
  /\ files (ex_csv_world None) !! joinpath ["out"; "CSV"] "new/DVHs_.csv"
     = None
  /\ dvh2csv ex_dvhs ["out"; "CSV"] "new/DVHs_.csv" "PAT7" (ex_csv_world None)
     = (Raise OSError, ex_csv_world None)
  /\ files (ex_csv_world None) !! joinpath ["out"; "CSV"] "DVHs_.csv" = None
  /\ dvh2csv ex_no_bins ["out"; "CSV"] "DVHs_.csv" "PAT7" (ex_csv_world None)
     = (Raise ValueError, ex_csv_world None).
Proof. repeat split; vm_compute; reflexivity. Qed.

Lemma dvh2csv_header_witness :
  (exists w' df,
     dvh2csv ex_dvhs ["out"; "CSV"] "DVHs_.csv" "PAT7"
       (ex_csv_world (Some ex_old)) = (Ok tt, w')
     /\ dvh_frame ex_dvhs "PAT7" = Ok df
     /\ files w' = <[["out"; "CSV"; "DVHs_.csv"] :=
                       File (ex_old ++ map DataLine (rows df))]>
                     (files (ex_csv_world (Some ex_old))))
  /\ (exists w' df,
        dvh2csv ex_dvhs ["out"; "CSV"] "DVHs_.csv" "PAT7" (ex_csv_world None)
        = (Ok tt, w')
        /\ dvh_frame ex_dvhs "PAT7" = Ok df
        /\ files w' = <[["out"; "CSV"; "DVHs_.csv"] :=
                          File (HeaderLine (columns df)
                                  :: map DataLine (rows df))]>
                        (files (ex_csv_world None))).
Proof.
  split.
  - destruct (proj1 (proj2 (dvh2csv_header ex_dvhs ["out"; "CSV"]
                              "DVHs_.csv" "PAT7"
                              (ex_csv_world (Some ex_old))))
                _ eq_refl (or_introl eq_refl)) as [w' Hrun].
    destruct (proj1 (dvh2csv_header ex_dvhs ["out"; "CSV"] "DVHs_.csv"
                       "PAT7" _) w' Hrun)
      as (df & Hdf & _ & _ & _ & Hfiles).
    exists w', df. split; [exact Hrun | split; [exact Hdf | exact Hfiles]].
  - destruct (proj1 (proj2 (dvh2csv_header ex_dvhs ["out"; "CSV"]
                              "DVHs_.csv" "PAT7" (ex_csv_world None)))
                _ eq_refl
                (or_intror (conj eq_refl (conj eq_refl eq_refl))))
      as [w' Hrun].
    destruct (proj1 (dvh2csv_header ex_dvhs ["out"; "CSV"] "DVHs_.csv"
                       "PAT7" _) w' Hrun)
      as (df & Hdf & _ & _ & _ & Hfiles).
    exists w', df. split; [exact Hrun | split; [exact Hdf | exact Hfiles]].
Defined.


(** C5, at the failing inputs: a name with a decimal digit that is none of
    0-9 has a key in which an [int] meets the [str] of another name, and
    the comparison raises [TypeError]; a name with a digit that [int] does
    not read has no key, and [natural_sort] raises [ValueError] on the list
    of that name alone.  The comparison of the specification decides both
    pairs. *)
Theorem natural_sort_digit_slip :
  alphanum_key ex_arabic
    = Ok [TStr (decode "/p/ct"); TInt 1; TInt 3]
  /\ alphanum_key "/p/CT1.dcm"
     = Ok [TStr (decode "/p/ct"); TInt 1; TStr (decode ".dcm")]
  /\ key_lt ex_arabic "/p/CT1.dcm" = Raise TypeError
  /\ natural_sort [ex_arabic; "/p/CT1.dcm"] = Raise TypeError
  /\ spec_natural_compare ex_arabic "/p/CT1.dcm" = Some Gt
  /\ isdigit (String "194" (String "178" "")) = true
  /\ alphanum_key ex_superscript = Raise ValueError
  /\ natural_sort [ex_superscript] = Raise ValueError
  /\ spec_natural_compare ex_superscript ex_superscript = Some Eq.
Proof. repeat split; vm_compute; reflexivity. Qed.

(** C9, at the failing input: a directory whose only entry is a file that
    does not pass the prefix test, so that no file of it matches;
    [get_datasets] raises [ValueError] from [natural_sort] before it looks
    at any file. *)
Theorem get_datasets_no_match_raises :
  glob ex_directory_odd "/p/*" = [ex_superscript]
  /\ has_dicom_prefix ex_superscript = false
  /\ inspected ex_directory_odd ex_superscript = false
  /\ natural_sort (glob ex_directory_odd "/p/*") = Raise ValueError
  /\ get_datasets ex_directory_odd "/p" = Raise ValueError.
Proof. repeat split; vm_compute; reflexivity. Qed.

(** * Further examples *)

Lemma natural_sort_idempotent_witness :
  StronglySorted key_le ["CT2.dcm"; "CT10.dcm"]
  /\ natural_sort ["CT2.dcm"; "CT10.dcm"] = Ok ["CT2.dcm"; "CT10.dcm"].
Proof.
  assert (StronglySorted key_le ["CT2.dcm"; "CT10.dcm"]) as Hs
    by (repeat constructor; vm_compute; reflexivity).
  split; [exact Hs |].
  refine (proj1 (natural_sort_idempotent ["CT2.dcm"; "CT10.dcm"]) _ Hs).
  intros x [<- | [<- | []]]; eexists; vm_compute; reflexivity.
Defined.

Lemma natural_sort_stable_witness :
  natural_sort ["CT1.dcm"; "ct1.DCM"; "CT0.dcm"]
    = Ok ["CT0.dcm"; "CT1.dcm"; "ct1.DCM"]
  /\ List.filter (key_tie "Ct1.dcm") ["CT0.dcm"; "CT1.dcm"; "ct1.DCM"]
     = ["CT1.dcm"; "ct1.DCM"].
Proof.
  assert (natural_sort ["CT1.dcm"; "ct1.DCM"; "CT0.dcm"]
          = Ok ["CT0.dcm"; "CT1.dcm"; "ct1.DCM"]) as Hs
    by (vm_compute; reflexivity).
  split; [exact Hs |].
  rewrite (natural_sort_stable _ _ "Ct1.dcm" Hs).
  vm_compute. reflexivity.
Defined.

Lemma natural_sort_any_listing_witness :
  Permutation ["CT10.dcm"; "CT2.dcm"] ["CT2.dcm"; "CT10.dcm"]
  /\ natural_sort ["CT10.dcm"; "CT2.dcm"]
     = natural_sort ["CT2.dcm"; "CT10.dcm"].
Proof.
  assert (Permutation ["CT10.dcm"; "CT2.dcm"] ["CT2.dcm"; "CT10.dcm"]) as Hp
    by apply perm_swap.
  split; [exact Hp |].
  apply (natural_sort_any_listing _ _ Hp).
  intros x y [<- | [<- | []]] [<- | [<- | []]] Htie;
    first [reflexivity | vm_compute in Htie; discriminate].
Defined.

Lemma alphanum_key_ignores_case_witness :
  is_ascii "CT1.dcm" = true
  /\ lower_string "ct1.DCM" = lower_string "CT1.dcm"
  /\ natural_sort ["CT1.dcm"; "ct1.DCM"] = Ok ["CT1.dcm"; "ct1.DCM"].
Proof.
  split; [reflexivity | split; [reflexivity |]].
  exact (proj2 (proj2 (proj2 (proj2
           (alphanum_key_ignores_case "CT1.dcm" eq_refl)))
           "ct1.DCM" eq_refl eq_refl)).
Defined.

Lemma natural_sort_by_number_witness :
  (decimal_value "2" < decimal_value "10")%N
  /\ natural_sort ["/p/CT10.dcm"; "/p/CT2.dcm"]
     = Ok ["/p/CT2.dcm"; "/p/CT10.dcm"].
Proof.
  assert (decimal_value "2" < decimal_value "10")%N as Hlt by reflexivity.
  split; [exact Hlt |].
  exact (proj2 (proj1 (natural_sort_by_number "/p/C" "T" "2" "10" ".dcm"
                         ".dcm" eq_refl eq_refl eq_refl eq_refl eq_refl
                         eq_refl eq_refl)
                  Hlt)).
Defined.

Lemma basename_listed_witness :
  has_slash "notes.txt" = false
  /\ basename "/data/CT/notes.txt" = "notes.txt"
  /\ has_dicom_prefix "/data/CT/notes.txt" = false.
Proof.
  split; [reflexivity |].
  destruct (proj2 basename_listed "/data/CT" "notes.txt" eq_refl)
    as [Hb Hp].
  split; [exact Hb |].
  change ("/data/CT/notes.txt") with ("/data/CT" +:+ "/" +:+ "notes.txt").
  rewrite Hp. vm_compute. reflexivity.
Defined.

Lemma has_dicom_prefix_case_witness :
  is_ascii "/p/ct1.dcm" = true
  /\ has_dicom_prefix "/p/ct1.dcm" = has_dicom_prefix "/p/CT1.DCM"
  /\ has_dicom_prefix "/p/C" = false.
Proof.
  split; [reflexivity |].
  split.
  - symmetry.
    exact (proj1 (proj2 (has_dicom_prefix_case "/p/ct1.dcm" eq_refl))).
  - refine (proj2 (proj2 (has_dicom_prefix_case "/p/C" eq_refl)) _).
    vm_compute. lia.
Defined.

Lemma get_datasets_reads_only_inspected_witness :
  dcmread ex_directory "/p/notes.txt"
    <> dcmread ex_directory_notes "/p/notes.txt"
  /\ get_datasets ex_directory "/p" = get_datasets ex_directory_notes "/p".
Proof.
  split; [discriminate |].
  apply get_datasets_reads_only_inspected; [reflexivity | reflexivity |].
  intros file Hin Hi. vm_compute in Hin.
  repeat (destruct Hin as [<- | Hin];
          [first [reflexivity | vm_compute in Hi; discriminate] |]).
  contradiction.
Defined.

Lemma get_datasets_listing_order_witness :
  glob ex_directory_rev "/p/*" = rev (glob ex_directory "/p/*")
  /\ get_datasets ex_directory "/p" = get_datasets ex_directory_rev "/p".
Proof.
  split; [reflexivity |].
  apply get_datasets_listing_order; [apply Permutation_rev | reflexivity
                                    | reflexivity |].
  intros x y Hx Hy Htie. vm_compute in Hx, Hy.
  repeat (destruct Hx as [<- | Hx]; [| try contradiction]);
    repeat (destruct Hy as [<- | Hy]; [| try contradiction]);
    first [reflexivity | vm_compute in Htie; discriminate].
Defined.

Lemma get_datasets_entries_witness :
  exists r f out,
    get_datasets ex_directory "/p" = Ok (r, f, out)
    /\ f !! KStr "rtss" = Some "/p/RS2.dcm"
    /\ r !! KStr "rtss" = Some (mkDataset "RTSTRUCT" "PAT7" 22).
Proof.
  destruct (get_datasets ex_directory "/p") as [[[r f] out] | e] eqn:Hg;
    [| vm_compute in Hg; discriminate].
  exists r, f, out. split; [reflexivity |].
  assert (f !! KStr "rtss" = Some "/p/RS2.dcm") as Hf
    by (vm_compute in Hg; injection Hg as <- <- <-; vm_compute; reflexivity).
  split; [exact Hf |].
  destruct (get_datasets_entries ex_directory "/p" r f out Hg
              (KStr "rtss") "/p/RS2.dcm" Hf)
    as (_ & _ & _ & read_file & Hread & Hr & _).
  rewrite Hr. vm_compute in Hread. symmetry. exact Hread.
Defined.

Lemma get_datasets_complete_witness :
  exists r f out,
    get_datasets ex_directory "/p" = Ok (r, f, out)
    /\ has_modality ex_directory "CT" "/p/CT10.dcm" = true
    /\ exists k, f !! KInt k = Some "/p/CT10.dcm".
Proof.
  destruct (get_datasets ex_directory "/p") as [[[r f] out] | e] eqn:Hg;
    [| vm_compute in Hg; discriminate].
  exists r, f, out. split; [reflexivity |].
  split; [reflexivity |].
  apply (proj1 (get_datasets_complete ex_directory "/p" r f out Hg));
    [| reflexivity].
  vm_compute. tauto.
Defined.

Lemma dvh2csv_no_bins_witness :
  (forall item, In item ex_no_bins -> counts (snd item) = [])
  /\ dvh2csv ex_no_bins ["out"; "CSV"] "DVHs_.csv" "PAT7" (ex_csv_world None)
     = (Raise ValueError, ex_csv_world None).
Proof.
  assert (forall item, In item ex_no_bins -> counts (snd item) = [])
    as Hall by (intros item [<- | []]; reflexivity).
  split; [exact Hall |].
  apply (dvh2csv_no_bins ex_no_bins ["out"; "CSV"] "DVHs_.csv" "PAT7"
           (ex_csv_world None)); [discriminate | exact Hall].
Defined.

Lemma dvh2csv_empty_witness :
  files (ex_csv_world None) !! joinpath ["out"; "CSV"] "DVHs_.csv" = None
  /\ file_name "DVHs_.csv" = true
  /\ fs_isdir (files (ex_csv_world None)) ["out"; "CSV"] = true
  /\ fs_isfile
       (files (snd (dvh2csv [] ["out"; "CSV"] "DVHs_.csv" "PAT7"
                      (ex_csv_world None)))) ["out"; "CSV"; "DVHs_.csv"]
     = true.
Proof.
  split; [reflexivity | split; [reflexivity | split; [reflexivity |]]].
  rewrite (proj2 (dvh2csv_empty ["out"; "CSV"] "DVHs_.csv" "PAT7"
                    (ex_csv_world None)) eq_refl eq_refl eq_refl).
  reflexivity.
Defined.

Lemma dvh_frame_rectangular_witness :
  exists df, dvh_frame ex_dvhs "PAT7" = Ok df /\ length (rows df) = 3.
Proof.
  eexists. split; [reflexivity |].
  exact (proj1 (dvh_frame_rectangular ex_dvhs "PAT7" _ eq_refl)).
Defined.

Lemma dvh2csv_touches_target_only_witness :
  ["out"] <> joinpath ["out"; "CSV"] "DVHs_.csv"
  /\ files (snd (dvh2csv ex_dvhs ["out"; "CSV"] "DVHs_.csv" "PAT7"
                   (ex_csv_world None))) !! ["out"] = Some Dir.
Proof.
  assert (["out"] <> joinpath ["out"; "CSV"] "DVHs_.csv") as Hne
    by discriminate.
  split; [exact Hne |].
  exact (eq_trans
           (proj2 (proj2 (proj2
              (dvh2csv_touches_target_only ex_dvhs ["out"; "CSV"]
                 "DVHs_.csv" "PAT7" (ex_csv_world None)))) ["out"] Hne)
           eq_refl).
Defined.

Lemma dvh2csv_twice_witness :
  files (ex_csv_world None) !! joinpath ["out"; "CSV"] "DVHs_.csv" = None
  /\ file_name "DVHs_.csv" = true
  /\ fs_isdir (files (ex_csv_world None)) ["out"; "CSV"] = true
  /\ fst (dvh2csv ex_dvhs ["out"; "CSV"] "DVHs_.csv" "PAT8"
            (snd (dvh2csv ex_dvhs ["out"; "CSV"] "DVHs_.csv" "PAT7"
                    (ex_csv_world None)))) = Ok tt.
Proof.
  split; [reflexivity | split; [reflexivity | split; [reflexivity |]]].
  exact (proj1 (proj2 (dvh2csv_twice ex_dvhs ex_dvhs ["out"; "CSV"]
                         "DVHs_.csv" "PAT7" "PAT8" (ex_csv_world None)
                         eq_refl eq_refl eq_refl ex_dvhs_bins
                         ex_dvhs_bins))).
Defined.

Lemma start_key_error_witness :
  dataset (patient_dict_container ex_world_unloaded) !! KStr "rtss" = None
  /\ fst (start (ex_job false false true) (ex_loading (Ok ex_dvhs))
            ex_world_unloaded) = Raise KeyError.
Proof.
  split; [reflexivity |].
  rewrite (start_key_error (ex_job false false true)
             (ex_loading (Ok ex_dvhs)) ex_world_unloaded
             eq_refl eq_refl (or_introl eq_refl)).
  reflexivity.
Defined.

Lemma start_propagates_witness :
  loaded ex_world ex_rtss ex_rtdose
  /\ fst (start (ex_job false false true) (ex_loading (Raise ValueError))
            ex_world) = Raise ValueError.
Proof.
  split; [exact ex_world_loaded |].
  rewrite (start_propagates (ex_job false false true)
             (ex_loading (Raise ValueError)) ex_world ex_rtss ex_rtdose
             ValueError eq_refl eq_refl ex_world_loaded eq_refl);
    [reflexivity | discriminate].
Defined.

Lemma start_exports_fresh_witness :
  reaches_export (ex_job false false true) (ex_loading (Ok ex_dvhs)) ex_world
    ex_rtss ex_rtdose ex_dvhs
  /\ file_name (filename (ex_job false false true)) = true
  /\ fst (start (ex_job false false true) (ex_loading (Ok ex_dvhs)) ex_world)
     = Ok PyNone
  /\ fs_isfile
       (files (snd (start (ex_job false false true)
                      (ex_loading (Ok ex_dvhs)) ex_world)))
       ["out"; "CSV"; "DVHs_.csv"] = true.
Proof.
  pose proof (ex_reaches_export ex_world ex_dvhs ex_world_loaded) as Hr.
  split; [exact Hr | split; [reflexivity |]].
  rewrite (start_exports_fresh _ _ _ _ _ _ Hr ex_dvhs_bins
             eq_refl eq_refl eq_refl eq_refl).
  split; reflexivity.
Defined.

Lemma start_exports_again_witness :
  files (ex_csv_world (Some ex_old))
    !! joinpath (joinpath ["out"] "CSV") "DVHs_.csv" = Some (File ex_old)
  /\ fst (start (ex_job false false true) (ex_loading (Ok ex_dvhs))
            (ex_csv_world (Some ex_old))) = Ok PyNone.
Proof.
  split; [reflexivity |].
  rewrite (start_exports_again (ex_job false false true)
             (ex_loading (Ok ex_dvhs)) (ex_csv_world (Some ex_old))
             ex_rtss ex_rtdose ex_dvhs ex_old
             (ex_reaches_export _ ex_dvhs (ex_csv_world_loaded _))
             ex_dvhs_bins eq_refl eq_refl).
  reflexivity.
Defined.

Lemma start_export_fails_witness :
  fs_isdir (files ex_world_no_out) ["out"] = false
  /\ start (ex_job false false true) (ex_loading (Ok ex_dvhs)) ex_world_no_out
     = (Raise OSError, at_export ex_world_no_out).
Proof.
  split; [reflexivity |].
  exact (proj1 (start_export_fails (ex_job false false true)
                  (ex_loading (Ok ex_dvhs)) ex_world_no_out
                  ex_rtss ex_rtdose ex_dvhs
                  (ex_reaches_export _ ex_dvhs ex_world_no_out_loaded)
                  eq_refl) eq_refl).
Defined.

Lemma start_effects_witness :
  exists sent,
    progress (snd (start (ex_job false false true) (ex_loading (Ok ex_dvhs))
                     ex_world)) = progress ex_world ++ sent
    /\ (sent = [] \/ sent = [checking; calculating]
        \/ sent = [checking; calculating; exporting]).
Proof.
  exact (proj1 (start_effects (ex_job false false true)
                  (ex_loading (Ok ex_dvhs)) ex_world)).
Defined.

Lemma set_filename_export_witness :
  file_name "lung.csv" = true
  /\ fs_isfile
       (files (snd (start (set_filename (ex_job false false true) "lung.csv")
                      (ex_loading (Ok ex_dvhs)) ex_world)))
       ["out"; "CSV"; "lung.csv"] = true
  /\ fs_isfile
       (files (snd (start (set_filename (ex_job false false true) "")
                      (ex_loading (Ok ex_dvhs)) ex_world)))
       ["out"; "CSV"; "DVHs_.csv"] = true.
Proof.
  split; [reflexivity |].
  split.
  - rewrite (set_filename_export (ex_job false false true) "lung.csv"
               (ex_loading (Ok ex_dvhs)) ex_world ex_rtss ex_rtdose ex_dvhs
               eq_refl (ex_reaches_export ex_world ex_dvhs ex_world_loaded)
               ex_dvhs_bins eq_refl eq_refl eq_refl).
    reflexivity.
  - rewrite (set_filename_export (ex_job false false true) ""
               (ex_loading (Ok ex_dvhs)) ex_world ex_rtss ex_rtdose ex_dvhs
               eq_refl (ex_reaches_export ex_world ex_dvhs ex_world_loaded)
               ex_dvhs_bins eq_refl eq_refl eq_refl).
    reflexivity.
Defined.

Lemma natural_sort_outcome_witness :
  natural_sort [ex_arabic; "/p/CT1.dcm"] = Raise TypeError
  /\ exists x y,
       In x [ex_arabic; "/p/CT1.dcm"] /\ In y [ex_arabic; "/p/CT1.dcm"]
       /\ key_lt x y = Raise TypeError.
Proof.
  assert (natural_sort [ex_arabic; "/p/CT1.dcm"] = Raise TypeError) as Hs
    by (vm_compute; reflexivity).
  split; [exact Hs |].
  pose proof (natural_sort_outcome [ex_arabic; "/p/CT1.dcm"]) as Hout.
  rewrite Hs in Hout.
  destruct Hout as [[He _] | (_ & _ & Hxy)]; [discriminate | exact Hxy].
Defined.

Lemma natural_sort_refines_witness :
  is_ascii "/p" = true
  /\ natural_sort ["/p/CT1.dcm"; "/p/CT10.dcm"; "/p/CT2.dcm"]
     = Ok ["/p/CT1.dcm"; "/p/CT2.dcm"; "/p/CT10.dcm"].
Proof.
  split; [reflexivity |].
  exact (proj2 (proj2 (proj2 (proj2 natural_sort_refines))) "/p" eq_refl).
Defined.

Lemma get_datasets_unreadable_skipped_witness :
  exists r f out,
    get_datasets ex_directory "/p" = Ok (r, f, out)
    /\ out = ["Natural Sorting..."; "ERROR: Cannot read file /p/CT3.dcm"]
    /\ unreadable ex_directory "/p/CT3.dcm" = true
    /\ (forall k, f !! k <> Some "/p/CT3.dcm").
Proof.
  destruct (get_datasets ex_directory "/p") as [[[r f] out] | e] eqn:Hg;
    [| vm_compute in Hg; discriminate].
  exists r, f, out. split; [reflexivity |].
  destruct (proj1 (get_datasets_unreadable_skipped ex_directory "/p")
              r f out Hg) as (dcm_files & Hs & Hout & Hrec & _).
  assert (dcm_files
          = ["/p/CT2.dcm"; "/p/CT3.dcm"; "/p/CT10.dcm"; "/p/notes.txt";
             "/p/rd1.dcm"; "/p/RS1.dcm"; "/p/RS2.dcm"; "/p/RT9.dcm"]) as ->
    by (pose proof ex_directory_sorted as Hs'; cbn in Hs, Hs'; congruence).
  split; [exact Hout | split; [reflexivity |]].
  intros k Hk. apply Hrec in Hk. vm_compute in Hk. discriminate.
Defined.
